(** * teamcity-exporter: the metrics-collection core, embedded and verified

    The Go sources of the exporter (metrics.go, agents.go, projects.go,
    the builds collector and main) are embedded as Rocq functions.  The
    libraries the exporter calls (time, encoding/json, net/http, sync,
    logrus, prometheus) are modelled as far as the exporter uses them;
    each such model says which library function it follows. *)

From Stdlib Require Import ZArith List String Ascii Bool Lia.
Import ListNotations.

Set Warnings "-register-all".

Local Open Scope string_scope.
Local Open Scope list_scope.
Local Open Scope Z_scope.

Infix "+++" := String.append (at level 60, right associativity).

(** ** Small string helpers (Go slicing of strings) *)

Module Str.

(** [s[:n]] *)
Fixpoint take (n : nat) (s : string) : string :=
  match n, s with
  | S k, String c r => String c (take k r)
  | _, _ => EmptyString
  end.

(** [s[n:]] *)
Fixpoint drop (n : nat) (s : string) : string :=
  match n, s with
  | S k, String _ r => drop k r
  | _, _ => s
  end.

Definition len (s : string) : Z := Z.of_nat (String.length s).

Definition code (c : ascii) : Z := Z.of_N (N_of_ascii c).

Definition dquote : ascii := "034"%char.

(** [strings.TrimLeft(s, cutset)] for a one-byte cutset. *)
Fixpoint trimLeft (c : ascii) (s : string) : string :=
  match s with
  | String a r => if Ascii.eqb a c then trimLeft c r else s
  | EmptyString => EmptyString
  end.

(** [strings.TrimRight(s, cutset)] for a one-byte cutset. *)
Fixpoint trimRight (c : ascii) (s : string) : string :=
  match s with
  | String a r =>
      match trimRight c r with
      | EmptyString => if Ascii.eqb a c then EmptyString else String a EmptyString
      | r' => String a r'
      end
  | EmptyString => EmptyString
  end.

(** [strings.Trim(s, cutset)] for a one-byte cutset. *)
Definition trim (c : ascii) (s : string) : string := trimRight c (trimLeft c s).

(** One decimal digit as a byte. *)
Definition digit (d : Z) : ascii := ascii_of_N (Z.to_N (48 + d)).

Fixpoint utoa_aux (fuel : nat) (u : Z) (acc : string) : string :=
  match fuel with
  | O => acc
  | S f =>
      let acc' := String (digit (u mod 10)) acc in
      if u <? 10 then acc' else utoa_aux f (u / 10) acc'
  end.

(** Decimal digits of an unsigned 64-bit number (at most 20 digits). *)
Definition utoa (u : Z) : string := utoa_aux 20 u EmptyString.

(** [fmt.Sprintf("%d", n)] *)
Definition itoa (n : Z) : string :=
  if n <? 0 then String "-" (utoa (- n)) else utoa n.

Fixpoint zeros (n : nat) : string :=
  match n with
  | O => EmptyString
  | S k => String "0" (zeros k)
  end.

End Str.

(** ** Package time, for the layout the exporter uses

    [Parse] and [Format] below follow Go's time/format.go, specialised to
    the layout "20060102T150405-0700", whose chunks are stdLongYear,
    stdZeroMonth, stdZeroDay, the literal "T", stdHour, stdZeroMinute,
    stdZeroSecond and stdNumTZ.  The calendar arithmetic follows
    time/time.go ([Date], [absDate], [daysSinceEpoch]). *)

Module GoTime.

Definition secondsPerMinute := 60.
Definition secondsPerHour := 3600.
Definition secondsPerDay := 86400.
Definition daysPer400Years := 146097.
Definition daysPer100Years := 36524.
Definition daysPer4Years := 1461.

Definition absoluteZeroYear := -292277022399.
Definition unixToInternal := 62135596800.
Definition internalToUnix := - unixToInternal.
Definition absoluteToInternal := -9223371966579724800.
Definition internalToAbsolute := - absoluteToInternal.

Definition two64 := 18446744073709551616.

(** Conversion to uint64 and to int64 (two's complement wrap-around). *)
Definition to_uint64 (x : Z) : Z := x mod two64.
Definition to_int64 (x : Z) : Z := (x + two64 / 2) mod two64 - two64 / 2.

(** An instant with the offset of its location: seconds since the Unix
    epoch, nanoseconds within the second, and the zone offset in seconds
    east of UTC. *)
Record Time := mkTime { unixSec : Z; nsec : Z; offset : Z }.

(** [Time{}]: January 1, year 1, 00:00:00 UTC. *)
Definition zero : Time := mkTime internalToUnix 0 0.

(** [t.Unix()] *)
Definition Unix (t : Time) : Z := unixSec t.

Definition isLeap (year : Z) : bool :=
  (Z.rem year 4 =? 0) && (negb (Z.rem year 100 =? 0) || (Z.rem year 400 =? 0)).

Definition daysBefore : list Z :=
  [0; 31; 59; 90; 120; 151; 181; 212; 243; 273; 304; 334; 365].

Definition daysBeforeAt (i : Z) : Z := nth (Z.to_nat i) daysBefore 0.

Definition February := 2.
Definition March := 3.

Definition daysIn (m year : Z) : Z :=
  if (m =? February) && isLeap year then 29
  else daysBeforeAt m - daysBeforeAt (m - 1).

Definition daysSinceEpoch (year : Z) : Z :=
  let y := to_uint64 (year - absoluteZeroYear) in
  let n := y / 400 in
  let y := y - 400 * n in
  let d := daysPer400Years * n in
  let n := y / 100 in
  let y := y - 100 * n in
  let d := d + daysPer100Years * n in
  let n := y / 4 in
  let y := y - 4 * n in
  let d := d + daysPer4Years * n in
  let n := y in
  d + 365 * n.

(** [absDate(abs, true)]: year, month, day of month. *)
Definition absDate (abs : Z) : Z * Z * Z :=
  let d := abs / secondsPerDay in
  let n := d / daysPer400Years in
  let y := 400 * n in
  let d := d - daysPer400Years * n in
  let n := d / daysPer100Years in
  let n := n - Z.shiftr n 2 in
  let y := y + 100 * n in
  let d := d - daysPer100Years * n in
  let n := d / daysPer4Years in
  let y := y + 4 * n in
  let d := d - daysPer4Years * n in
  let n := d / 365 in
  let n := n - Z.shiftr n 2 in
  let y := y + n in
  let d := d - 365 * n in
  let year := to_int64 y + absoluteZeroYear in
  let day := d in
  if isLeap year && (day =? 31 + 29 - 1) then (year, February, 29)
  else
    let day := if isLeap year && (31 + 29 - 1 <? day) then day - 1 else day in
    let month := day / 31 in
    let end_ := daysBeforeAt (month + 1) in
    let '(month, begin) :=
      if end_ <=? day then (month + 1, end_) else (month, daysBeforeAt month) in
    (year, month + 1, day - begin + 1).

(** [t.abs()]: seconds since the absolute epoch, in the zone of [t]. *)
Definition abs (t : Time) : Z :=
  to_uint64 (to_int64 (unixSec t + offset t) + (unixToInternal + internalToAbsolute)).

Definition Year (t : Time) : Z := let '(y, _, _) := absDate (abs t) in y.

(** [norm(hi, lo, base)] *)
Definition norm (hi lo base : Z) : Z * Z :=
  let '(hi, lo) :=
    if lo <? 0 then
      let n := Z.quot (- lo - 1) base + 1 in (hi - n, lo + n * base)
    else (hi, lo) in
  if base <=? lo then
    let n := Z.quot lo base in (hi + n, lo - n * base)
  else (hi, lo).

(** [Date(year, month, day, hour, min, sec, nsec, UTC)] *)
Definition Date (year month day hour min sec nsec : Z) : Time :=
  let m := month - 1 in
  let '(year, m) := norm year m 12 in
  let month := m + 1 in
  let '(sec, nsec) := norm sec nsec 1000000000 in
  let '(min, sec) := norm min sec 60 in
  let '(hour, min) := norm hour min 60 in
  let '(day, hour) := norm day hour 24 in
  let d := daysSinceEpoch year in
  let d := d + daysBeforeAt (month - 1) in
  let d := if isLeap year && (March <=? month) then d + 1 else d in
  let d := to_uint64 (d + to_uint64 (day - 1)) in
  let abs := to_uint64 (d * secondsPerDay) in
  let abs :=
    to_uint64 (abs + to_uint64 (hour * secondsPerHour + min * secondsPerMinute + sec)) in
  let unix := to_int64 (to_int64 abs + (absoluteToInternal + internalToUnix)) in
  mkTime unix nsec 0.

(** *** Formatting *)

(** [appendInt(b, x, width)]: the decimal form of [x], zero-padded. *)
Definition appendInt (x : Z) (width : nat) : string :=
  let s := Str.utoa (Z.abs x) in
  let padded := Str.zeros (width - String.length s) +++ s in
  if x <? 0 then String "-" padded else padded.

(** [t.Format("20060102T150405-0700")] *)
Definition Format (t : Time) : string :=
  let a := abs t in
  let '(year, month, day) := absDate a in
  let s := a mod secondsPerDay in
  let hour := s / secondsPerHour in
  let s := s - hour * secondsPerHour in
  let min := s / secondsPerMinute in
  let sec := s - min * secondsPerMinute in
  let zone := Z.quot (offset t) 60 in
  let sign := if zone <? 0 then "-" else "+" in
  let zone := if zone <? 0 then - zone else zone in
  appendInt year 4 +++ appendInt month 2 +++ appendInt day 2 +++ "T"
    +++ appendInt hour 2 +++ appendInt min 2 +++ appendInt sec 2
    +++ sign +++ appendInt (Z.quot zone 60) 2 +++ appendInt (Z.rem zone 60) 2.

(** *** Parsing *)

Inductive ParseError : Type :=
| errBad
| errAtoi
| errRange (what : string)
| errExtraText (rest : string).

Definition res (A : Type) : Type := (ParseError + A)%type.

Definition bind {A B} (r : res A) (k : A -> res B) : res B :=
  match r with
  | inl e => inl e
  | inr a => k a
  end.

Notation "x <- r ;; k" := (bind r (fun x => k))
  (at level 61, r at next level, right associativity).
Notation "' p <- r ;; k" := (bind r (fun x => match x with p => k end))
  (at level 61, p pattern, r at next level, right associativity).

Definition isDigit (s : string) (i : nat) : bool :=
  match String.get i s with
  | Some c => (48 <=? Str.code c) && (Str.code c <=? 57)
  | None => false
  end.

Definition digitVal (c : ascii) : Z := Str.code c - 48.

Definition commaOrPeriod (c : ascii) : bool :=
  Ascii.eqb c "." || Ascii.eqb c ",".

(** [getnum(s, fixed)] *)
Definition getnum (s : string) (fixed : bool) : res (Z * string) :=
  if negb (isDigit s 0) then inl errBad
  else if negb (isDigit s 1) then
    if fixed then inl errBad
    else match s with
         | String a r => inr (digitVal a, r)
         | EmptyString => inl errBad
         end
  else match s with
       | String a (String b r) => inr (digitVal a * 10 + digitVal b, r)
       | _ => inl errBad
       end.

(** [leadingInt(s)]: the leading digits of [s] and the rest; overflow
    beyond 1<<63 is an error. *)
Fixpoint leadingInt_aux (s : string) (x : Z) : option (Z * string) :=
  match s with
  | String c r =>
      if (48 <=? Str.code c) && (Str.code c <=? 57) then
        if two64 / 2 / 10 <? x then None
        else
          let x := x * 10 + digitVal c in
          if two64 / 2 <? x then None else leadingInt_aux r x
      else Some (x, s)
  | EmptyString => Some (x, s)
  end.

Definition leadingInt (s : string) : option (Z * string) := leadingInt_aux s 0.

(** [atoi(s)] *)
Definition atoi (s : string) : res Z :=
  let '(neg, s) :=
    match s with
    | String c r =>
        if Ascii.eqb c "-" then (true, r)
        else if Ascii.eqb c "+" then (false, r)
        else (false, s)
    | EmptyString => (false, s)
    end in
  match leadingInt s with
  | Some (q, EmptyString) => inr (if neg then - to_int64 q else to_int64 q)
  | _ => inl errAtoi
  end.

(** Length of the fractional-second text: the separator, one digit and
    the digits that follow. *)
Fixpoint fracLen (s : string) : nat :=
  match s with
  | String c r =>
      if (48 <=? Str.code c) && (Str.code c <=? 57) then S (fracLen r) else O
  | EmptyString => O
  end.

(** [parseNanoseconds(value, nbytes)] *)
Definition parseNanoseconds (value : string) (nbytes : nat) : res Z :=
  match value with
  | String c _ =>
      if negb (commaOrPeriod c) then inl errBad
      else
        let nbytes := if (10 <? nbytes)%nat then 10%nat else nbytes in
        let value := Str.take nbytes value in
        ns <- atoi (Str.drop 1 value) ;;
        if ns <? 0 then inl (errRange "fractional second")
        else inr (ns * 10 ^ Z.of_nat (10 - nbytes))
  | EmptyString => inl errBad
  end.

(** The stdNumTZ chunk: sign, two digits of hours, two of minutes. *)
Definition parseNumTZ (value : string) : res (Z * string) :=
  if Str.len value <? 5 then inl errBad
  else
    let sign := Str.take 1 value in
    let hour := Str.take 2 (Str.drop 1 value) in
    let min := Str.take 2 (Str.drop 3 value) in
    let seconds := "00" in
    let value := Str.drop 5 value in
    let '(hr, err) :=
      match getnum hour true with
      | inr (n, _) => (n, None)
      | inl e => (0, Some e)
      end in
    let '(mm, err) :=
      match err with
      | None => match getnum min true with
                | inr (n, _) => (n, None)
                | inl e => (0, Some e)
                end
      | Some e => (0, Some e)
      end in
    let '(ss, err) :=
      match err with
      | None => match getnum seconds true with
                | inr (n, _) => (n, None)
                | inl e => (0, Some e)
                end
      | Some e => (0, Some e)
      end in
    let rangeErr := if 24 <? hr then Some "time zone offset hour" else None in
    let rangeErr := if 60 <? mm then Some "time zone offset minute" else rangeErr in
    let rangeErr := if 60 <? ss then Some "time zone offset second" else rangeErr in
    let zoneOffset := (hr * 60 + mm) * 60 + ss in
    let '(zoneOffset, err) :=
      match sign with
      | String c _ =>
          if Ascii.eqb c "+" then (zoneOffset, err)
          else if Ascii.eqb c "-" then (- zoneOffset, err)
          else (zoneOffset, Some errBad)
      | EmptyString => (zoneOffset, Some errBad)
      end in
    match rangeErr, err with
    | Some what, _ => inl (errRange what)
    | None, Some e => inl e
    | None, None => inr (zoneOffset, value)
    end.

Definition check (bad : bool) (e : ParseError) : res unit :=
  if bad then inl e else inr tt.

(** The chunks of the layout, each as its case of the switch in
    [parse]: the value read and the text that is left. *)

Definition stdLongYear (value : string) : res (Z * string) :=
  if (Str.len value <? 4) || negb (isDigit value 0) then inl errBad
  else y <- atoi (Str.take 4 value) ;; inr (y, Str.drop 4 value).

Definition stdZeroMonth (value : string) : res (Z * string) :=
  '(month, value) <- getnum value true ;;
  _ <- check ((month <=? 0) || (12 <? month)) (errRange "month") ;;
  inr (month, value).

Definition stdZeroDay (value : string) : res (Z * string) :=
  getnum value true.

(** [skip(value, "T")] *)
Definition prefixT (value : string) : res string :=
  match value with
  | String c r => if Ascii.eqb c "T" then inr r else inl errBad
  | EmptyString => inl errBad
  end.

Definition stdHour (value : string) : res (Z * string) :=
  '(hour, value) <- getnum value false ;;
  _ <- check ((hour <? 0) || (24 <=? hour)) (errRange "hour") ;;
  inr (hour, value).

Definition stdZeroMinute (value : string) : res (Z * string) :=
  '(min, value) <- getnum value true ;;
  _ <- check ((min <? 0) || (60 <=? min)) (errRange "minute") ;;
  inr (min, value).

(** Seconds, and a fractional second in the input that the layout does
    not name. *)
Definition stdZeroSecond (value : string) : res (Z * Z * string) :=
  '(sec, value) <- getnum value true ;;
  _ <- check ((sec <? 0) || (60 <=? sec)) (errRange "second") ;;
  match value with
  | String c r =>
      if (2 <=? Str.len value) && commaOrPeriod c && isDigit value 1 then
        let n := S (fracLen r) in
        ns <- parseNanoseconds value n ;;
        inr (sec, ns, Str.drop n value)
      else inr (sec, 0, value)
  | EmptyString => inr (sec, 0, value)
  end.

(** [time.Parse("20060102T150405-0700", value)] *)
Definition Parse (value : string) : res Time :=
  '(year, value) <- stdLongYear value ;;
  '(month, value) <- stdZeroMonth value ;;
  '(day, value) <- stdZeroDay value ;;
  value <- prefixT value ;;
  '(hour, value) <- stdHour value ;;
  '(min, value) <- stdZeroMinute value ;;
  '(sec, nsec, value) <- stdZeroSecond value ;;
  '(zoneOffset, value) <- parseNumTZ value ;;
  (* end of layout: no text may be left *)
  _ <- check (negb (Str.len value =? 0)) (errExtraText value) ;;
  (* validate the day of the month *)
  _ <- check ((day <? 1) || (daysIn month year <? day)) (errRange "day") ;;
  if zoneOffset =? -1 then inr (Date year month day hour min sec nsec)
  else
    let t := Date year month day hour min sec nsec in
    inr (mkTime (to_int64 (unixSec t - zoneOffset)) (GoTime.nsec t) zoneOffset).

End GoTime.

(** ** Go values shared by the collectors *)

(** Values of Go's [error] interface that the exporter can meet. *)
Inductive error : Type :=
| ParseError (e : GoTime.ParseError) (value : string)   (* *time.ParseError *)
| UnmarshalTypeError (value : string) (type_ : string)  (* *json.UnmarshalTypeError *)
| SyntaxError                                           (* *json.SyntaxError *)
| OtherError (msg : string).                            (* net/http, io, the TeamCity client *)

(** *** metrics.go: the temporal codec *)

(** [type TeamCityTime struct { time.Time }] *)
Record TeamCityTime := mkTeamCityTime { Time : GoTime.Time }.

Definition TeamCityTime_zero : TeamCityTime := mkTeamCityTime GoTime.zero.

(** [func (t *TeamCityTime) UnmarshalJSON(b []byte) error]: the receiver
    after the call, and the error returned. *)
Definition UnmarshalJSON (t : TeamCityTime) (b : string) : TeamCityTime * option error :=
  let text := Str.trim Str.dquote b in
  let '(tm, err) :=
    match GoTime.Parse text with
    | inr tm => (tm, None)
    | inl e => (GoTime.zero, Some (ParseError e text))
    end in
  (mkTeamCityTime tm, err).

(** *** metrics.go: build state and status *)

Definition BuildStatus := Z.
Definition BuildState := Z.

Definition BuildStateUnknown : BuildState := 0.
Definition BuildQueued : BuildState := 1.
Definition BuildFinished : BuildState := 2.
Definition BuildRunning : BuildState := 3.
Definition BuildDeleted : BuildState := 4.

Definition BuildStatusUnknown : BuildStatus := 0.
Definition BuildSuccess : BuildStatus := 1.
Definition BuildFailure : BuildStatus := 2.

Definition ParseBuildState (s : string) : BuildState :=
  if String.eqb s "queued" then BuildQueued
  else if String.eqb s "finished" then BuildFinished
  else if String.eqb s "running" then BuildRunning
  else if String.eqb s "deleted" then BuildDeleted
  else BuildStateUnknown.

Definition ParseBuildStatus (s : string) : BuildStatus :=
  if String.eqb s "SUCCESS" then BuildSuccess
  else if String.eqb s "FAILURE" then BuildFailure
  else BuildStatusUnknown.

(** A Go slice as the decoder sees it: the elements below its length, and
    the elements of its backing array beyond the length (which a later
    decode into the same slice exposes again). *)
Record slice (T : Type) := mkSlice { live : list T; spare : list T }.
Arguments mkSlice {T} _ _.
Arguments live {T} _.
Arguments spare {T} _.

Definition nilSlice {T : Type} : slice T := mkSlice [] [].

Record Build := mkBuild {
  Build_ID : Z;                     (* uint64 *)
  BuildTypeID : string;
  Status : string;
  State : string;
  StartDate : TeamCityTime;
  FinishDate : TeamCityTime
}.

Record BuildResponse := mkBuildResponse {
  BR_Count : Z;                     (* uint64 *)
  BR_HRef : string;
  BR_NextHRef : string;
  BR_PrevHRef : string;
  Builds : slice Build
}.

Definition Build_zero : Build :=
  mkBuild 0 EmptyString EmptyString EmptyString TeamCityTime_zero TeamCityTime_zero.

Definition BuildResponse_zero : BuildResponse :=
  mkBuildResponse 0 EmptyString EmptyString EmptyString nilSlice.

(** *** agents.go: the data model *)

Record Agent := mkAgent {
  Agent_ID : Z;                     (* uint64 *)
  Name : string;
  Authorized : bool;
  Connected : bool;
  Enabled : bool;
  CurrentBuild : Build
}.

Record AgentsResponse := mkAgentsResponse {
  AR_Count : Z;                     (* uint64 *)
  AR_HRef : string;
  AR_NextHRef : string;
  AR_PrevHRef : string;
  Agents : slice Agent
}.

Definition Agent_zero : Agent := mkAgent 0 EmptyString false false false Build_zero.

Definition AgentsResponse_zero : AgentsResponse :=
  mkAgentsResponse 0 EmptyString EmptyString EmptyString nilSlice.

(** ** Package encoding/json, as far as the exporter uses it

    [Unmarshal] first checks the syntax of the whole body and then walks it
    in document order, storing each value into the field it names.  The
    body is given here after the syntax scan, as a tree whose string
    literals and member names are still raw (escapes not yet decoded).
    A value whose target implements [Unmarshaler] is handed to it as raw
    text, and an error it returns ends the walk at once; a value that does
    not fit its target is recorded (the first such error is kept) and the
    walk goes on.  What was stored before an error stays stored. *)

Module Json.

Inductive value : Type :=
| Null
| Bool (b : bool)
| Number (lit : string)
| Str (raw : string)
| Array (elems : list value)
| Object (members : list (string * value)).

Definition quote (raw : string) : string :=
  String Str.dquote (raw +++ String Str.dquote EmptyString).

(** The text of a value as it stands in the body (without insignificant
    white space). *)
Fixpoint text (v : value) : string :=
  match v with
  | Null => "null"
  | Bool true => "true"
  | Bool false => "false"
  | Number lit => lit
  | Str raw => quote raw
  | Array elems =>
      "[" +++ (fix go (l : list value) : string :=
                 match l with
                 | [] => EmptyString
                 | [x] => text x
                 | x :: r => text x +++ "," +++ go r
                 end) elems +++ "]"
  | Object members =>
      "{" +++ (fix go (l : list (string * value)) : string :=
                 match l with
                 | [] => EmptyString
                 | [(k, x)] => quote k +++ ":" +++ text x
                 | (k, x) :: r => quote k +++ ":" +++ text x +++ "," +++ go r
                 end) members +++ "}"
  end.

(** The two string functions of the library that the walk relies on:
    decoding of the escapes of a string literal, and the case-insensitive
    comparison of a member name with a field name. *)
Record Lib := mkLib {
  unquote : string -> string;
  equalFold : string -> string -> bool
}.

(** The decoder's error state: [savedError] as in [decodeState], and the
    error that ended the walk, if any. *)
Record dstate := mkDstate { savedError : option error; abort : option error }.

Definition dstate0 : dstate := mkDstate None None.

Definition saveError (d : dstate) (e : error) : dstate :=
  match savedError d with
  | None => mkDstate (Some e) (abort d)
  | Some _ => d
  end.

Definition aborted (d : dstate) : bool :=
  match abort d with Some _ => true | None => false end.

Definition dec (T : Type) : Type := value -> T -> dstate -> T * dstate.

(** The kind of a value, as [UnmarshalTypeError.Value] names it. *)
Definition kindOf (v : value) : string :=
  match v with
  | Null => "null"
  | Bool _ => "bool"
  | Number _ => "number"
  | Str _ => "string"
  | Array _ => "array"
  | Object _ => "object"
  end.

Fixpoint digitsValue (s : string) (acc : Z) : option Z :=
  match s with
  | EmptyString => Some acc
  | String c r =>
      if (48 <=? Str.code c) && (Str.code c <=? 57)
      then digitsValue r (acc * 10 + (Str.code c - 48))
      else None
  end.

(** [strconv.ParseUint(lit, 10, 64)] *)
Definition ParseUint (lit : string) : option Z :=
  match lit with
  | EmptyString => None
  | _ => match digitsValue lit 0 with
         | Some n => if n <? GoTime.two64 then Some n else None
         | None => None
         end
  end.

Definition d_uint64 : dec Z := fun v cur d =>
  match v with
  | Null => (cur, d)
  | Number lit =>
      match ParseUint lit with
      | Some n => (n, d)
      | None => (cur, saveError d (UnmarshalTypeError ("number " +++ lit) "uint64"))
      end
  | _ => (cur, saveError d (UnmarshalTypeError (kindOf v) "uint64"))
  end.

Definition d_bool : dec bool := fun v cur d =>
  match v with
  | Null => (cur, d)
  | Bool b => (b, d)
  | _ => (cur, saveError d (UnmarshalTypeError (kindOf v) "bool"))
  end.

Definition d_string (lib : Lib) : dec string := fun v cur d =>
  match v with
  | Null => (cur, d)
  | Str raw => (unquote lib raw, d)
  | _ => (cur, saveError d (UnmarshalTypeError (kindOf v) "string"))
  end.

(** A field of type [TeamCityTime]: its [UnmarshalJSON] gets the raw text
    of the value, whatever its kind. *)
Definition d_time : dec TeamCityTime := fun v cur d =>
  let '(t, err) := UnmarshalJSON cur (text v) in
  match err with
  | None => (t, d)
  | Some e => (t, mkDstate (savedError d) (Some e))
  end.

Fixpoint indexOf (p : string -> bool) (names : list string) : option nat :=
  match names with
  | [] => None
  | n :: r => if p n then Some O
              else match indexOf p r with Some i => Some (S i) | None => None end
  end.

(** The field a member name selects: an exact match, else the first
    field whose name matches without regard to case. *)
Definition findField (lib : Lib) (names : list string) (rawKey : string)
  : option nat :=
  let key := unquote lib rawKey in
  match indexOf (String.eqb key) names with
  | Some i => Some i
  | None => indexOf (fun n => equalFold lib n key) names
  end.

(** The members of an object, in order, into a struct. *)
Fixpoint d_members {T : Type} (member : string -> dec T)
    (ms : list (string * value)) (cur : T) (d : dstate) : T * dstate :=
  match ms with
  | [] => (cur, d)
  | (k, v) :: rest =>
      let '(cur, d) := member k v cur d in
      if aborted d then (cur, d) else d_members member rest cur d
  end.

Definition d_struct {T : Type} (type_ : string) (member : string -> dec T) : dec T :=
  fun v cur d =>
    match v with
    | Null => (cur, d)
    | Object ms => d_members member ms cur d
    | _ => (cur, saveError d (UnmarshalTypeError (kindOf v) type_))
    end.

(** The elements of an array, in order, into a slice: element [i] is
    decoded into what the backing array holds at [i]. *)
Fixpoint d_elems {T : Type} (elem : dec T) (zero : T) (elems : list value)
    (done : list T) (backing : list T) (liveLeft : nat) (d : dstate)
  : slice T * dstate :=
  match elems with
  | [] =>
      match done with
      | [] => (nilSlice, d)
      | _ => (mkSlice done backing, d)
      end
  | v :: rest =>
      let '(x, d) := elem v (hd zero backing) d in
      let backing := tl backing in
      let liveLeft := Nat.pred liveLeft in
      if aborted d
      then (mkSlice (done ++ x :: firstn liveLeft backing) (skipn liveLeft backing), d)
      else d_elems elem zero rest (done ++ [x]) backing liveLeft d
  end.

Definition d_slice {T : Type} (type_ : string) (elem : dec T) (zero : T)
  : dec (slice T) :=
  fun v cur d =>
    match v with
    | Null => (nilSlice, d)
    | Array elems =>
        d_elems elem zero elems [] (live cur ++ spare cur) (List.length (live cur)) d
    | _ => (cur, saveError d (UnmarshalTypeError (kindOf v) type_))
    end.

Section Decoders.

Variable lib : Lib.

Definition Build_fields : list string :=
  ["id"; "buildTypeId"; "status"; "state"; "startDate"; "finishDate"].

Definition Build_member (k : string) : dec Build := fun v b d =>
  match findField lib Build_fields k with
  | Some 0%nat =>
      let '(x, d) := d_uint64 v (Build_ID b) d in
      (mkBuild x (BuildTypeID b) (Status b) (State b) (StartDate b) (FinishDate b), d)
  | Some 1%nat =>
      let '(x, d) := d_string lib v (BuildTypeID b) d in
      (mkBuild (Build_ID b) x (Status b) (State b) (StartDate b) (FinishDate b), d)
  | Some 2%nat =>
      let '(x, d) := d_string lib v (Status b) d in
      (mkBuild (Build_ID b) (BuildTypeID b) x (State b) (StartDate b) (FinishDate b), d)
  | Some 3%nat =>
      let '(x, d) := d_string lib v (State b) d in
      (mkBuild (Build_ID b) (BuildTypeID b) (Status b) x (StartDate b) (FinishDate b), d)
  | Some 4%nat =>
      let '(x, d) := d_time v (StartDate b) d in
      (mkBuild (Build_ID b) (BuildTypeID b) (Status b) (State b) x (FinishDate b), d)
  | Some 5%nat =>
      let '(x, d) := d_time v (FinishDate b) d in
      (mkBuild (Build_ID b) (BuildTypeID b) (Status b) (State b) (StartDate b) x, d)
  | _ => (b, d)
  end.

Definition d_Build : dec Build := d_struct "main.Build" Build_member.

Definition BuildResponse_fields : list string :=
  ["count"; "href"; "nextHref"; "prevHref"; "build"].

Definition BuildResponse_member (k : string) : dec BuildResponse := fun v r d =>
  match findField lib BuildResponse_fields k with
  | Some 0%nat =>
      let '(x, d) := d_uint64 v (BR_Count r) d in
      (mkBuildResponse x (BR_HRef r) (BR_NextHRef r) (BR_PrevHRef r) (Builds r), d)
  | Some 1%nat =>
      let '(x, d) := d_string lib v (BR_HRef r) d in
      (mkBuildResponse (BR_Count r) x (BR_NextHRef r) (BR_PrevHRef r) (Builds r), d)
  | Some 2%nat =>
      let '(x, d) := d_string lib v (BR_NextHRef r) d in
      (mkBuildResponse (BR_Count r) (BR_HRef r) x (BR_PrevHRef r) (Builds r), d)
  | Some 3%nat =>
      let '(x, d) := d_string lib v (BR_PrevHRef r) d in
      (mkBuildResponse (BR_Count r) (BR_HRef r) (BR_NextHRef r) x (Builds r), d)
  | Some 4%nat =>
      let '(x, d) := d_slice "[]main.Build" d_Build Build_zero v (Builds r) d in
      (mkBuildResponse (BR_Count r) (BR_HRef r) (BR_NextHRef r) (BR_PrevHRef r) x, d)
  | _ => (r, d)
  end.

Definition d_BuildResponse : dec BuildResponse :=
  d_struct "main.BuildResponse" BuildResponse_member.

Definition Agent_fields : list string :=
  ["id"; "name"; "authorized"; "connected"; "enabled"; "build"].

Definition Agent_member (k : string) : dec Agent := fun v a d =>
  match findField lib Agent_fields k with
  | Some 0%nat =>
      let '(x, d) := d_uint64 v (Agent_ID a) d in
      (mkAgent x (Name a) (Authorized a) (Connected a) (Enabled a) (CurrentBuild a), d)
  | Some 1%nat =>
      let '(x, d) := d_string lib v (Name a) d in
      (mkAgent (Agent_ID a) x (Authorized a) (Connected a) (Enabled a) (CurrentBuild a), d)
  | Some 2%nat =>
      let '(x, d) := d_bool v (Authorized a) d in
      (mkAgent (Agent_ID a) (Name a) x (Connected a) (Enabled a) (CurrentBuild a), d)
  | Some 3%nat =>
      let '(x, d) := d_bool v (Connected a) d in
      (mkAgent (Agent_ID a) (Name a) (Authorized a) x (Enabled a) (CurrentBuild a), d)
  | Some 4%nat =>
      let '(x, d) := d_bool v (Enabled a) d in
      (mkAgent (Agent_ID a) (Name a) (Authorized a) (Connected a) x (CurrentBuild a), d)
  | Some 5%nat =>
      let '(x, d) := d_Build v (CurrentBuild a) d in
      (mkAgent (Agent_ID a) (Name a) (Authorized a) (Connected a) (Enabled a) x, d)
  | _ => (a, d)
  end.

Definition d_Agent : dec Agent := d_struct "main.Agent" Agent_member.

Definition AgentsResponse_fields : list string :=
  ["count"; "href"; "nextHref"; "prevHref"; "agent"].

Definition AgentsResponse_member (k : string) : dec AgentsResponse := fun v r d =>
  match findField lib AgentsResponse_fields k with
  | Some 0%nat =>
      let '(x, d) := d_uint64 v (AR_Count r) d in
      (mkAgentsResponse x (AR_HRef r) (AR_NextHRef r) (AR_PrevHRef r) (Agents r), d)
  | Some 1%nat =>
      let '(x, d) := d_string lib v (AR_HRef r) d in
      (mkAgentsResponse (AR_Count r) x (AR_NextHRef r) (AR_PrevHRef r) (Agents r), d)
  | Some 2%nat =>
      let '(x, d) := d_string lib v (AR_NextHRef r) d in
      (mkAgentsResponse (AR_Count r) (AR_HRef r) x (AR_PrevHRef r) (Agents r), d)
  | Some 3%nat =>
      let '(x, d) := d_string lib v (AR_PrevHRef r) d in
      (mkAgentsResponse (AR_Count r) (AR_HRef r) (AR_NextHRef r) x (Agents r), d)
  | Some 4%nat =>
      let '(x, d) := d_slice "[]main.Agent" d_Agent Agent_zero v (Agents r) d in
      (mkAgentsResponse (AR_Count r) (AR_HRef r) (AR_NextHRef r) (AR_PrevHRef r) x, d)
  | _ => (r, d)
  end.

Definition d_AgentsResponse : dec AgentsResponse :=
  d_struct "main.AgentsResponse" AgentsResponse_member.

End Decoders.

(** [json.Unmarshal(body, &v)]: [None] stands for a body that is not
    valid JSON, which leaves [v] untouched. *)
Definition Unmarshal {T : Type} (d : dec T) (body : option value) (v : T)
  : T * option error :=
  match body with
  | None => (v, Some SyntaxError)
  | Some doc =>
      let '(r, st) := d doc v dstate0 in
      (r, match abort st with
          | Some e => Some e
          | None => savedError st
          end)
  end.

End Json.

(** ** Prometheus, logrus, net/http and the TeamCity client *)

(** [*prometheus.Desc]: name, help text and the names of its labels. *)
Record Desc := NewDesc {
  fqName : string;
  help : string;
  variableLabels : list string
}.

(** A constant gauge, as [prometheus.MustNewConstMetric(desc,
    prometheus.GaugeValue, float64(value), labelValues...)] makes it.
    [value] is the integer the collector converts with [float64(...)].
    [MustNewConstMetric] panics when the number of label values is not the
    number of label names of the descriptor; [wellLabelled] below says that
    this is never the case. *)
Record Metric := MustNewConstMetric {
  desc : Desc;
  value : Z;
  labelValues : list string
}.

Inductive Level : Type := FatalLevel | ErrorLevel | InfoLevel | DebugLevel.

Inductive logval : Type :=
| LStr (s : string)
| LInt (n : Z)
| LErr (e : error).

Definition Fields := list (string * logval).

(** What a collector does that the outside can see, in order: a metric
    sent on the channel, a log entry, and a task that stays blocked in
    [wg.Wait()] for good. *)
Inductive event : Type :=
| Send (m : Metric)
| Log (lvl : Level) (fields : Fields) (msg : logval)
| WaitsForever (project : string).

Inductive panic : Type :=
| NilDereference
| NegativeWaitGroupCounter.

(** How a call ends: it returns (with its error, if any), the process
    exits in [logrus.Fatal], it panics, or it never returns. *)
Inductive outcome : Type :=
| Return (err : option error)
| Exit
| Panic (p : panic)
| Blocked.

Definition result := (list event * outcome)%type.

Record Request := mkRequest {
  Method : string;
  URL : string;
  Header : list (string * string)
}.

(** [request.Header.Set(key, v)] *)
Definition Header_Set (r : Request) (key v : string) : Request :=
  mkRequest (Method r) (URL r)
    (filter (fun kv => negb (String.eqb (fst kv) key)) (Header r) ++ [(key, v)]).

(** What [io.ReadAll(response.Body)] gives: the body read (as
    [json.Unmarshal] will see it) and the read error. *)
Record Body := mkBody { content : option Json.value; readErr : option error }.

Record Response := mkResponse { StatusCode : Z; ResponseBody : Body }.

Definition StatusNotFound := 404.

Definition ReadAll (b : Body) : option Json.value * option error :=
  (content b, readErr b).

(** [teamcity.ProjectReference], [teamcity.ProjectReferences],
    [teamcity.BuildTypeReferences] and [teamcity.Project], as far as the
    exporter reads them. *)
Record ProjectReference := mkProjectReference { Ref_ID : string }.

Record ProjectReferences := mkProjectReferences {
  Count : Z;                        (* int *)
  Items : list ProjectReference
}.

Record Project := mkProject {
  ID : string;
  ChildProjects : ProjectReferences;
  BuildTypes_Count : Z               (* int *)
}.

(** The collaborators of the collectors: the configuration (viper), the
    HTTP client and the server behind it, the TeamCity client, and the
    string functions of encoding/json. *)
Record World := mkWorld {
  addr : string;                     (* viper.GetString("addr") *)
  page_count : Z;                    (* viper.GetUint("page.count") *)
  token : string;                    (* viper.GetString("token") *)
  root_project_id : string;          (* viper.GetString("root.project.id") *)
  url_valid : string -> bool;        (* whether http.NewRequest accepts the URL *)
  Do : Request -> option Response * option error;   (* client.Do *)
  GetByID : string -> error + Project;              (* client.Projects.GetByID *)
  jsonLib : Json.Lib
}.

(** [http.NewRequest(method, url, nil)] *)
Definition NewRequest (w : World) (method url : string)
  : option Request * option error :=
  if url_valid w url then (Some (mkRequest method url []), None)
  else (None, Some (OtherError url)).

(** ** sync.WaitGroup, by its documented contract

    A counter: [Add] panics when the counter goes negative, [Done] is
    [Add(-1)], and [Wait] returns when the counter is zero. *)

Module WaitGroup.

Definition t := Z.

Definition new : t := 0.

(** [None] is the panic "sync: negative WaitGroup counter". *)
Definition Add (wg : t) (delta : Z) : option t :=
  if wg + delta <? 0 then None else Some (wg + delta).

Definition Done (wg : t) : option t := Add wg (-1).

(** Whether [Wait] returns. *)
Definition Wait (wg : t) : bool := wg =? 0.

End WaitGroup.

(** ** The build collector: [collectProjectBuildMetrics]

    metrics.go:151-231 and the builds collector (lines 172-252) carry the
    same function body on two collector types; the body is given once,
    over the four descriptors it uses. *)

Section BuildCollection.

Variable w : World.
Variables buildStartTime buildFinishTime buildState buildStatus : Desc.

Definition buildsURL (identifier : string) : string :=
  addr w +++ "/app/rest/builds?locator=count:" +++ Str.utoa (page_count w)
    +++ ",project:id:" +++ identifier
    +++ "&fields=count,nextHref,build(id,buildTypeId,status,state,startDate,finishDate)".

(** The request as it is handed to [client.Do]. *)
Definition withHeaders (request : Request) : Request :=
  Header_Set (Header_Set request "Accept" "application/json")
    "Authorization" ("Bearer " +++ token w).

Definition buildsRequest (identifier : string) : Request :=
  withHeaders (mkRequest "GET" (buildsURL identifier) []).

(** One turn of the loop over [builds.Builds]. *)
Definition buildGauges (identifier : string) (build : Build) : list event :=
  let labels := [identifier; BuildTypeID build; Str.utoa (Build_ID build)] in
  [ Send (MustNewConstMetric buildStartTime
            (GoTime.Unix (Time (StartDate build))) labels);
    Send (MustNewConstMetric buildFinishTime
            (GoTime.Unix (Time (FinishDate build))) labels);
    Send (MustNewConstMetric buildStatus (ParseBuildStatus (Status build)) labels);
    Send (MustNewConstMetric buildState (ParseBuildState (State build)) labels) ].

Definition collectProjectBuildMetrics_of (identifier : string) : result :=
  let logger : Fields := [("project", LStr identifier)] in
  match NewRequest w "GET" (buildsURL identifier) with
  | (_, Some err) => ([], Return (Some err))
  | (None, None) => ([], Panic NilDereference)
  | (Some request, None) =>
      match Do w (withHeaders request) with
      | (_, Some err) => ([], Return (Some err))
      | (None, None) => ([], Panic NilDereference)
      | (Some response, None) =>
          if StatusCode response =? StatusNotFound then ([], Return None)
          else
            match ReadAll (ResponseBody response) with
            | (_, Some err) => ([], Return (Some err))
            | (body, None) =>
                match Json.Unmarshal (Json.d_BuildResponse (jsonLib w)) body
                        BuildResponse_zero with
                | (_, Some err) => ([], Return (Some err))
                | (builds, None) =>
                    let found :=
                      Log InfoLevel (logger ++ [("count", LInt (BR_Count builds))])
                        (LStr "found builds") in
                    let sent :=
                      flat_map (buildGauges identifier) (live (Builds builds)) in
                    if negb (String.eqb (BR_NextHRef builds) EmptyString)
                    then (found :: sent
                            ++ [Log FatalLevel logger
                                  (LStr "multipage requests are not yet supported")],
                          Exit)
                    else (found :: sent, Return None)
                end
            end
      end
  end.

End BuildCollection.

(** ** The fan-out over the subprojects

    metrics.go:131-148, projects.go:82-99 and lines 152-169 of the builds
    collector are the same block.  The tasks run concurrently in the
    source; here they run one after the other, in the order they were
    started, while the parent waits.  A task that never returns never
    calls [wg.Done()].  ([JoinProtocol] below gives the join of one project
    with its steps in any order; its end depends on the count and on the
    number of tasks alone.) *)

Section FanOut.

(** The recursive call of the collector, [None] when the fuel of the
    model is used up. *)
Variable child : string -> option result.
Variable logger : Fields.

Fixpoint runTasks (items : list ProjectReference) (wg : WaitGroup.t)
  : option (list event * (outcome + WaitGroup.t)) :=
  match items with
  | [] => Some ([], inr wg)
  | subproject :: rest =>
      match child (Ref_ID subproject) with
      | None => None
      | Some (evs, Return err) =>
          let evs :=
            evs ++ match err with
                   | Some e => [Log ErrorLevel logger (LErr e)]
                   | None => []
                   end in
          match WaitGroup.Done wg with
          | None => Some (evs, inl (Panic NegativeWaitGroupCounter))
          | Some wg =>
              match runTasks rest wg with
              | None => None
              | Some (evs', r) => Some (evs ++ evs', r)
              end
          end
      | Some (evs, Blocked) =>
          match runTasks rest wg with
          | None => None
          | Some (evs', r) => Some (evs ++ evs', r)
          end
      | Some (evs, Exit) => Some (evs, inl Exit)
      | Some (evs, Panic p) => Some (evs, inl (Panic p))
      end
  end.

Definition fanOut (identifier : string) (p : Project) : option result :=
  match WaitGroup.Add WaitGroup.new (Count (ChildProjects p)) with
  | None => Some ([], Panic NegativeWaitGroupCounter)
  | Some wg =>
      let waiting := Log DebugLevel logger (LStr "waiting for project collection") in
      match runTasks (Items (ChildProjects p)) wg with
      | None => None
      | Some (evs, inl stop) => Some (waiting :: evs, stop)
      | Some (evs, inr wg) =>
          if WaitGroup.Wait wg
          then Some (waiting :: evs
                       ++ [Log DebugLevel logger (LStr "project collection finished")],
                     Return None)
          else Some (waiting :: evs ++ [WaitsForever identifier], Blocked)
      end
  end.

End FanOut.

(** The two structural gauges of a project, with their log entries
    (metrics.go:107-123, projects.go:64-80). *)
Definition projectGauges (projects buildTypes : Desc) (logger : Fields) (p : Project)
  : list event :=
  [ Log DebugLevel (logger ++ [("value", LInt (Count (ChildProjects p)))])
      (LStr "setting project count metric");
    Send (MustNewConstMetric projects (Count (ChildProjects p)) [ID p]);
    Log DebugLevel (logger ++ [("value", LInt (BuildTypes_Count p))])
      (LStr "setting build type count metric");
    Send (MustNewConstMetric buildTypes (BuildTypes_Count p) [ID p]) ].

(** The end of each [Collect]: the error of the traversal is logged. *)
Definition logged (r : option result) (head : event) : option result :=
  match r with
  | None => None
  | Some (evs, Return (Some err)) =>
      Some (head :: evs ++ [Log ErrorLevel [] (LErr err)], Return None)
  | Some (evs, out) => Some (head :: evs, out)
  end.

(** [prometheus.Collector] *)
Class Collector (C : Type) := {
  Describe : C -> list Desc;
  Collect : World -> nat -> C -> option result
}.

(** ** metrics.go: the collector that main registers *)

Module Metrics.

(** The [client] of the collector is part of [World]. *)
Record TeamCityCollector := mkTeamCityCollector {
  projects : Desc;
  buildTypes : Desc;
  buildStartTime : Desc;
  buildFinishTime : Desc;
  buildState : Desc;
  buildStatus : Desc
}.

Definition NewTeamCityCollector : TeamCityCollector :=
  {| projects :=
       NewDesc "teamcity_projects"
         "The total number of subprojects for a TeamCity project."
         ["project_id"];
     buildTypes :=
       NewDesc "teamcity_project_build_types"
         "The total number of build types for a TeamCity project."
         ["project_id"];
     buildStartTime :=
       NewDesc "teamcity_build_start_time"
         "The start time of a TeamCity build job."
         ["project_id"; "build_type_id"; "build_id"];
     buildFinishTime :=
       NewDesc "teamcity_build_finish_time"
         "The finish time of a TeamCity build job."
         ["project_id"; "build_type_id"; "build_id"];
     buildState :=
       NewDesc "teamcity_build_state"
         "The state of a TeamCity build job."
         ["project_id"; "build_type_id"; "build_id"];
     buildStatus :=
       NewDesc "teamcity_build_status"
         "The status of a TeamCity build job."
         ["project_id"; "build_type_id"; "build_id"] |}.

(** [func (collector TeamCityCollector) Describe(ch chan<- *prometheus.Desc) {}]:
    the descriptors sent on [ch]. *)
Definition Describe (collector : TeamCityCollector) : list Desc := [].

Definition collectProjectBuildMetrics (w : World) (collector : TeamCityCollector)
    (identifier : string) : result :=
  collectProjectBuildMetrics_of w (buildStartTime collector)
    (buildFinishTime collector) (buildState collector) (buildStatus collector)
    identifier.

Fixpoint collectProjectMetrics (w : World) (collector : TeamCityCollector)
    (fuel : nat) (identifier : string) : option result :=
  match fuel with
  | O => None
  | S fuel =>
      let logger : Fields := [("project", LStr identifier)] in
      let collecting := Log InfoLevel logger (LStr "collecting project") in
      match GetByID w identifier with
      | inl err => Some ([collecting], Return (Some err))
      | inr p =>
          let gauges :=
            projectGauges (projects collector) (buildTypes collector) logger p in
          match collectProjectBuildMetrics w collector (ID p) with
          | (evs, Return None) =>
              match fanOut (collectProjectMetrics w collector fuel) logger
                      identifier p with
              | None => None
              | Some (evs', out) => Some (collecting :: gauges ++ evs ++ evs', out)
              end
          | (evs, out) => Some (collecting :: gauges ++ evs, out)
          end
      end
  end.

Definition Collect (w : World) (fuel : nat) (collector : TeamCityCollector)
  : option result :=
  logged (collectProjectMetrics w collector fuel (root_project_id w))
    (Log InfoLevel [] (LStr "collecting TeamCity metrics")).

#[global] Instance collector_instance : Collector TeamCityCollector :=
  Build_Collector _ Describe Collect.

End Metrics.

(** ** projects.go *)

Module Projects.

Record TeamCityProjectsCollector := mkTeamCityProjectsCollector {
  buildTypes : Desc;
  projects : Desc
}.

Definition NewTeamCityProjectsCollector : TeamCityProjectsCollector :=
  {| buildTypes :=
       NewDesc "teamcity_project_build_types_total"
         "The total number of build types for a TeamCity project."
         ["project_id"];
     projects :=
       NewDesc "teamcity_projects_total"
         "The total number of subprojects for a TeamCity project."
         ["project_id"] |}.

Definition Describe (collector : TeamCityProjectsCollector) : list Desc :=
  [buildTypes collector; projects collector].

Fixpoint collectProjectMetrics (w : World) (collector : TeamCityProjectsCollector)
    (fuel : nat) (identifier : string) : option result :=
  match fuel with
  | O => None
  | S fuel =>
      let logger : Fields := [("project", LStr identifier)] in
      let collecting := Log InfoLevel logger (LStr "collecting project") in
      match GetByID w identifier with
      | inl err => Some ([collecting], Return (Some err))
      | inr p =>
          let gauges :=
            projectGauges (projects collector) (buildTypes collector) logger p in
          match fanOut (collectProjectMetrics w collector fuel) logger
                  identifier p with
          | None => None
          | Some (evs', out) => Some (collecting :: gauges ++ evs', out)
          end
      end
  end.

Definition Collect (w : World) (fuel : nat) (collector : TeamCityProjectsCollector)
  : option result :=
  logged (collectProjectMetrics w collector fuel (root_project_id w))
    (Log InfoLevel [] (LStr "collecting TeamCity project metrics")).

#[global] Instance collector_instance : Collector TeamCityProjectsCollector :=
  Build_Collector _ Describe Collect.

End Projects.

(** ** The builds collector *)

Module Builds.

Record TeamCityBuildsCollector := mkTeamCityBuildsCollector {
  buildStartTime : Desc;
  buildFinishTime : Desc;
  buildState : Desc;
  buildStatus : Desc
}.

Definition NewTeamCityBuildsCollector : TeamCityBuildsCollector :=
  {| buildStartTime :=
       NewDesc "teamcity_build_start_time"
         "The start time of a TeamCity build job."
         ["project_id"; "build_type_id"; "build_id"];
     buildFinishTime :=
       NewDesc "teamcity_build_finish_time"
         "The finish time of a TeamCity build job."
         ["project_id"; "build_type_id"; "build_id"];
     buildState :=
       NewDesc "teamcity_build_state"
         "The state of a TeamCity build job."
         ["project_id"; "build_type_id"; "build_id"];
     buildStatus :=
       NewDesc "teamcity_build_status"
         "The status of a TeamCity build job."
         ["project_id"; "build_type_id"; "build_id"] |}.

Definition Describe (collector : TeamCityBuildsCollector) : list Desc :=
  [buildFinishTime collector; buildStartTime collector;
   buildState collector; buildStatus collector].

Definition collectProjectBuildMetrics (w : World) (collector : TeamCityBuildsCollector)
    (identifier : string) : result :=
  collectProjectBuildMetrics_of w (buildStartTime collector)
    (buildFinishTime collector) (buildState collector) (buildStatus collector)
    identifier.

Fixpoint collectBuildMetrics (w : World) (collector : TeamCityBuildsCollector)
    (fuel : nat) (identifier : string) : option result :=
  match fuel with
  | O => None
  | S fuel =>
      let logger : Fields := [("project", LStr identifier)] in
      let collecting := Log InfoLevel logger (LStr "collecting project") in
      match GetByID w identifier with
      | inl err => Some ([collecting], Return (Some err))
      | inr p =>
          match collectProjectBuildMetrics w collector (ID p) with
          | (evs, Return None) =>
              match fanOut (collectBuildMetrics w collector fuel) logger
                      identifier p with
              | None => None
              | Some (evs', out) => Some (collecting :: evs ++ evs', out)
              end
          | (evs, out) => Some (collecting :: evs, out)
          end
      end
  end.

Definition Collect (w : World) (fuel : nat) (collector : TeamCityBuildsCollector)
  : option result :=
  logged (collectBuildMetrics w collector fuel (root_project_id w))
    (Log InfoLevel [] (LStr "collecting TeamCity builds metrics")).

#[global] Instance collector_instance : Collector TeamCityBuildsCollector :=
  Build_Collector _ Describe Collect.

End Builds.

(** ** agents.go *)

Module Agents.

Record TeamCityAgentCollector := mkTeamCityAgentCollector {
  agentAuthorized : Desc;
  agentConnected : Desc;
  agentEnabled : Desc;
  agentCurrentBuildId : Desc
}.

Definition NewTeamCityAgentCollector : TeamCityAgentCollector :=
  {| agentAuthorized :=
       NewDesc "teamcity_agent_authorized"
         "The authorized status of a TeamCity agent."
         ["agent_id"; "agent_name"];
     agentConnected :=
       NewDesc "teamcity_agent_connected"
         "The connected status of a TeamCity agent."
         ["agent_id"; "agent_name"];
     agentEnabled :=
       NewDesc "teamcity_agent_enabled"
         "The enabled status of a TeamCity agent."
         ["agent_id"; "agent_name"];
     agentCurrentBuildId :=
       NewDesc "teamcity_agent_current_build_id"
         "The build ID of the current build of a TeamCity agent."
         ["agent_id"; "agent_name"] |}.

Definition Describe (collector : TeamCityAgentCollector) : list Desc :=
  [agentAuthorized collector; agentConnected collector;
   agentEnabled collector; agentCurrentBuildId collector].

Definition agentsURL (w : World) : string :=
  addr w +++ "/app/rest/agents?locator=count:" +++ Str.utoa (page_count w)
    +++ "&fields=count,nextHref,agent(id,name,authorized,connected,enabled,build(id))".

(** The request as it is handed to [client.Do]. *)
Definition agentsRequest (w : World) : Request :=
  withHeaders w (mkRequest "GET" (agentsURL w) []).

(** [map[bool]int{true: 1, false: 0}[b]] *)
Definition boolGauge (b : bool) : Z :=
  match find (fun kv => Bool.eqb (fst kv) b) [(true, 1); (false, 0)] with
  | Some kv => snd kv
  | None => 0
  end.

(** One turn of the loop over [agents.Agents]. *)
Definition agentGauges (collector : TeamCityAgentCollector) (agent : Agent)
  : list event :=
  let labels := [Str.utoa (Agent_ID agent); Name agent] in
  [ Send (MustNewConstMetric (agentAuthorized collector)
            (boolGauge (Authorized agent)) labels);
    Send (MustNewConstMetric (agentConnected collector)
            (boolGauge (Connected agent)) labels);
    Send (MustNewConstMetric (agentEnabled collector)
            (boolGauge (Enabled agent)) labels);
    Send (MustNewConstMetric (agentCurrentBuildId collector)
            (Build_ID (CurrentBuild agent)) labels) ].

(** An error that is logged and not returned. *)
Definition logError (err : option error) : list event :=
  match err with
  | Some e => [Log ErrorLevel [] (LErr e)]
  | None => []
  end.

(** [func (collector TeamCityAgentCollector) Collect(ch chan<- prometheus.Metric)]:
    each nested match is one statement of the source, the events before
    it being kept in [evs]. *)
Definition Collect (w : World) (collector : TeamCityAgentCollector) : result :=
  let evs := [Log InfoLevel [] (LStr "collecting TeamCity agent metrics")] in
  let '(request, err) := NewRequest w "GET" (agentsURL w) in
  let evs := evs ++ logError err in
  match request with
  | None => (evs, Panic NilDereference)        (* request.Header.Set *)
  | Some request =>
      let '(response, err) := Do w (withHeaders w request) in
      let evs := evs ++ logError err in
      match response with
      | None => (evs, Panic NilDereference)    (* response.StatusCode *)
      | Some response =>
          if StatusCode response =? StatusNotFound then (evs, Return None)
          else
            let '(body, err) := ReadAll (ResponseBody response) in
            let evs := evs ++ logError err in
            let '(agents, err) :=
              Json.Unmarshal (Json.d_AgentsResponse (jsonLib w)) body
                AgentsResponse_zero in
            let evs := evs ++ logError err in
            if negb (String.eqb (AR_NextHRef agents) EmptyString)
            then (evs ++ [Log FatalLevel []
                            (LStr "multipage requests are not yet supported")],
                  Exit)
            else (evs ++ flat_map (agentGauges collector) (live (Agents agents)),
                  Return None)
      end
  end.

#[global] Instance collector_instance : Collector TeamCityAgentCollector :=
  Build_Collector _ Describe (fun w _ collector => Some (Collect w collector)).

End Agents.

(** ** main: the collector handed to [prometheus.MustRegister] *)

Definition registered : Metrics.TeamCityCollector := Metrics.NewTeamCityCollector.

(** ** The traversal, once for the three collectors

    [collectProjectMetrics] of metrics.go and of projects.go and
    [collectBuildMetrics] of the builds collector differ only in what they
    do with the fetched project before the fan-out; [walk] is their common
    shape, and the lemmas [*_is_walk] below show that each of them is an
    instance of it. *)

Module Traversal.

Section Walk.

Variable w : World.

(** What the collector does with a fetched project before the fan-out. *)
Variable visit : string -> Project -> result.

Fixpoint walk (fuel : nat) (identifier : string) : option result :=
  match fuel with
  | O => None
  | S fuel =>
      let logger : Fields := [("project", LStr identifier)] in
      let collecting := Log InfoLevel logger (LStr "collecting project") in
      match GetByID w identifier with
      | inl err => Some ([collecting], Return (Some err))
      | inr p =>
          match visit identifier p with
          | (evs, Return None) =>
              match fanOut (walk fuel) logger identifier p with
              | None => None
              | Some (evs', out) => Some (collecting :: evs ++ evs', out)
              end
          | (evs, out) => Some (collecting :: evs, out)
          end
      end
  end.

(** [Reaches root id]: the traversal started at [root] starts a task
    for [id] (or [id] is [root]). *)
Inductive Reaches : string -> string -> Prop :=
| reaches_self (id : string) : Reaches id id
| reaches_child (id : string) (p : Project) (c : ProjectReference) (id' : string) :
    GetByID w id = inr p ->
    snd (visit id p) = Return None ->
    In c (Items (ChildProjects p)) ->
    Reaches (Ref_ID c) id' ->
    Reaches id id'.

(** Every project at which the traversal from [root] comes to its
    fan-out has as many entries in [ChildProjects.Items] as
    [ChildProjects.Count] says. *)
Definition CountsAgree (root : string) : Prop :=
  forall id p,
    Reaches root id ->
    GetByID w id = inr p ->
    snd (visit id p) = Return None ->
    Count (ChildProjects p) = Z.of_nat (List.length (Items (ChildProjects p))).

End Walk.

(** No task is left blocked in [wg.Wait()]. *)
Definition noWait (evs : list event) : Prop :=
  Forall (fun e => match e with WaitsForever _ => False | _ => True end) evs.

(** The call returned, and every task it started has returned. *)
Definition clean (r : result) : Prop :=
  (exists err, snd r = Return err) /\ noWait (fst r).

(** No join of the call deadlocked or panicked. *)
Definition joins (r : result) : Prop :=
  noWait (fst r) /\ snd r <> Blocked /\ snd r <> Panic NegativeWaitGroupCounter.

(** What the traversal of one project establishes. *)
Definition Spec (w : World) (visit : string -> Project -> result)
    (root : string) (r : result) : Prop :=
  (clean r -> CountsAgree w visit root) /\
  (CountsAgree w visit root -> joins r) /\
  (snd r = Blocked -> ~ noWait (fst r)).

(** The call neither left the process nor dereferenced nil. *)
Definition joinOutcome (out : outcome) : Prop :=
  out <> Exit /\ out <> Panic NilDereference.

(** The hierarchy the TeamCity client serves is acyclic: subprojects
    have a smaller rank than their parent. *)
Definition acyclic (w : World) (rank : string -> nat) : Prop :=
  forall id p c,
    GetByID w id = inr p ->
    In c (Items (ChildProjects p)) ->
    (rank (Ref_ID c) < rank id)%nat.

Definition metricsVisit (w : World) (collector : Metrics.TeamCityCollector)
    (identifier : string) (p : Project) : result :=
  let logger : Fields := [("project", LStr identifier)] in
  let '(evs, out) := Metrics.collectProjectBuildMetrics w collector (ID p) in
  (projectGauges (Metrics.projects collector) (Metrics.buildTypes collector) logger p
     ++ evs, out).

Definition projectsVisit (collector : Projects.TeamCityProjectsCollector)
    (identifier : string) (p : Project) : result :=
  let logger : Fields := [("project", LStr identifier)] in
  (projectGauges (Projects.projects collector) (Projects.buildTypes collector) logger p,
   Return None).

Definition buildsVisit (w : World) (collector : Builds.TeamCityBuildsCollector)
    (identifier : string) (p : Project) : result :=
  Builds.collectProjectBuildMetrics w collector (ID p).

End Traversal.

(** ** The join of one project under every interleaving

    After [wg.Add(count)] the parent has started [tasks] tasks and waits.
    Each task, when it has returned, calls [wg.Done()]; the parent's
    [wg.Wait()] returns when the counter is zero.  The steps may come in
    any order. *)

Module JoinProtocol.

Inductive state : Type :=
| Running (counter : Z) (tasks : nat) (waiting : bool)
| Panicked.

Inductive step : state -> state -> Prop :=
| task_done (c : Z) (n : nat) (waiting : bool) :
    0 < c -> step (Running c (S n) waiting) (Running (c - 1) n waiting)
| task_done_panics (c : Z) (n : nat) (waiting : bool) :
    c <= 0 -> step (Running c (S n) waiting) Panicked
| wait_returns (n : nat) :
    step (Running 0 n true) (Running 0 n false).

Inductive reaches : state -> state -> Prop :=
| reaches_here (s : state) : reaches s s
| reaches_step (s s' s'' : state) : reaches s s' -> step s' s'' -> reaches s s''.

Definition stuck (s : state) : Prop := forall s', ~ step s s'.

Definition start (count : Z) (tasks : nat) : state := Running count tasks true.

(** What every state of a run from [start count tasks] satisfies. *)
Definition invariant (count : Z) (tasks : nat) (s : state) : Prop :=
  match s with
  | Running c n waiting =>
      c - Z.of_nat n = count - Z.of_nat tasks /\ 0 <= c /\ (waiting = false -> c = 0)
  | Panicked => count < Z.of_nat tasks
  end.

End JoinProtocol.

(** ** Notions the statements below use *)

Ltac string_cases s :=
  repeat match goal with
         | |- context [String.eqb s ?lit] =>
             destruct (String.eqb_spec s lit); [subst s | ]
         end.


Definition isSend (e : event) : bool :=
  match e with
  | Send _ => true
  | _ => false
  end.


(** A gauge has as many label values as its descriptor has label names. *)
Definition wellLabelled (e : event) : Prop :=
  match e with
  | Send m => List.length (labelValues m) = List.length (variableLabels (desc m))
  | _ => True
  end.

(** What the Go documentation promises of a call that returns a pointer and
    an error: exactly one of the two is nil. *)
Definition one_is_nil {A : Type} (r : option A * option error) : Prop :=
  match r with
  | (Some _, None) | (None, Some _) => True
  | _ => False
  end.


Module Decode.

Import Json.

(** The walk was ended by the error of a timestamp. *)
Definition parseAborted (d : dstate) : Prop :=
  exists pe txt, abort d = Some (ParseError pe txt).

Definition okAbort (d : dstate) : Prop := abort d = None \/ parseAborted d.

(** A decoder that ends the walk only with the error of a timestamp. *)
Definition sound {T : Type} (f : dec T) : Prop :=
  forall v cur d, abort d = None -> okAbort (snd (f v cur d)).

(** A decoder that a given value makes end the walk. *)
Definition hits {T : Type} (f : dec T) (v : value) : Prop :=
  forall cur d, abort d = None -> parseAborted (snd (f v cur d)).

(** [UnmarshalJSON] on the text of the value returns an error. *)
Definition malformedTimestamp (v : value) : Prop :=
  exists e, GoTime.Parse (Str.trim Str.dquote (text v)) = inl e.


(** A member that names [startDate] or [finishDate]. *)
Definition timestampKey (lib : Lib) (k : string) : Prop :=
  findField lib Build_fields k = Some 4%nat \/
  findField lib Build_fields k = Some 5%nat.


(** The body is an object with a member for the field [Builds] that is
    an array; one of its elements is an object with a member for
    [StartDate] or [FinishDate] whose text [UnmarshalJSON] rejects. *)
Definition hasMalformedTimestamp (lib : Lib) (doc : value) : Prop :=
  exists members kb elems ms k v,
    doc = Object members /\
    In (kb, Array elems) members /\
    findField lib BuildResponse_fields kb = Some 4%nat /\
    In (Object ms) elems /\
    In (k, v) ms /\
    timestampKey lib k /\
    malformedTimestamp v.


(** Lifts a fact about the decoder of one field to the member function
    that stores the field. *)
Ltac field_step lem :=
  match goal with
  | |- context [?f ?v ?c ?d] =>
      match type of (f v c d) with
      | (_ * dstate)%type =>
          let H := fresh in
          pose proof (lem v c d) as H;
          destruct (f v c d); cbn [snd] in *; auto
      end
  end.

Ltac hit_step lem :=
  match goal with
  | |- context [?f ?v ?c ?d] =>
      match type of (f v c d) with
      | (_ * dstate)%type =>
          let H := fresh in
          pose proof (lem c d) as H;
          destruct (f v c d); cbn [snd] in *; auto
      end
  end.


End Decode.

(** ** The calendar arithmetic of package time, in pieces

    [absDate] and [daysSinceEpoch] first split off the 400-year cycles;
    the functions below are what they do within one cycle. *)

Module Calendar.

Import GoTime.

(** The year and the day within the year, from the years [y] of the
    400-year cycles and the day [d] within the cycle ([absDate], after
    "Account for 400 year cycles"). *)
Definition yearDay (y d : Z) : Z * Z :=
  let n := d / daysPer100Years in
  let n := n - Z.shiftr n 2 in
  let y := y + 100 * n in
  let d := d - daysPer100Years * n in
  let n := d / daysPer4Years in
  let y := y + 4 * n in
  let d := d - daysPer4Years * n in
  let n := d / 365 in
  let n := n - Z.shiftr n 2 in
  let y := y + n in
  let d := d - 365 * n in
  (y, d).

(** Month and day of the month from the day within the year (the end of
    [absDate]). *)
Definition monthDay (leap : bool) (day : Z) : Z * Z :=
  if leap && (day =? 31 + 29 - 1) then (February, 29)
  else
    let day := if leap && (31 + 29 - 1 <? day) then day - 1 else day in
    let month := day / 31 in
    let end_ := daysBeforeAt (month + 1) in
    let '(month, begin) :=
      if end_ <=? day then (month + 1, end_) else (month, daysBeforeAt month) in
    (month + 1, day - begin + 1).

(** The days before a year within its cycle ([daysSinceEpoch], after
    "Add in days from 400-year cycles"). *)
Definition cycleDays (y : Z) : Z :=
  let n := y / 100 in
  let y := y - 100 * n in
  let d := daysPer100Years * n in
  let n := y / 4 in
  let y := y - 4 * n in
  let d := d + daysPer4Years * n in
  let n := y in
  d + 365 * n.

(** The day [r] of a cycle is taken to a valid date and [Date] takes that
    date back to [r].  The first year of a cycle is congruent to 1 modulo
    400, as [absoluteZeroYear] is. *)
Definition cycleCheck (r : Z) : bool :=
  let '(y, yday) := yearDay 0 r in
  let year := y + 1 in
  let '(m, dd) := monthDay (isLeap year) yday in
  (0 <=? y) && (y <? 400) && (1 <=? m) && (m <=? 12)
  && (1 <=? dd) && (dd <=? daysIn m year)
  && (cycleDays y + daysBeforeAt (m - 1)
      + (if isLeap year && (March <=? m) then 1 else 0) + (dd - 1) =? r).

(** [f] holds of the [n] numbers from [z] on. *)
Fixpoint all_from (n : nat) (z : Z) (f : Z -> bool) : bool :=
  match n with
  | O => true
  | S k => f z && all_from k (z + 1) f
  end.

(** [appendInt] of a number below 100 with width 2, and of a number below
    10000 with width 4, is the number's digits. *)
Definition twoDigits (x : Z) : string :=
  String (Str.digit (x / 10)) (String (Str.digit (x mod 10)) EmptyString).

Definition fourDigits (x : Z) : string :=
  String (Str.digit (x / 1000))
    (String (Str.digit (x / 100 mod 10))
       (String (Str.digit (x / 10 mod 10))
          (String (Str.digit (x mod 10)) EmptyString))).

Definition appendCheck2 (x : Z) : bool :=
  String.eqb (appendInt x 2) (twoDigits x).

Definition appendCheck4 (x : Z) : bool :=
  String.eqb (appendInt x 4) (fourDigits x).

(** [atoi] reads the four digits of a year back. *)
Definition atoiCheck4 (x : Z) : bool :=
  match atoi (fourDigits x) with
  | inr v => v =? x
  | inl _ => false
  end.

Ltac bool_facts :=
  repeat match goal with
         | H : (_ && _) = true |- _ => apply andb_prop in H; destruct H
         end;
  repeat match goal with
         | H : (_ <=? _) = true |- _ => apply Z.leb_le in H
         | H : (_ <? _) = true |- _ => apply Z.ltb_lt in H
         | H : (_ =? _) = true |- _ => apply Z.eqb_eq in H
         end.

(** The last byte of [s] is not [c]. *)
Fixpoint lastNot (c : ascii) (s : string) : bool :=
  match s with
  | EmptyString => false
  | String a EmptyString => negb (Ascii.eqb a c)
  | String _ r => lastNot c r
  end.

(** Case analysis on a decimal digit, from a proof [D] that [a] is one
    of 0 to 9. *)
Ltac each_digit a D :=
  let E := fresh "E" in
  destruct D as [E | [E | [E | [E | [E | [E | [E | [E | [E | E]]]]]]]]];
  rewrite E; clear E.

End Calendar.

(** ** Notions of the further theorems *)

(** What one task of the fan-out leaves in the log and on the channel:
    the events of the recursive call and, when the call returned an
    error, the entry that the task logs with the logger of the parent. *)
Definition taskEvents (child : string -> option result) (logger : Fields)
    (subproject : ProjectReference) : list event :=
  match child (Ref_ID subproject) with
  | Some (evs, Return (Some e)) => evs ++ [Log ErrorLevel logger (LErr e)]
  | Some (evs, _) => evs
  | None => []
  end.

(** The outcome of a call that came to its end or was left waiting, as
    opposed to one that ended the process. *)
Definition survives (out : outcome) : Prop :=
  match out with
  | Exit | Panic _ => False
  | Return _ | Blocked => True
  end.

(** The seconds since the Unix epoch of a timestamp lie between the first
    second of the year 0 in the zone +25:00 and the last second of the
    year 9999 in the zone -25:00. *)
Definition timeInRange (t : TeamCityTime) : Prop :=
  -62167309200 <= GoTime.Unix (Time t) <= 253402390799.

Definition buildInRange (b : Build) : Prop :=
  timeInRange (StartDate b) /\ timeInRange (FinishDate b).

(** Every build that the slice holds or has held in its backing array. *)
Definition pageInRange (r : BuildResponse) : Prop :=
  Forall buildInRange (live (Builds r) ++ spare (Builds r)).

(** A decoder that keeps a property of the value it decodes into. *)
Definition keeps {T : Type} (P : T -> Prop) (f : Json.dec T) : Prop :=
  forall v cur d, P cur -> P (fst (f v cur d)).

(** A gauge carries one of the descriptors [D]. *)
Definition describedBy (D : list Desc) (e : event) : Prop :=
  match e with
  | Send m => In (desc m) D
  | _ => True
  end.

(** A text of decimal digits only. *)
Fixpoint allDigits (s : string) : bool :=
  match s with
  | EmptyString => true
  | String c r => (48 <=? Str.code c) && (Str.code c <=? 57) && allDigits r
  end.

(** ** Example servers

    Small worlds on which the theorems below are run. *)

Module Demo.

Definition lower (c : ascii) : ascii :=
  let n := N_of_ascii c in
  if ((65 <=? n) && (n <=? 90))%N then ascii_of_N (n + 32) else c.

Fixpoint lowerString (s : string) : string :=
  match s with
  | EmptyString => EmptyString
  | String c r => String (lower c) (lowerString r)
  end.

(** The string functions of encoding/json on ASCII text without escapes. *)
Definition lib : Json.Lib :=
  Json.mkLib (fun raw => raw)
    (fun a b => String.eqb (lowerString a) (lowerString b)).

Definition notFound : error := OtherError "404 Not Found".

(** A server that gives every request the same answer and knows the
    projects [projects]. *)
Definition server (answer : option Response * option error)
    (projects : string -> error + Project) : World :=
  {| addr := "http://teamcity.test";
     page_count := 10000;
     token := "secret";
     root_project_id := "_Root";
     url_valid := fun _ => true;
     Do := fun _ => answer;
     GetByID := projects;
     jsonLib := lib |}.

Definition noProjects : string -> error + Project := fun _ => inl notFound.

Definition ok (doc : Json.value) : option Response * option error :=
  (Some (mkResponse 200 (mkBody (Some doc) None)), None).

Definition goodBuild : Json.value :=
  Json.Object
    [("id", Json.Number "8"); ("buildTypeId", Json.Str "Demo_Build");
     ("status", Json.Str "FAILURE"); ("state", Json.Str "finished");
     ("startDate", Json.Str "20231105T134501+0100");
     ("finishDate", Json.Str "20231105T134801+0100")].

Definition badBuild : Json.value :=
  Json.Object
    [("id", Json.Number "7"); ("buildTypeId", Json.Str "Demo_Build");
     ("status", Json.Str "SUCCESS"); ("state", Json.Str "finished");
     ("startDate", Json.Str "2023-11-05T13:45:01+01:00");
     ("finishDate", Json.Str "20231105T134801+0100")].

(** A page that says there is a next page. *)
Definition pagedDoc : Json.value :=
  Json.Object
    [("count", Json.Number "1");
     ("nextHref", Json.Str "/app/rest/builds?locator=count:1,start:1");
     ("build", Json.Array [goodBuild])].

Definition pagedBuilds : BuildResponse :=
  Eval vm_compute in
    fst (Json.Unmarshal (Json.d_BuildResponse lib) (Some pagedDoc) BuildResponse_zero).

Definition pagedWorld : World := server (ok pagedDoc) noProjects.

(** A page of two builds; the first has a start date in another format. *)
Definition badDoc : Json.value :=
  Json.Object
    [("count", Json.Number "2"); ("build", Json.Array [badBuild; goodBuild])].

Definition badWorld : World := server (ok badDoc) noProjects.

(** A server that answers 404, with a root project and two subprojects. *)
Definition leaf (id : string) : Project :=
  mkProject id (mkProjectReferences 0 []) 0.

Definition rootProject : Project :=
  mkProject "_Root"
    (mkProjectReferences 2 [mkProjectReference "A"; mkProjectReference "B"]) 3.

Definition tree (id : string) : error + Project :=
  if String.eqb id "_Root" then inr rootProject
  else if String.eqb id "A" then inr (leaf "A")
  else if String.eqb id "B" then inr (leaf "B")
  else inl notFound.

Definition treeRank (id : string) : nat :=
  if String.eqb id "_Root" then 1%nat else 0%nat.

Definition notFoundAnswer : option Response * option error :=
  (Some (mkResponse 404 (mkBody None None)), None).

Definition treeWorld : World := server notFoundAnswer tree.

(** The same tree, with [count] as the count of the root's subprojects. *)
Definition miscounted (count : Z) : World :=
  server notFoundAnswer
    (fun id =>
       if String.eqb id "_Root"
       then inr (mkProject "_Root"
                   (mkProjectReferences count
                      [mkProjectReference "A"; mkProjectReference "B"]) 3)
       else tree id).

(** A server that cannot be reached. *)
Definition refused : error := OtherError "dial tcp: connection refused".

Definition downWorld : World := server (None, Some refused) noProjects.

(** An agents list that says there is a next page. *)
Definition agentsDoc : Json.value :=
  Json.Object
    [("count", Json.Number "1");
     ("nextHref", Json.Str "/app/rest/agents?locator=count:1,start:1");
     ("agent",
      Json.Array
        [Json.Object
           [("id", Json.Number "3"); ("name", Json.Str "agent-3");
            ("authorized", Json.Bool true); ("connected", Json.Bool false);
            ("enabled", Json.Bool true)]])].

Definition agentsWorld : World := server (ok agentsDoc) noProjects.

Definition pagedAgents : AgentsResponse :=
  Eval vm_compute in
    fst (Json.Unmarshal (Json.d_AgentsResponse lib) (Some agentsDoc) AgentsResponse_zero).

(** 2023-11-05 13:45:01 at +01:00, and the first second of the year 10000
    in UTC. *)
Definition sampleTime : GoTime.Time := GoTime.mkTime 1699188301 0 3600.

Definition year10000 : GoTime.Time := GoTime.mkTime 253402300800 0 0.

End Demo.

(** ** More example servers *)

Module Demo2.

(** A page of two builds and no next page. *)
Definition lastDoc : Json.value :=
  Json.Object
    [("count", Json.Number "2");
     ("build",
      Json.Array
        [Demo.goodBuild;
         Json.Object
           [("id", Json.Number "9"); ("buildTypeId", Json.Str "Demo_Build");
            ("status", Json.Str "SUCCESS"); ("state", Json.Str "running");
            ("startDate", Json.Str "20231105T140000+0100")]])].

Definition lastWorld : World := Demo.server (Demo.ok lastDoc) Demo.noProjects.

Definition lastBuilds : BuildResponse :=
  Eval vm_compute in
    fst (Json.Unmarshal (Json.d_BuildResponse Demo.lib) (Some lastDoc) BuildResponse_zero).

(** A transport error that comes with a response (a failed redirect). *)
Definition redirectError : error := OtherError "stopped after 10 redirects".

Definition redirectWorld : World :=
  Demo.server (Some (mkResponse 302 (mkBody None None)), Some redirectError)
    Demo.noProjects.

(** An agents list in which the identifier of the second agent is a string:
    the value does not fit its field. *)
Definition mistypedAgents : Json.value :=
  Json.Object
    [("count", Json.Number "2");
     ("agent",
      Json.Array
        [Json.Object
           [("id", Json.Number "3"); ("name", Json.Str "agent-3");
            ("authorized", Json.Bool true); ("connected", Json.Bool false);
            ("enabled", Json.Bool true)];
         Json.Object
           [("id", Json.Str "four"); ("name", Json.Str "agent-4");
            ("authorized", Json.Bool true); ("connected", Json.Bool true);
            ("enabled", Json.Bool false);
            ("build", Json.Object [("id", Json.Number "812")])]])].

Definition mistypedWorld : World :=
  Demo.server (Demo.ok mistypedAgents) Demo.noProjects.

Definition mistypedDecoded : AgentsResponse * option error :=
  Eval vm_compute in
    Json.Unmarshal (Json.d_AgentsResponse Demo.lib) (Some mistypedAgents)
      AgentsResponse_zero.

(** A body that is not JSON. *)
Definition garbledWorld : World :=
  Demo.server (Some (mkResponse 200 (mkBody None None)), None) Demo.noProjects.

(** The tree of [Demo.tree] with a third subproject that the server does
    not know, between the two others. *)
Definition holedRoot : Project :=
  mkProject "_Root"
    (mkProjectReferences 3
       [mkProjectReference "A"; mkProjectReference "gone"; mkProjectReference "B"]) 3.

Definition holedWorld : World :=
  Demo.server Demo.notFoundAnswer
    (fun id => if String.eqb id "_Root" then inr holedRoot else Demo.tree id).

(** What the traversal of a leaf of that tree logs and sends. *)
Definition leafEvents (id : string) : list event :=
  Eval vm_compute in
    match Metrics.collectProjectMetrics holedWorld registered 3 id with
    | Some (evs, _) => evs
    | None => []
    end.

(** A running build without a finish date, and a page on which the finish
    date of a build is null. *)
Definition runningMembers : list (string * Json.value) :=
  [("id", Json.Number "9"); ("buildTypeId", Json.Str "Demo_Build");
   ("status", Json.Str "SUCCESS"); ("state", Json.Str "running");
   ("startDate", Json.Str "20231105T140000+0100")].

Definition nullMembers : list (string * Json.value) :=
  runningMembers ++ [("finishDate", Json.Null)].

Definition nullDoc : Json.value :=
  Json.Object
    [("count", Json.Number "2");
     ("build", Json.Array [Demo.goodBuild; Json.Object nullMembers])].

Definition nullWorld : World := Demo.server (Demo.ok nullDoc) Demo.noProjects.

Definition projectsScrape : list event :=
  Eval vm_compute in
    match Projects.Collect Demo.treeWorld 2 Projects.NewTeamCityProjectsCollector with
    | Some (evs, _) => evs
    | None => []
    end.

(** An agent that runs no build. *)
Definition idleMembers : list (string * Json.value) :=
  [("id", Json.Number "3"); ("name", Json.Str "agent-3");
   ("authorized", Json.Bool true); ("connected", Json.Bool false);
   ("enabled", Json.Bool true); ("build", Json.Null)].

End Demo2.

(** * Theorems *)

(** ** Build state and status *)

(** C3: [ParseBuildState] maps "queued", "finished", "running" and
    "deleted" to the ordinals 1, 2, 3 and 4, and every other string, the
    empty one included, to 0 (Unknown).  It is a total function: there is
    no input on which it fails. *)
Theorem ParseBuildState_ordinals :
  forall s : string,
    (ParseBuildState s = 1 <-> s = "queued") /\
    (ParseBuildState s = 2 <-> s = "finished") /\
    (ParseBuildState s = 3 <-> s = "running") /\
    (ParseBuildState s = 4 <-> s = "deleted") /\
    (ParseBuildState s = 0 <->
       s <> "queued" /\ s <> "finished" /\ s <> "running" /\ s <> "deleted") /\
    ParseBuildState EmptyString = BuildStateUnknown.
Proof.
  intro s. unfold ParseBuildState.
  string_cases s; cbn;
    repeat split; intros; try discriminate; try congruence;
    try solve [intuition congruence].
Qed.

(** C4: [ParseBuildStatus] maps "SUCCESS" to 1, "FAILURE" to 2 and every
    other string to 0 (Unknown); it is total. *)
Theorem ParseBuildStatus_ordinals :
  forall s : string,
    (ParseBuildStatus s = 1 <-> s = "SUCCESS") /\
    (ParseBuildStatus s = 2 <-> s = "FAILURE") /\
    (ParseBuildStatus s = 0 <-> s <> "SUCCESS" /\ s <> "FAILURE") /\
    ParseBuildStatus EmptyString = BuildStatusUnknown.
Proof.
  intro s. unfold ParseBuildStatus.
  string_cases s; cbn;
    repeat split; intros; try discriminate; try congruence;
    try solve [intuition congruence].
Qed.

Example parse_sample :
  GoTime.Parse "20231105T134501+0100" = inr (GoTime.mkTime 1699188301 0 3600).
Proof. vm_compute. reflexivity. Qed.

Example format_sample :
  GoTime.Format (GoTime.mkTime 1699188301 0 3600) = "20231105T134501+0100".
Proof. vm_compute. reflexivity. Qed.


Example parse_fraction :
  GoTime.Parse "20231105T134501.25+0100"
  = inr (GoTime.mkTime 1699188301 250000000 3600).
Proof. vm_compute. reflexivity. Qed.

Example parse_bad_month :
  GoTime.Parse "20231305T134501+0100" = inl (GoTime.errRange "month").
Proof. vm_compute. reflexivity. Qed.

Example parse_leap_day :
  GoTime.Parse "20240229T000000+0000" = inr (GoTime.mkTime 1709164800 0 0)
  /\ GoTime.Parse "20230229T000000+0000" = inl (GoTime.errRange "day").
Proof. split; vm_compute; reflexivity. Qed.

Example unmarshal_zero_on_error :
  UnmarshalJSON (mkTeamCityTime (GoTime.mkTime 5 0 0)) "null"
  = (TeamCityTime_zero, Some (ParseError GoTime.errBad "null")).
Proof. vm_compute. reflexivity. Qed.

(** ** The build collector *)

Section BuildCollectionFacts.

Variable w : World.
Variables buildStartTime buildFinishTime buildState buildStatus : Desc.

#[local] Abbreviation collect :=
  (collectProjectBuildMetrics_of w buildStartTime buildFinishTime buildState buildStatus).
#[local] Abbreviation gauges := (buildGauges buildStartTime buildFinishTime buildState buildStatus).

(** A request that was built and answered leads to the status check. *)
Lemma collect_answered (identifier : string) (response : Response) :
  url_valid w (buildsURL w identifier) = true ->
  Do w (buildsRequest w identifier) = (Some response, None) ->
  collect identifier =
    if StatusCode response =? StatusNotFound then ([], Return None)
    else
      match ReadAll (ResponseBody response) with
      | (_, Some err) => ([], Return (Some err))
      | (body, None) =>
          match Json.Unmarshal (Json.d_BuildResponse (jsonLib w)) body
                  BuildResponse_zero with
          | (_, Some err) => ([], Return (Some err))
          | (builds, None) =>
              let found :=
                Log InfoLevel [("project", LStr identifier);
                               ("count", LInt (BR_Count builds))]
                  (LStr "found builds") in
              let sent := flat_map (gauges identifier) (live (Builds builds)) in
              if negb (String.eqb (BR_NextHRef builds) EmptyString)
              then (found :: sent
                      ++ [Log FatalLevel [("project", LStr identifier)]
                            (LStr "multipage requests are not yet supported")],
                    Exit)
              else (found :: sent, Return None)
          end
      end.
Proof.
  intros Hurl Hdo. unfold collect, collectProjectBuildMetrics_of, NewRequest.
  rewrite Hurl. unfold buildsRequest in Hdo. rewrite Hdo. reflexivity.
Qed.

(** The page of a decoded response is sent in full, then the next-page
    check is made. *)
Lemma collect_decoded (identifier : string) (response : Response)
    (body : option Json.value) (builds : BuildResponse) :
  url_valid w (buildsURL w identifier) = true ->
  Do w (buildsRequest w identifier) = (Some response, None) ->
  StatusCode response <> StatusNotFound ->
  ReadAll (ResponseBody response) = (body, None) ->
  Json.Unmarshal (Json.d_BuildResponse (jsonLib w)) body BuildResponse_zero
    = (builds, None) ->
  collect identifier =
    let found :=
      Log InfoLevel [("project", LStr identifier); ("count", LInt (BR_Count builds))]
        (LStr "found builds") in
    let sent := flat_map (gauges identifier) (live (Builds builds)) in
    if negb (String.eqb (BR_NextHRef builds) EmptyString)
    then (found :: sent
            ++ [Log FatalLevel [("project", LStr identifier)]
                  (LStr "multipage requests are not yet supported")],
          Exit)
    else (found :: sent, Return None).
Proof.
  intros Hurl Hdo Hst Hread Hdec.
  rewrite (collect_answered identifier response Hurl Hdo).
  destruct (Z.eqb_spec (StatusCode response) StatusNotFound) as [E | _];
    [contradiction | ].
  rewrite Hread, Hdec. reflexivity.
Qed.

Lemma collect_not_found (identifier : string) (response : Response) :
  url_valid w (buildsURL w identifier) = true ->
  Do w (buildsRequest w identifier) = (Some response, None) ->
  StatusCode response = StatusNotFound ->
  collect identifier = ([], Return None).
Proof.
  intros Hurl Hdo Hst.
  rewrite (collect_answered identifier response Hurl Hdo), Hst.
  reflexivity.
Qed.

End BuildCollectionFacts.

Lemma nonempty_eqb (s : string) :
  s <> EmptyString -> negb (String.eqb s EmptyString) = true.
Proof.
  intro H. destruct (String.eqb_spec s EmptyString); [contradiction | reflexivity].
Qed.

(** C2: when the decoded build list has a non-empty [nextHref], the
    collector has first sent the four gauges (start time, finish time,
    status, state) of every build of the page, in page order, and only
    then logs the fatal entry and leaves the process. *)
Theorem page_sent_before_fatal :
  forall (w : World) (collector : Metrics.TeamCityCollector) (identifier : string)
         (response : Response) (body : option Json.value) (builds : BuildResponse),
    url_valid w (buildsURL w identifier) = true ->
    Do w (buildsRequest w identifier) = (Some response, None) ->
    StatusCode response <> StatusNotFound ->
    ReadAll (ResponseBody response) = (body, None) ->
    Json.Unmarshal (Json.d_BuildResponse (jsonLib w)) body BuildResponse_zero
      = (builds, None) ->
    BR_NextHRef builds <> EmptyString ->
    Metrics.collectProjectBuildMetrics w collector identifier =
      (Log InfoLevel [("project", LStr identifier); ("count", LInt (BR_Count builds))]
         (LStr "found builds")
       :: flat_map
            (fun build =>
               let labels := [identifier; BuildTypeID build; Str.utoa (Build_ID build)] in
               [ Send (MustNewConstMetric (Metrics.buildStartTime collector)
                         (GoTime.Unix (Time (StartDate build))) labels);
                 Send (MustNewConstMetric (Metrics.buildFinishTime collector)
                         (GoTime.Unix (Time (FinishDate build))) labels);
                 Send (MustNewConstMetric (Metrics.buildStatus collector)
                         (ParseBuildStatus (Status build)) labels);
                 Send (MustNewConstMetric (Metrics.buildState collector)
                         (ParseBuildState (State build)) labels) ])
            (live (Builds builds))
       ++ [Log FatalLevel [("project", LStr identifier)]
             (LStr "multipage requests are not yet supported")],
       Exit).
Proof.
  intros w collector identifier response body builds Hurl Hdo Hst Hread Hdec Hnext.
  unfold Metrics.collectProjectBuildMetrics.
  rewrite (collect_decoded w _ _ _ _ identifier response body builds
             Hurl Hdo Hst Hread Hdec).
  cbv zeta. rewrite (nonempty_eqb _ Hnext). reflexivity.
Qed.


(** ** More on the build collector *)

(** The build collector has sent nothing when it returns an error. *)
Lemma collect_error_empty (w : World) (d1 d2 d3 d4 : Desc) (identifier : string)
    (err : error) :
  snd (collectProjectBuildMetrics_of w d1 d2 d3 d4 identifier) = Return (Some err) ->
  fst (collectProjectBuildMetrics_of w d1 d2 d3 d4 identifier) = [].
Proof.
  unfold collectProjectBuildMetrics_of.
  destruct (NewRequest w _ _) as [[request | ] [e1 | ]]; cbn; try reflexivity;
    try discriminate.
  destruct (Do w _) as [[response | ] [e2 | ]]; cbn; try reflexivity;
    try discriminate.
  destruct (StatusCode response =? StatusNotFound); cbn; [reflexivity | ].
  destruct (readErr (ResponseBody response)); cbn; [reflexivity | ].
  destruct (Json.Unmarshal (Json.d_BuildResponse (jsonLib w))
              (content (ResponseBody response)) BuildResponse_zero)
    as [builds [e3 | ]]; cbn; [reflexivity | ].
  destruct (negb _); cbn; discriminate.
Qed.

(** X1: whenever [collectProjectBuildMetrics] returns an error (of the
    request, the transport, the read or the decoding), it has sent nothing
    and logged nothing: a page is sent in full or not at all. *)
Theorem builds_error_sends_nothing :
  forall (w : World) (collector : Metrics.TeamCityCollector) (identifier : string)
         (err : error),
    snd (Metrics.collectProjectBuildMetrics w collector identifier) = Return (Some err) ->
    fst (Metrics.collectProjectBuildMetrics w collector identifier) = [].
Proof.
  intros w collector identifier err. apply collect_error_empty.
Qed.

(** X2: an error of [client.Do] is returned as it is and nothing is sent,
    also when a response came with the error. *)
Theorem builds_transport_error_returned :
  forall (w : World) (collector : Metrics.TeamCityCollector) (identifier : string)
         (response : option Response) (err : error),
    url_valid w (buildsURL w identifier) = true ->
    Do w (buildsRequest w identifier) = (response, Some err) ->
    Metrics.collectProjectBuildMetrics w collector identifier = ([], Return (Some err)).
Proof.
  intros w collector identifier response err Hurl Hdo.
  unfold Metrics.collectProjectBuildMetrics, collectProjectBuildMetrics_of, NewRequest.
  rewrite Hurl. unfold buildsRequest in Hdo. rewrite Hdo.
  destruct response; reflexivity.
Qed.

(** X3: the build collector leaves the process for one reason only: the
    response was read and decoded without error and its [nextHref] is not
    empty. *)
Theorem builds_exit_only_on_next_page :
  forall (w : World) (collector : Metrics.TeamCityCollector) (identifier : string),
    snd (Metrics.collectProjectBuildMetrics w collector identifier) = Exit ->
    exists response builds,
      Do w (buildsRequest w identifier) = (Some response, None) /\
      StatusCode response <> StatusNotFound /\
      readErr (ResponseBody response) = None /\
      Json.Unmarshal (Json.d_BuildResponse (jsonLib w))
        (content (ResponseBody response)) BuildResponse_zero = (builds, None) /\
      BR_NextHRef builds <> EmptyString.
Proof.
  intros w collector identifier.
  unfold Metrics.collectProjectBuildMetrics, collectProjectBuildMetrics_of, NewRequest,
    buildsRequest.
  destruct (url_valid w _); [ | discriminate].
  destruct (Do w _) as [[response | ] [e2 | ]]; try discriminate.
  destruct (Z.eqb_spec (StatusCode response) StatusNotFound) as [E | Hst];
    [discriminate | ].
  unfold ReadAll.
  destruct (readErr (ResponseBody response)) as [e3 | ] eqn:Hread; [discriminate | ].
  destruct (Json.Unmarshal _ _ _) as [builds [e4 | ]] eqn:Hdec; [discriminate | ].
  cbv zeta.
  destruct (String.eqb_spec (BR_NextHRef builds) EmptyString) as [E | Hnext];
    cbn [negb]; [discriminate | ].
  intros _. exists response, builds. repeat split; assumption.
Qed.

(** X4: a decoded page without a next page: the four gauges of every build
    are sent in page order after the "found builds" entry, and the
    collector returns nil. *)
Theorem last_page_sent_and_returned :
  forall (w : World) (collector : Metrics.TeamCityCollector) (identifier : string)
         (response : Response) (body : option Json.value) (builds : BuildResponse),
    url_valid w (buildsURL w identifier) = true ->
    Do w (buildsRequest w identifier) = (Some response, None) ->
    StatusCode response <> StatusNotFound ->
    ReadAll (ResponseBody response) = (body, None) ->
    Json.Unmarshal (Json.d_BuildResponse (jsonLib w)) body BuildResponse_zero
      = (builds, None) ->
    BR_NextHRef builds = EmptyString ->
    Metrics.collectProjectBuildMetrics w collector identifier =
      (Log InfoLevel [("project", LStr identifier); ("count", LInt (BR_Count builds))]
         (LStr "found builds")
       :: flat_map
            (fun build =>
               let labels := [identifier; BuildTypeID build; Str.utoa (Build_ID build)] in
               [ Send (MustNewConstMetric (Metrics.buildStartTime collector)
                         (GoTime.Unix (Time (StartDate build))) labels);
                 Send (MustNewConstMetric (Metrics.buildFinishTime collector)
                         (GoTime.Unix (Time (FinishDate build))) labels);
                 Send (MustNewConstMetric (Metrics.buildStatus collector)
                         (ParseBuildStatus (Status build)) labels);
                 Send (MustNewConstMetric (Metrics.buildState collector)
                         (ParseBuildState (State build)) labels) ])
            (live (Builds builds)),
       Return None).
Proof.
  intros w collector identifier response body builds Hurl Hdo Hst Hread Hdec Hnext.
  unfold Metrics.collectProjectBuildMetrics.
  rewrite (collect_decoded w _ _ _ _ identifier response body builds
             Hurl Hdo Hst Hread Hdec).
  cbv zeta. rewrite Hnext. reflexivity.
Qed.

(** ** The agent collector *)

Lemma no_send_in_logError (err : option error) (m : Metric) :
  ~ In (Send m) (Agents.logError err).
Proof.
  destruct err; cbn; intros H; [destruct H as [H | []]; discriminate | exact H].
Qed.

Lemma sends_of_page (d1 d2 d3 d4 : Desc) (identifier : string) (l : list Build) :
  List.length (filter isSend (flat_map (buildGauges d1 d2 d3 d4 identifier) l))
  = (4 * List.length l)%nat.
Proof.
  induction l as [ | b l IH]; [reflexivity | ].
  cbn [flat_map]. rewrite filter_app, length_app, IH. cbn. lia.
Qed.

(** The agent collector once the request was built and [client.Do] gave a
    response (its error, if any, is only logged). *)
Lemma agents_Collect_answered (w : World) (collector : Agents.TeamCityAgentCollector)
    (response : Response) (err : option error) :
  url_valid w (Agents.agentsURL w) = true ->
  Do w (Agents.agentsRequest w) = (Some response, err) ->
  Agents.Collect w collector =
    let evs := Log InfoLevel [] (LStr "collecting TeamCity agent metrics")
               :: Agents.logError err in
    if StatusCode response =? StatusNotFound then (evs, Return None)
    else
      let '(body, rerr) := ReadAll (ResponseBody response) in
      let '(agents, derr) :=
        Json.Unmarshal (Json.d_AgentsResponse (jsonLib w)) body AgentsResponse_zero in
      let evs := (evs ++ Agents.logError rerr) ++ Agents.logError derr in
      if negb (String.eqb (AR_NextHRef agents) EmptyString)
      then (evs ++ [Log FatalLevel [] (LStr "multipage requests are not yet supported")],
            Exit)
      else (evs ++ flat_map (Agents.agentGauges collector) (live (Agents agents)),
            Return None).
Proof.
  intros Hurl Hdo. unfold Agents.Collect, NewRequest.
  rewrite Hurl. unfold Agents.agentsRequest in Hdo. rewrite Hdo.
  cbn [Agents.logError app].
  destruct (StatusCode response =? StatusNotFound); [reflexivity | ].
  destruct (ReadAll (ResponseBody response)) as [body rerr].
  destruct (Json.Unmarshal _ body AgentsResponse_zero) as [agents derr].
  reflexivity.
Qed.


(** C10: the agent collector checks [nextHref] before its loop: when the
    decoded agents list has a non-empty [nextHref], the fatal entry is
    logged and the process left with no agent gauge sent.  The build
    collector has the opposite order: under the same condition every
    build of its page has had its gauges sent before the fatal entry. *)
Theorem agents_fatal_before_send :
  forall (w : World) (collector : Agents.TeamCityAgentCollector)
         (response : Response) (err : option error)
         (agents : AgentsResponse) (derr : option error),
    url_valid w (Agents.agentsURL w) = true ->
    Do w (Agents.agentsRequest w) = (Some response, err) ->
    StatusCode response <> StatusNotFound ->
    Json.Unmarshal (Json.d_AgentsResponse (jsonLib w))
      (content (ResponseBody response)) AgentsResponse_zero = (agents, derr) ->
    AR_NextHRef agents <> EmptyString ->
    (exists evs,
        Agents.Collect w collector =
          (evs ++ [Log FatalLevel [] (LStr "multipage requests are not yet supported")],
           Exit) /\
        filter isSend evs = []) /\
    (forall (builder : Builds.TeamCityBuildsCollector) (identifier : string)
            (bresponse : Response) (body : option Json.value) (builds : BuildResponse),
        url_valid w (buildsURL w identifier) = true ->
        Do w (buildsRequest w identifier) = (Some bresponse, None) ->
        StatusCode bresponse <> StatusNotFound ->
        ReadAll (ResponseBody bresponse) = (body, None) ->
        Json.Unmarshal (Json.d_BuildResponse (jsonLib w)) body BuildResponse_zero
          = (builds, None) ->
        BR_NextHRef builds <> EmptyString ->
        exists evs,
          Builds.collectProjectBuildMetrics w builder identifier =
            (evs ++ [Log FatalLevel [("project", LStr identifier)]
                       (LStr "multipage requests are not yet supported")],
             Exit) /\
          List.length (filter isSend evs) = (4 * List.length (live (Builds builds)))%nat).
Proof.
  intros w collector response err agents derr Hurl Hdo Hst Hdec Hnext. split.
  - rewrite (agents_Collect_answered w collector response err Hurl Hdo). cbv zeta.
    destruct (Z.eqb_spec (StatusCode response) StatusNotFound) as [E | _];
      [contradiction | ].
    unfold ReadAll. rewrite Hdec, (nonempty_eqb _ Hnext).
    eexists. split; [reflexivity | ].
    cbn [app filter isSend]. rewrite !filter_app.
    destruct err, (readErr (ResponseBody response)), derr; reflexivity.
  - intros builder identifier bresponse body builds Burl Bdo Bst Bread Bdec Bnext.
    unfold Builds.collectProjectBuildMetrics.
    rewrite (collect_decoded w _ _ _ _ identifier bresponse body builds
               Burl Bdo Bst Bread Bdec).
    cbv zeta. rewrite (nonempty_eqb _ Bnext).
    eexists. split; [rewrite app_comm_cons; reflexivity | ].
    cbn [filter isSend]. apply sends_of_page.
Qed.

(** ** The gauges fit their descriptors *)

Lemma page_wellLabelled (identifier : string) (l : list Build) :
  Forall wellLabelled
    (flat_map (buildGauges (Metrics.buildStartTime registered)
                 (Metrics.buildFinishTime registered) (Metrics.buildState registered)
                 (Metrics.buildStatus registered) identifier) l).
Proof.
  induction l as [ | b l IH]; [constructor | ].
  cbn [flat_map]. apply Forall_app. split; [ | exact IH].
  repeat constructor.
Qed.

Lemma builds_wellLabelled (w : World) (identifier : string) :
  Forall wellLabelled (fst (Metrics.collectProjectBuildMetrics w registered identifier)).
Proof.
  unfold Metrics.collectProjectBuildMetrics, collectProjectBuildMetrics_of.
  destruct (NewRequest w _ _) as [[request | ] [err | ]]; try constructor.
  destruct (Do w _) as [[response | ] [err | ]]; try constructor.
  destruct (StatusCode response =? StatusNotFound); [constructor | ].
  destruct (ReadAll _) as [body [err | ]]; [constructor | ].
  destruct (Json.Unmarshal _ _ _) as [builds [err | ]]; [constructor | ].
  cbv zeta. destruct (negb _); cbn [fst].
  - constructor; [exact I | ]. apply Forall_app. split; [apply page_wellLabelled | ].
    repeat constructor.
  - constructor; [exact I | apply page_wellLabelled].
Qed.

Lemma projectGauges_wellLabelled (logger : Fields) (p : Project) :
  Forall wellLabelled
    (projectGauges (Metrics.projects registered) (Metrics.buildTypes registered) logger p).
Proof. repeat constructor. Qed.

Lemma logError_wellLabelled (err : option error) :
  Forall wellLabelled (Agents.logError err).
Proof. destruct err; repeat constructor. Qed.

Lemma agentGauges_wellLabelled (l : list Agent) :
  Forall wellLabelled (flat_map (Agents.agentGauges Agents.NewTeamCityAgentCollector) l).
Proof.
  induction l as [ | a l IH]; [constructor | ].
  cbn [flat_map]. apply Forall_app. split; [repeat constructor | exact IH].
Qed.

Lemma agents_wellLabelled (w : World) :
  Forall wellLabelled (fst (Agents.Collect w Agents.NewTeamCityAgentCollector)).
Proof.
  pose proof logError_wellLabelled as Hlog.
  pose proof agentGauges_wellLabelled as Hgauges.
  assert (Hinfo : forall msg, Forall wellLabelled [Log InfoLevel [] msg])
    by (intro; repeat constructor).
  assert (Hfatal : forall msg, Forall wellLabelled [Log FatalLevel [] msg])
    by (intro; repeat constructor).
  unfold Agents.Collect.
  destruct (NewRequest w _ _) as [[request | ] err]; cbn [fst];
    [ | rewrite ?Forall_app; auto].
  destruct (Do w _) as [[response | ] err']; cbn [fst];
    [ | rewrite ?Forall_app; auto].
  destruct (StatusCode response =? StatusNotFound); cbn [fst];
    [rewrite ?Forall_app; auto | ].
  destruct (ReadAll _) as [body rerr].
  destruct (Json.Unmarshal _ _ _) as [agents derr].
  destruct (negb _); cbn [fst]; rewrite ?Forall_app; repeat split; auto.
Qed.

(** ** More on the agent collector *)

(** X5: a 404 answer to the agents request ends the agent collector with
    nothing sent: only the opening entry and, if [client.Do] returned an
    error with the response, that error are logged. *)
Theorem agents_not_found_sends_nothing :
  forall (w : World) (collector : Agents.TeamCityAgentCollector)
         (response : Response) (err : option error),
    url_valid w (Agents.agentsURL w) = true ->
    Do w (Agents.agentsRequest w) = (Some response, err) ->
    StatusCode response = StatusNotFound ->
    Agents.Collect w collector =
      (Log InfoLevel [] (LStr "collecting TeamCity agent metrics")
         :: Agents.logError err,
       Return None).
Proof.
  intros w collector response err Hurl Hdo Hst.
  rewrite (agents_Collect_answered w collector response err Hurl Hdo). cbv zeta.
  rewrite Hst. reflexivity.
Qed.

(** X6: unlike the build collector, the agent collector does not stop at
    an error of the read or of the decoding: the error is logged, and the
    gauges of every agent that [json.Unmarshal] left in the list are sent
    all the same, four for each agent in the order of the list. *)
Theorem agents_decode_error_only_logged :
  forall (w : World) (collector : Agents.TeamCityAgentCollector)
         (response : Response) (agents : AgentsResponse) (derr : error),
    url_valid w (Agents.agentsURL w) = true ->
    Do w (Agents.agentsRequest w) = (Some response, None) ->
    StatusCode response <> StatusNotFound ->
    Json.Unmarshal (Json.d_AgentsResponse (jsonLib w))
      (content (ResponseBody response)) AgentsResponse_zero = (agents, Some derr) ->
    AR_NextHRef agents = EmptyString ->
    exists logs,
      Agents.Collect w collector =
        (logs ++ flat_map (Agents.agentGauges collector) (live (Agents agents)),
         Return None) /\
      filter isSend logs = [] /\
      In (Log ErrorLevel [] (LErr derr)) logs.
Proof.
  intros w collector response agents derr Hurl Hdo Hst Hdec Hnext.
  rewrite (agents_Collect_answered w collector response None Hurl Hdo). cbv zeta.
  destruct (Z.eqb_spec (StatusCode response) StatusNotFound) as [E | _];
    [contradiction | ].
  unfold ReadAll. rewrite Hdec, Hnext. cbn [String.eqb negb].
  eexists. split; [reflexivity | ]. split.
  - destruct (readErr (ResponseBody response)); reflexivity.
  - apply in_or_app. right. left. reflexivity.
Qed.

(** X7: the agent collector sends only gauges of the agents it decoded;
    each carries the two label values its descriptor names, and the
    values of the three flag gauges are 1 for true and 0 for false. *)
Theorem agent_gauges_are_flags :
  forall (w : World) (m : Metric),
    In (Send m) (fst (Agents.Collect w Agents.NewTeamCityAgentCollector)) ->
    List.length (labelValues m) = 2%nat /\
    (fqName (desc m) <> "teamcity_agent_current_build_id" ->
     value m = 0 \/ value m = 1).
Proof.
  intros w m.
  assert (Hg : forall l,
             In (Send m) (flat_map (Agents.agentGauges Agents.NewTeamCityAgentCollector) l) ->
             List.length (labelValues m) = 2%nat /\
             (fqName (desc m) <> "teamcity_agent_current_build_id" ->
              value m = 0 \/ value m = 1)).
  { intros l Hin. apply in_flat_map in Hin. destruct Hin as (a & _ & Hin).
    unfold Agents.agentGauges in Hin. cbv zeta in Hin.
    destruct Hin as [E | [E | [E | [E | []]]]]; injection E as <-;
      cbn [labelValues desc value fqName Agents.NewTeamCityAgentCollector
           Agents.agentAuthorized Agents.agentConnected Agents.agentEnabled
           Agents.agentCurrentBuildId List.length];
      (split; [reflexivity | ]); intros Hname;
      try (exfalso; apply Hname; reflexivity).
    - destruct (Authorized a); [right | left]; reflexivity.
    - destruct (Connected a); [right | left]; reflexivity.
    - destruct (Enabled a); [right | left]; reflexivity. }
  assert (Hend : forall evs l,
             (forall e, In e evs -> isSend e = false) ->
             In (Send m) (evs ++ flat_map (Agents.agentGauges Agents.NewTeamCityAgentCollector) l) ->
             List.length (labelValues m) = 2%nat /\
             (fqName (desc m) <> "teamcity_agent_current_build_id" ->
              value m = 0 \/ value m = 1)).
  { intros evs l Hevs Hin. apply in_app_or in Hin. destruct Hin as [Hin | Hin].
    - apply Hevs in Hin. discriminate.
    - exact (Hg l Hin). }
  assert (Hlog : forall err e, In e (Agents.logError err) -> isSend e = false).
  { intros [err | ] e; cbn; [intros [<- | []]; reflexivity | intros []]. }
  assert (Hone : forall lvl f msg e, In e [Log lvl f msg] -> isSend e = false).
  { intros lvl f msg e [<- | []]. reflexivity. }
  assert (Happ : forall a b : list event,
             (forall e, In e a -> isSend e = false) ->
             (forall e, In e b -> isSend e = false) ->
             forall e, In e (a ++ b) -> isSend e = false).
  { intros a b Ha Hb e Hin. apply in_app_or in Hin. destruct Hin; auto. }
  assert (Hno : forall evs,
             (forall e, In e evs -> isSend e = false) ->
             In (Send m) evs ->
             List.length (labelValues m) = 2%nat /\
             (fqName (desc m) <> "teamcity_agent_current_build_id" ->
              value m = 0 \/ value m = 1)).
  { intros evs Hevs Hin. apply Hevs in Hin. discriminate. }
  unfold Agents.Collect.
  destruct (NewRequest w _ _) as [[request | ] err]; cbn [fst];
    [ | apply Hno; repeat apply Happ; eauto].
  destruct (Do w _) as [[response | ] err']; cbn [fst];
    [ | apply Hno; repeat apply Happ; eauto].
  destruct (StatusCode response =? StatusNotFound); cbn [fst];
    [apply Hno; repeat apply Happ; eauto | ].
  destruct (ReadAll _) as [body rerr].
  destruct (Json.Unmarshal _ _ _) as [agents derr].
  destruct (negb _); cbn [fst].
  - apply Hno; repeat apply Happ; eauto.
  - apply Hend. repeat apply Happ; eauto.
Qed.

(** ** An agent without a build *)

Module AgentFrame.

Import Json.

Section Fields.

Variable lib : Lib.

Lemma Agent_member_CurrentBuild k v a d :
  (findField lib Agent_fields k = Some 5%nat -> v = Null) ->
  CurrentBuild (fst (Agent_member lib k v a d)) = CurrentBuild a.
Proof.
  intros Hk. unfold Agent_member.
  destruct (findField lib Agent_fields k) as [[ | [ | [ | [ | [ | [ | n]]]]]] | ];
    try reflexivity.
  - destruct (d_uint64 v (Agent_ID a) d); reflexivity.
  - destruct (d_string lib v (Name a) d); reflexivity.
  - destruct (d_bool v (Authorized a) d); reflexivity.
  - destruct (d_bool v (Connected a) d); reflexivity.
  - destruct (d_bool v (Enabled a) d); reflexivity.
  - rewrite (Hk eq_refl). reflexivity.
Qed.

Lemma Agent_members_CurrentBuild ms :
  forall a d,
    (forall k v, In (k, v) ms -> findField lib Agent_fields k = Some 5%nat -> v = Null) ->
    CurrentBuild (fst (d_members (Agent_member lib) ms a d)) = CurrentBuild a.
Proof.
  induction ms as [ | [k v] rest IH]; intros a d Hms; [reflexivity | ].
  cbn [d_members].
  pose proof (Agent_member_CurrentBuild k v a d (Hms k v (or_introl eq_refl))) as Hk.
  destruct (Agent_member lib k v a d) as [a' d']. cbn [fst] in Hk.
  destruct (aborted d'); [exact Hk | ].
  rewrite IH; [exact Hk | ]. intros k' v' Hin. apply (Hms k' v'). right. exact Hin.
Qed.

End Fields.

End AgentFrame.

(** X22: an agent object without a [build] member, or with null for it,
    decoded into a fresh element, keeps the zero build: the
    current-build gauge sent for an idle agent has the value 0. *)
Theorem idle_agent_has_build_zero :
  forall (lib : Json.Lib) (ms : list (string * Json.value)) (d : Json.dstate)
         (collector : Agents.TeamCityAgentCollector),
    (forall k v, In (k, v) ms ->
                 Json.findField lib Json.Agent_fields k = Some 5%nat -> v = Json.Null) ->
    let a := fst (Json.d_Agent lib (Json.Object ms) Agent_zero d) in
    In (Send (MustNewConstMetric (Agents.agentCurrentBuildId collector) 0
                [Str.utoa (Agent_ID a); Name a]))
       (Agents.agentGauges collector a).
Proof.
  intros lib ms d collector Hms a.
  pose proof (AgentFrame.Agent_members_CurrentBuild lib ms Agent_zero d Hms) as H.
  unfold Agents.agentGauges. cbv zeta. do 3 right. left.
  unfold a, Json.d_Agent, Json.d_struct. rewrite H. reflexivity.
Qed.

(** ** Decoding a build list with a malformed timestamp *)

Module DecodeFacts.

Import Json Decode.

Lemma saveError_abort d e : abort (saveError d e) = abort d.
Proof. unfold saveError. destruct (savedError d); reflexivity. Qed.

Lemma aborted_false d : aborted d = false -> abort d = None.
Proof. unfold aborted. destruct (abort d); [discriminate | reflexivity]. Qed.

Lemma aborted_ok d : aborted d = true -> okAbort d -> parseAborted d.
Proof.
  unfold aborted. intros H [Hn | Hp]; [ | exact Hp].
  rewrite Hn in H. discriminate.
Qed.

Lemma sound_uint64 : sound d_uint64.
Proof.
  intros v cur d Hd. left. unfold d_uint64.
  destruct v; cbn; rewrite ?saveError_abort; try exact Hd.
  destruct (ParseUint lit); cbn; rewrite ?saveError_abort; exact Hd.
Qed.

Lemma sound_bool : sound d_bool.
Proof.
  intros v cur d Hd. left. unfold d_bool.
  destruct v; cbn; rewrite ?saveError_abort; exact Hd.
Qed.

Lemma sound_string lib : sound (d_string lib).
Proof.
  intros v cur d Hd. left. unfold d_string.
  destruct v; cbn; rewrite ?saveError_abort; exact Hd.
Qed.

Lemma sound_time : sound d_time.
Proof.
  intros v cur d Hd. unfold d_time, UnmarshalJSON.
  destruct (GoTime.Parse _) as [e | tm]; cbn.
  - right. eexists _, _. reflexivity.
  - left. exact Hd.
Qed.

Lemma hits_time v : malformedTimestamp v -> hits d_time v.
Proof.
  intros [e He] cur d _. unfold d_time, UnmarshalJSON. rewrite He. cbn.
  eexists _, _. reflexivity.
Qed.

Lemma sound_members {T : Type} (member : string -> dec T) :
  (forall k, sound (member k)) ->
  forall ms cur d, abort d = None -> okAbort (snd (d_members member ms cur d)).
Proof.
  intros Hm ms. induction ms as [ | [k v] rest IH]; intros cur d Hd.
  - left. exact Hd.
  - cbn [d_members]. pose proof (Hm k v cur d Hd) as Hk.
    destruct (member k v cur d) as [cur' d']. cbn [snd] in Hk.
    destruct (aborted d') eqn:Ha; [exact Hk | ].
    apply IH, aborted_false, Ha.
Qed.

Lemma sound_struct {T : Type} type_ (member : string -> dec T) :
  (forall k, sound (member k)) -> sound (d_struct type_ member).
Proof.
  intros Hm v cur d Hd. unfold d_struct.
  destruct v; cbn [snd];
    try (left; rewrite ?saveError_abort; exact Hd).
  apply sound_members; assumption.
Qed.

Lemma sound_elems {T : Type} (elem : dec T) (zero : T) :
  sound elem ->
  forall elems done backing liveLeft d,
    abort d = None ->
    okAbort (snd (d_elems elem zero elems done backing liveLeft d)).
Proof.
  intros He elems.
  induction elems as [ | v rest IH]; intros done backing liveLeft d Hd.
  - cbn [d_elems]. destruct done; left; exact Hd.
  - cbn [d_elems]. pose proof (He v (hd zero backing) d Hd) as Hv.
    destruct (elem v (hd zero backing) d) as [x d']. cbn [snd] in Hv.
    destruct (aborted d') eqn:Ha; [exact Hv | ].
    apply IH, aborted_false, Ha.
Qed.

Lemma sound_slice {T : Type} type_ (elem : dec T) (zero : T) :
  sound elem -> sound (d_slice type_ elem zero).
Proof.
  intros He v cur d Hd. unfold d_slice.
  destruct v; cbn [snd];
    try (left; rewrite ?saveError_abort; exact Hd).
  apply sound_elems; assumption.
Qed.

Lemma hits_members {T : Type} (member : string -> dec T) :
  (forall k, sound (member k)) ->
  forall ms k v,
    In (k, v) ms -> hits (member k) v ->
    forall cur d, abort d = None -> parseAborted (snd (d_members member ms cur d)).
Proof.
  intros Hm ms k v. induction ms as [ | [k' v'] rest IH]; intros Hin Hhit cur d Hd.
  - destruct Hin.
  - cbn [d_members]. pose proof (Hm k' v' cur d Hd) as Hk.
    destruct Hin as [E | Hin].
    + inversion E; subst k' v'. pose proof (Hhit cur d Hd) as Hp.
      destruct (member k v cur d) as [cur' d']. cbn [snd] in Hp.
      destruct Hp as [pe [txt Hp]].
      unfold aborted. rewrite Hp. exists pe, txt. exact Hp.
    + destruct (member k' v' cur d) as [cur' d']. cbn [snd] in Hk.
      destruct (aborted d') eqn:Ha; [exact (aborted_ok _ Ha Hk) | ].
      apply IH; [exact Hin | exact Hhit | apply aborted_false, Ha].
Qed.

Lemma hits_struct {T : Type} type_ (member : string -> dec T) ms k v :
  (forall k, sound (member k)) ->
  In (k, v) ms -> hits (member k) v ->
  hits (d_struct type_ member) (Object ms).
Proof.
  intros Hm Hin Hhit cur d Hd. unfold d_struct.
  exact (hits_members member Hm ms k v Hin Hhit cur d Hd).
Qed.

Lemma hits_elems {T : Type} (elem : dec T) (zero : T) :
  sound elem ->
  forall elems v,
    In v elems -> hits elem v ->
    forall done backing liveLeft d,
      abort d = None ->
      parseAborted (snd (d_elems elem zero elems done backing liveLeft d)).
Proof.
  intros He elems v.
  induction elems as [ | v' rest IH]; intros Hin Hhit done backing liveLeft d Hd.
  - destruct Hin.
  - cbn [d_elems]. pose proof (He v' (hd zero backing) d Hd) as Hv.
    destruct Hin as [E | Hin].
    + subst v'. pose proof (Hhit (hd zero backing) d Hd) as Hp.
      destruct (elem v (hd zero backing) d) as [x d']. cbn [snd] in Hp.
      destruct Hp as [pe [txt Hp]].
      unfold aborted. rewrite Hp. exists pe, txt. exact Hp.
    + destruct (elem v' (hd zero backing) d) as [x d']. cbn [snd] in Hv.
      destruct (aborted d') eqn:Ha; [exact (aborted_ok _ Ha Hv) | ].
      apply IH; [exact Hin | exact Hhit | apply aborted_false, Ha].
Qed.

Lemma hits_slice {T : Type} type_ (elem : dec T) (zero : T) elems v :
  sound elem -> In v elems -> hits elem v ->
  hits (d_slice type_ elem zero) (Array elems).
Proof.
  intros He Hin Hhit cur d Hd. unfold d_slice.
  exact (hits_elems elem zero He elems v Hin Hhit _ _ _ d Hd).
Qed.

Section Fields.

Variable lib : Lib.

Lemma sound_Build_member k : sound (Build_member lib k).
Proof.
  intros v b d Hd. unfold Build_member.
  destruct (findField lib Build_fields k) as [[ | [ | [ | [ | [ | [ | n]]]]]] | ];
    try (left; exact Hd).
  - field_step sound_uint64.
  - field_step (sound_string lib).
  - field_step (sound_string lib).
  - field_step (sound_string lib).
  - field_step sound_time.
  - field_step sound_time.
Qed.

Lemma sound_Build : sound (d_Build lib).
Proof. apply sound_struct, sound_Build_member. Qed.

Lemma hits_Build_member k v :
  timestampKey lib k -> malformedTimestamp v -> hits (Build_member lib k) v.
Proof.
  intros Hk Hv b d Hd. unfold Build_member.
  destruct Hk as [Hk | Hk]; rewrite Hk; hit_step (hits_time v Hv).
Qed.

Lemma sound_BuildResponse_member k : sound (BuildResponse_member lib k).
Proof.
  intros v r d Hd. unfold BuildResponse_member.
  destruct (findField lib BuildResponse_fields k)
    as [[ | [ | [ | [ | [ | n]]]]] | ];
    try (left; exact Hd).
  - field_step sound_uint64.
  - field_step (sound_string lib).
  - field_step (sound_string lib).
  - field_step (sound_string lib).
  - field_step (sound_slice "[]main.Build" (d_Build lib) Build_zero sound_Build).
Qed.

Lemma Unmarshal_malformed doc :
  hasMalformedTimestamp lib doc ->
  exists r pe txt,
    Unmarshal (d_BuildResponse lib) (Some doc) BuildResponse_zero
    = (r, Some (ParseError pe txt)).
Proof.
  intros (members & kb & elems & ms & k & v & -> & Hkb & Hf & Hms & Hkv & Hk & Hv).
  assert (Hbuild : hits (d_Build lib) (Object ms)).
  { apply (hits_struct _ _ ms k v sound_Build_member Hkv).
    apply hits_Build_member; assumption. }
  assert (Hslice : hits (BuildResponse_member lib kb) (Array elems)).
  { intros r d Hd. unfold BuildResponse_member. rewrite Hf.
    hit_step (hits_slice "[]main.Build" (d_Build lib) Build_zero elems
                  (Object ms) sound_Build Hms Hbuild). }
  pose proof (hits_struct "main.BuildResponse" _ members kb (Array elems)
                sound_BuildResponse_member Hkb Hslice
                BuildResponse_zero dstate0 eq_refl) as Hp.
  unfold Unmarshal, d_BuildResponse.
  destruct (d_struct _ _ _ _ _) as [r st]. cbn [snd] in Hp.
  destruct Hp as [pe [txt Hp]]. rewrite Hp.
  exists r, pe, txt. reflexivity.
Qed.

End Fields.

End DecodeFacts.

(** C1, as the code has it: when some build of the body has a startDate or
    finishDate that [UnmarshalJSON] rejects, the error of the timestamp
    ends the decoding of the whole body; [collectProjectBuildMetrics]
    returns that error and has sent no gauge at all, neither for that build
    nor for the other builds of the page.  The error is not fatal: it is
    returned to the traversal, which returns it in turn (before the fan-out
    over the subprojects) to the caller that logs it. *)
Theorem malformed_timestamp_fails_the_page :
  forall (w : World) (collector : Metrics.TeamCityCollector) (identifier : string)
         (response : Response) (doc : Json.value),
    url_valid w (buildsURL w identifier) = true ->
    Do w (buildsRequest w identifier) = (Some response, None) ->
    StatusCode response <> StatusNotFound ->
    ReadAll (ResponseBody response) = (Some doc, None) ->
    Decode.hasMalformedTimestamp (jsonLib w) doc ->
    exists pe txt,
      Metrics.collectProjectBuildMetrics w collector identifier
        = ([], Return (Some (ParseError pe txt))) /\
      forall (fuel : nat) (parent : string) (p : Project),
        GetByID w parent = inr p ->
        ID p = identifier ->
        let logger := [("project", LStr parent)] in
        Metrics.collectProjectMetrics w collector (S fuel) parent =
          Some (Log InfoLevel logger (LStr "collecting project")
                :: projectGauges (Metrics.projects collector)
                     (Metrics.buildTypes collector) logger p,
                Return (Some (ParseError pe txt))).
Proof.
  intros w collector identifier response doc Hurl Hdo Hst Hread Hbad.
  destruct (DecodeFacts.Unmarshal_malformed (jsonLib w) doc Hbad)
    as (r & pe & txt & Hdec).
  exists pe, txt.
  assert (Hret : Metrics.collectProjectBuildMetrics w collector identifier
                 = ([], Return (Some (ParseError pe txt)))).
  { unfold Metrics.collectProjectBuildMetrics.
    rewrite (collect_answered w _ _ _ _ identifier response Hurl Hdo).
    destruct (Z.eqb_spec (StatusCode response) StatusNotFound) as [E | _];
      [contradiction | ].
    rewrite Hread, Hdec. reflexivity. }
  split; [exact Hret | ].
  intros fuel parent p Hget Hid logger.
  cbn [Metrics.collectProjectMetrics]. rewrite Hget, Hid, Hret.
  rewrite app_nil_r. reflexivity.
Qed.

(** ** Absent and null timestamps *)

Module DecodeFrame.

Import Json.

Section Fields.

Variable lib : Lib.

(** A member that does not select a date leaves the date as it was. *)
Lemma Build_member_StartDate k v b d :
  findField lib Build_fields k <> Some 4%nat ->
  StartDate (fst (Build_member lib k v b d)) = StartDate b.
Proof.
  intros Hk. unfold Build_member.
  destruct (findField lib Build_fields k) as [[ | [ | [ | [ | [ | [ | n]]]]]] | ];
    try reflexivity.
  - destruct (d_uint64 v (Build_ID b) d); reflexivity.
  - destruct (d_string lib v (BuildTypeID b) d); reflexivity.
  - destruct (d_string lib v (Status b) d); reflexivity.
  - destruct (d_string lib v (State b) d); reflexivity.
  - contradiction Hk; reflexivity.
  - destruct (d_time v (FinishDate b) d); reflexivity.
Qed.

Lemma Build_member_FinishDate k v b d :
  findField lib Build_fields k <> Some 5%nat ->
  FinishDate (fst (Build_member lib k v b d)) = FinishDate b.
Proof.
  intros Hk. unfold Build_member.
  destruct (findField lib Build_fields k) as [[ | [ | [ | [ | [ | [ | n]]]]]] | ];
    try reflexivity.
  - destruct (d_uint64 v (Build_ID b) d); reflexivity.
  - destruct (d_string lib v (BuildTypeID b) d); reflexivity.
  - destruct (d_string lib v (Status b) d); reflexivity.
  - destruct (d_string lib v (State b) d); reflexivity.
  - destruct (d_time v (StartDate b) d); reflexivity.
  - contradiction Hk; reflexivity.
Qed.

Lemma members_frame {A : Type} (field : Build -> A) (i : nat) :
  (forall k v b d,
      findField lib Build_fields k <> Some i ->
      field (fst (Build_member lib k v b d)) = field b) ->
  forall ms b d,
    (forall k v, In (k, v) ms -> findField lib Build_fields k <> Some i) ->
    field (fst (d_members (Build_member lib) ms b d)) = field b.
Proof.
  intros Hstep ms. induction ms as [ | [k v] rest IH]; intros b d Hms; [reflexivity | ].
  cbn [d_members].
  pose proof (Hstep k v b d (Hms k v (or_introl eq_refl))) as Hk.
  destruct (Build_member lib k v b d) as [b' d']. cbn [fst] in Hk.
  destruct (aborted d'); [exact Hk | ].
  rewrite IH; [exact Hk | ]. intros k' v' Hin. apply (Hms k' v'). right. exact Hin.
Qed.

(** A null for a date is handed to [UnmarshalJSON], which rejects it. *)
Lemma null_is_malformed : Decode.malformedTimestamp Null.
Proof. exists GoTime.errBad. reflexivity. Qed.

End Fields.

End DecodeFrame.

(** X16: a build object with no member for [startDate] (or [finishDate]),
    decoded into a fresh element, keeps the zero time in that field, and
    the gauge sent for it has the value -62135596800 (January 1 of the
    year 1), not 0. *)
Theorem absent_date_is_year_one :
  forall (lib : Json.Lib) (ms : list (string * Json.value)) (d : Json.dstate)
         (d1 d2 d3 d4 : Desc) (identifier : string),
    let b := fst (Json.d_Build lib (Json.Object ms) Build_zero d) in
    let labels := [identifier; BuildTypeID b; Str.utoa (Build_ID b)] in
    ((forall k v, In (k, v) ms -> Json.findField lib Json.Build_fields k <> Some 4%nat) ->
     In (Send (MustNewConstMetric d1 (-62135596800) labels))
        (buildGauges d1 d2 d3 d4 identifier b)) /\
    ((forall k v, In (k, v) ms -> Json.findField lib Json.Build_fields k <> Some 5%nat) ->
     In (Send (MustNewConstMetric d2 (-62135596800) labels))
        (buildGauges d1 d2 d3 d4 identifier b)).
Proof.
  intros lib ms d d1 d2 d3 d4 identifier b labels. split; intros Hms.
  - pose proof (DecodeFrame.members_frame lib StartDate 4
                  (DecodeFrame.Build_member_StartDate lib) ms Build_zero d Hms) as H.
    left. unfold labels. f_equal. f_equal.
    unfold b, Json.d_Build, Json.d_struct. rewrite H. reflexivity.
  - pose proof (DecodeFrame.members_frame lib FinishDate 5
                  (DecodeFrame.Build_member_FinishDate lib) ms Build_zero d Hms) as H.
    right. left. unfold labels. f_equal. f_equal.
    unfold b, Json.d_Build, Json.d_struct. rewrite H. reflexivity.
Qed.

(** X17: a JSON null for the [startDate] or [finishDate] of a build is not
    skipped: it is handed to [UnmarshalJSON], which returns a parse error,
    so the whole page fails and no gauge of the project's builds is sent. *)
Theorem null_timestamp_fails_the_page :
  forall (w : World) (collector : Metrics.TeamCityCollector) (identifier : string)
         (response : Response)
         (members : list (string * Json.value)) (kb : string)
         (elems : list Json.value) (ms : list (string * Json.value)) (k : string),
    url_valid w (buildsURL w identifier) = true ->
    Do w (buildsRequest w identifier) = (Some response, None) ->
    StatusCode response <> StatusNotFound ->
    ReadAll (ResponseBody response) = (Some (Json.Object members), None) ->
    In (kb, Json.Array elems) members ->
    Json.findField (jsonLib w) Json.BuildResponse_fields kb = Some 4%nat ->
    In (Json.Object ms) elems ->
    In (k, Json.Null) ms ->
    Decode.timestampKey (jsonLib w) k ->
    exists pe txt,
      Metrics.collectProjectBuildMetrics w collector identifier
      = ([], Return (Some (ParseError pe txt))).
Proof.
  intros w collector identifier response members kb elems ms k
    Hurl Hdo Hst Hread Hkb Hf Hms Hk Hkey.
  destruct (DecodeFacts.Unmarshal_malformed (jsonLib w) (Json.Object members))
    as (r & pe & txt & Hdec).
  { exists members, kb, elems, ms, k, Json.Null.
    repeat (split; [assumption || reflexivity | ]).
    apply DecodeFrame.null_is_malformed. }
  exists pe, txt. unfold Metrics.collectProjectBuildMetrics.
  rewrite (collect_answered w _ _ _ _ identifier response Hurl Hdo).
  destruct (Z.eqb_spec (StatusCode response) StatusNotFound) as [E | _];
    [contradiction | ].
  rewrite Hread, Hdec. reflexivity.
Qed.


(** ** The join of the traversal *)

Module TraversalFacts.

Import Traversal.

Lemma noWait_app a b : noWait (a ++ b) <-> noWait a /\ noWait b.
Proof. apply Forall_app. Qed.

Lemma noWait_cons e evs :
  noWait (e :: evs) <->
  match e with WaitsForever _ => False | _ => True end /\ noWait evs.
Proof. apply Forall_cons_iff. Qed.

Lemma noWait_nil : noWait [].
Proof. constructor. Qed.

#[local] Hint Resolve noWait_nil : core.

Lemma runTasks_ext (child1 child2 : string -> option result) logger items wg :
  (forall id, child1 id = child2 id) ->
  runTasks child1 logger items wg = runTasks child2 logger items wg.
Proof.
  intros E. revert wg. induction items as [ | c rest IH]; intro wg; [reflexivity | ].
  cbn [runTasks]. rewrite E.
  destruct (child2 (Ref_ID c)) as [[evs [err | | p | ]] | ]; try reflexivity.
  - destruct (WaitGroup.Done wg); [rewrite IH | ]; reflexivity.
  - rewrite IH. reflexivity.
Qed.

Lemma fanOut_ext (child1 child2 : string -> option result) logger identifier p :
  (forall id, child1 id = child2 id) ->
  fanOut child1 logger identifier p = fanOut child2 logger identifier p.
Proof.
  intros E. unfold fanOut.
  destruct (WaitGroup.Add _ _); [ | reflexivity].
  rewrite (runTasks_ext child1 child2 logger _ _ E). reflexivity.
Qed.

Lemma metrics_is_walk w collector fuel identifier :
  Metrics.collectProjectMetrics w collector fuel identifier
  = walk w (metricsVisit w collector) fuel identifier.
Proof.
  revert identifier. induction fuel as [ | fuel IH]; intro identifier; [reflexivity | ].
  cbn [Metrics.collectProjectMetrics walk].
  destruct (GetByID w identifier) as [err | p]; [reflexivity | ].
  unfold metricsVisit.
  destruct (Metrics.collectProjectBuildMetrics w collector (ID p))
    as [evs [[e | ] | | q | ]]; try reflexivity.
  rewrite (fanOut_ext _ _ _ _ _ IH).
  destruct (fanOut _ _ _ _) as [[evs' out] | ]; [ | reflexivity].
  rewrite <- app_assoc. reflexivity.
Qed.

Lemma projects_is_walk w collector fuel identifier :
  Projects.collectProjectMetrics w collector fuel identifier
  = walk w (projectsVisit collector) fuel identifier.
Proof.
  revert identifier. induction fuel as [ | fuel IH]; intro identifier; [reflexivity | ].
  cbn [Projects.collectProjectMetrics walk].
  destruct (GetByID w identifier) as [err | p]; [reflexivity | ].
  unfold projectsVisit.
  rewrite (fanOut_ext _ _ _ _ _ IH). reflexivity.
Qed.

Lemma builds_is_walk w collector fuel identifier :
  Builds.collectBuildMetrics w collector fuel identifier
  = walk w (buildsVisit w collector) fuel identifier.
Proof.
  revert identifier. induction fuel as [ | fuel IH]; intro identifier; [reflexivity | ].
  cbn [Builds.collectBuildMetrics walk].
  destruct (GetByID w identifier) as [err | p]; [reflexivity | ].
  unfold buildsVisit.
  destruct (Builds.collectProjectBuildMetrics w collector (ID p))
    as [evs [[e | ] | | q | ]]; try reflexivity.
  rewrite (fanOut_ext _ _ _ _ _ IH). reflexivity.
Qed.

End TraversalFacts.

Module JoinFacts.

Import Traversal TraversalFacts.

#[local] Hint Resolve noWait_nil : core.

Section Join.

Variable w : World.
Variable visit : string -> Project -> result.

(** What a collector does before the fan-out starts no task and
    touches no WaitGroup. *)
Hypothesis visit_joins : forall id p, joins (visit id p).

#[local] Abbreviation Spec := (Traversal.Spec w visit).

Lemma CountsAgree_child root p c :
  GetByID w root = inr p ->
  snd (visit root p) = Return None ->
  In c (Items (ChildProjects p)) ->
  CountsAgree w visit root -> CountsAgree w visit (Ref_ID c).
Proof.
  intros Hget Hv Hin H id q Hreach. apply H.
  exact (reaches_child w visit root p c id Hget Hv Hin Hreach).
Qed.

(** The fan-out block, given what each task establishes: one
    [wg.Done()] for each entry of the list whose task returns. *)
Lemma runTasks_spec (child : string -> option result) (logger : Fields) :
  forall items,
    (forall c, In c items ->
               exists r, child (Ref_ID c) = Some r /\ Spec (Ref_ID c) r) ->
    forall wg,
    exists evs res,
      runTasks child logger items wg = Some (evs, res) /\
      (forall out, res = inl out -> out = Exit \/ exists p, out = Panic p) /\
      (noWait evs ->
       forall wg', res = inr wg' ->
                   wg' = wg - Z.of_nat (List.length items) /\
                   forall c, In c items -> CountsAgree w visit (Ref_ID c)) /\
      ((forall c, In c items -> CountsAgree w visit (Ref_ID c)) ->
       noWait evs /\
       (res = inl (Panic NegativeWaitGroupCounter) ->
        wg < Z.of_nat (List.length items)) /\
       (forall wg', res = inr wg' -> wg' = wg - Z.of_nat (List.length items))).
Proof.
  induction items as [ | c rest IH]; intros Hch wg.
  - exists [], (inr wg). cbn. repeat split; intros; try discriminate; auto.
    + inversion H0; lia.
    + contradiction.
    + inversion H0; lia.
  - destruct (Hch c (or_introl eq_refl)) as [[evc outc] [Hc [Sa [Sb Sc]]]].
    assert (Hrest : forall c', In c' rest ->
              exists r, child (Ref_ID c') = Some r /\ Spec (Ref_ID c') r)
      by (intros c' Hin; apply Hch; right; exact Hin).
    cbn [runTasks]. rewrite Hc. cbn [fst snd] in *.
    destruct outc as [err | | p | ].
    + (* the task returns: its error is logged and wg.Done() is called *)
      set (evs1 := evc ++ match err with
                          | Some e => [Log ErrorLevel logger (LErr e)]
                          | None => []
                          end).
      assert (Hev1 : noWait evs1 <-> noWait evc).
      { unfold evs1. rewrite noWait_app. split; [tauto | ].
        intro H. split; [exact H | ].
        destruct err; [apply noWait_cons; split; [exact I | auto] | auto]. }
      unfold WaitGroup.Done, WaitGroup.Add.
      destruct (Z.ltb_spec (wg + -1) 0) as [Hneg | Hpos].
      * exists evs1, (inl (Panic NegativeWaitGroupCounter)).
        split; [reflexivity | ].
        split; [intros out E; inversion E; right; eexists; reflexivity | ].
        split; [intros _ wg' E; discriminate | ].
        intros Hall. split; [ | split].
        -- apply Hev1, Sb, Hall. left; reflexivity.
        -- intros _. cbn [List.length]. lia.
        -- intros wg' E. discriminate.
      * destruct (IH Hrest (wg + -1)) as (evs' & res & Hrun & Hstop & Ha & Hb).
        rewrite Hrun. exists (evs1 ++ evs'), res.
        split; [reflexivity | ]. split; [exact Hstop | ]. split.
        -- intros Hnw wg' E. apply noWait_app in Hnw. destruct Hnw as [Hn1 Hn2].
           destruct (Ha Hn2 wg' E) as [Hwg Hcons]. split.
           ++ cbn [List.length]. lia.
           ++ intros c' [<- | Hin]; [ | apply Hcons, Hin].
              apply Sa. split; [eexists; reflexivity | apply Hev1, Hn1].
        -- intros Hall.
           destruct (Hb (fun c' Hin => Hall c' (or_intror Hin))) as (Hn & Hp & Hr).
           split; [ | split].
           ++ apply noWait_app. split; [ | exact Hn].
              apply Hev1, Sb, Hall. left; reflexivity.
           ++ intros E. specialize (Hp E). cbn [List.length]. lia.
           ++ intros wg' E. specialize (Hr wg' E). cbn [List.length]. lia.
    + (* the process exits in the task *)
      exists evc, (inl Exit). split; [reflexivity | ].
      split; [intros out E; inversion E; left; reflexivity | ].
      split; [intros _ wg' E; discriminate | ].
      intros Hall. split; [ | split].
      * apply Sb, Hall. left; reflexivity.
      * intros E. discriminate.
      * intros wg' E. discriminate.
    + (* the task panics *)
      exists evc, (inl (Panic p)). split; [reflexivity | ].
      split; [intros out E; inversion E; right; eexists; reflexivity | ].
      split; [intros _ wg' E; discriminate | ].
      intros Hall.
      destruct (Sb (Hall c (or_introl eq_refl))) as (Hn & _ & Hp).
      split; [exact Hn | split].
      * intros E. inversion E; subst p. contradiction Hp. reflexivity.
      * intros wg' E. discriminate.
    + (* the task never returns and never calls wg.Done() *)
      destruct (IH Hrest wg) as (evs' & res & Hrun & Hstop & Ha & Hb).
      rewrite Hrun. exists (evc ++ evs'), res.
      split; [reflexivity | ]. split; [exact Hstop | ]. split.
      * intros Hnw. apply noWait_app in Hnw. destruct Hnw as [Hn1 _].
        contradiction (Sc eq_refl Hn1).
      * intros Hall.
        destruct (Sb (Hall c (or_introl eq_refl))) as (_ & Hblocked & _).
        contradiction Hblocked. reflexivity.
Qed.

Variable rank : string -> nat.
Hypothesis rank_decreases : acyclic w rank.

Lemma walk_spec :
  forall fuel root,
    (rank root < fuel)%nat ->
    exists r, walk w visit fuel root = Some r /\ Spec root r.
Proof.
  induction fuel as [ | fuel IH]; intros root Hfuel; [lia | ].
  cbn [walk].
  destruct (GetByID w root) as [err | p] eqn:Hget.
  { (* the project cannot be fetched *)
    eexists. split; [reflexivity | ]. unfold Spec, clean, joins. cbn [fst snd]. split; [ | split].
    - intros _ id q Hreach Hq Hv.
      inversion Hreach; subst; congruence.
    - intros _. split; [ | split; discriminate].
      apply noWait_cons. split; [exact I | auto].
    - discriminate. }
  destruct (visit_joins root p) as (Vn & Vb & Vp).
  destruct (visit root p) as [evs out] eqn:Hvisit. cbn [fst snd] in *.
  assert (Hstop : out <> Return None ->
            exists r, Some (Log InfoLevel [("project", LStr root)]
                              (LStr "collecting project") :: evs, out) = Some r /\
                      Spec root r).
  { intros Hout. eexists. split; [reflexivity | ]. unfold Spec, clean, joins. cbn [fst snd].
    split; [ | split].
    - intros _ id q Hreach Hq Hv.
      inversion Hreach; subst.
      + rewrite Hget in Hq. inversion Hq; subst q.
        rewrite Hvisit in Hv. contradiction.
      + rewrite Hget in H. inversion H; subst p0.
        rewrite Hvisit in H0. contradiction.
    - intros _. split; [ | split; assumption].
      apply noWait_cons. split; [exact I | exact Vn].
    - intros E. contradiction. }
  destruct out as [[e | ] | | q | ]; try (apply Hstop; discriminate).
  clear Hstop.
  assert (Hself : CountsAgree w visit root ->
            Count (ChildProjects p)
            = Z.of_nat (List.length (Items (ChildProjects p)))).
  { intros H. apply (H root p (reaches_self w visit root) Hget).
    rewrite Hvisit. reflexivity. }
  assert (Hv : snd (visit root p) = Return None) by (rewrite Hvisit; reflexivity).
  unfold fanOut, WaitGroup.Add, WaitGroup.new, WaitGroup.Wait.
  destruct (Z.ltb_spec (0 + Count (ChildProjects p)) 0) as [Hneg | Hpos].
  { (* wg.Add panics *)
    eexists. split; [reflexivity | ]. unfold Spec, clean, joins. cbn [fst snd]. split; [ | split].
    - intros [[e E] _]. discriminate.
    - intros H. specialize (Hself H). lia.
    - discriminate. }
  destruct (runTasks_spec (walk w visit fuel) [("project", LStr root)]
              (Items (ChildProjects p))) with (wg := 0 + Count (ChildProjects p))
    as (evs' & res & Hrun & Hkind & Ha & Hb).
  { intros c Hin. apply IH.
    pose proof (rank_decreases root p c Hget Hin). lia. }
  rewrite Hrun.
  assert (Hchildren : CountsAgree w visit root ->
            forall c, In c (Items (ChildProjects p)) ->
                      CountsAgree w visit (Ref_ID c)).
  { intros H c Hin. exact (CountsAgree_child root p c Hget Hv Hin H). }
  destruct res as [stop | wg'].
  { (* a task stopped the process *)
    eexists. split; [reflexivity | ]. unfold Spec, clean, joins. cbn [fst snd]. split; [ | split].
    - intros [[e E] _]. subst stop.
      destruct (Hkind _ eq_refl) as [E | [q E]]; discriminate.
    - intros H. destruct (Hb (Hchildren H)) as (Hn & Hp & _).
      split; [ | split].
      + apply noWait_cons. split; [exact I | ].
        apply noWait_app. split; [exact Vn | ].
        apply noWait_cons. split; [exact I | exact Hn].
      + intros E. subst stop.
        destruct (Hkind _ eq_refl) as [E | [q E]]; discriminate.
      + intros E. subst stop. specialize (Hp eq_refl).
        specialize (Hself H). lia.
    - intros E. subst stop.
      destruct (Hkind _ eq_refl) as [E | [q E]]; discriminate. }
  destruct (Z.eqb_spec wg' 0) as [Hzero | Hnonzero].
  - (* wg.Wait() returns *)
    eexists. split; [reflexivity | ]. unfold Spec, clean, joins. cbn [fst snd]. split; [ | split].
    + intros [_ Hn]. apply noWait_cons in Hn. destruct Hn as [_ Hn].
      apply noWait_app in Hn. destruct Hn as [_ Hn].
      apply noWait_cons in Hn. destruct Hn as [_ Hn].
      apply noWait_app in Hn. destruct Hn as [Hn _].
      destruct (Ha Hn wg' eq_refl) as [Hwg Hcons].
      intros id q Hreach Hq Hvq.
      inversion Hreach; subst.
      * rewrite Hget in Hq. inversion Hq; subst q. lia.
      * rewrite Hget in H. inversion H; subst p0.
        exact (Hcons c H1 id q H2 Hq Hvq).
    + intros H. destruct (Hb (Hchildren H)) as (Hn & _ & _).
      split; [ | split; discriminate].
      apply noWait_cons. split; [exact I | ].
      apply noWait_app. split; [exact Vn | ].
      apply noWait_cons. split; [exact I | ].
      apply noWait_app. split; [exact Hn | ].
      apply noWait_cons. split; [exact I | auto].
    + discriminate.
  - (* wg.Wait() never returns *)
    eexists. split; [reflexivity | ]. unfold Spec, clean, joins. cbn [fst snd]. split; [ | split].
    + intros [[e E] _]. discriminate.
    + intros H. destruct (Hb (Hchildren H)) as (_ & _ & Hr).
      specialize (Hr wg' eq_refl). specialize (Hself H). lia.
    + intros _ Hn. apply noWait_cons in Hn. destruct Hn as [_ Hn].
      apply noWait_app in Hn. destruct Hn as [_ Hn].
      apply noWait_cons in Hn. destruct Hn as [_ Hn].
      apply noWait_app in Hn. destruct Hn as [_ Hn].
      apply noWait_cons in Hn. destruct Hn as [Hn _]. exact Hn.
Qed.

End Join.

End JoinFacts.

Module CollectorJoins.

Import Traversal TraversalFacts JoinFacts.

Lemma noWait_pageGauges d1 d2 d3 d4 identifier (l : list Build) :
  noWait (flat_map (buildGauges d1 d2 d3 d4 identifier) l).
Proof.
  induction l as [ | b l IH]; [constructor | ].
  cbn [flat_map]. apply noWait_app. split; [ | exact IH].
  repeat (apply noWait_cons; split; [exact I | ]). constructor.
Qed.

Lemma noWait_projectGauges d1 d2 logger p : noWait (projectGauges d1 d2 logger p).
Proof. repeat (apply noWait_cons; split; [exact I | ]). constructor. Qed.

(** The build collector starts no task and touches no WaitGroup. *)
Lemma builds_join w d1 d2 d3 d4 identifier :
  joins (collectProjectBuildMetrics_of w d1 d2 d3 d4 identifier).
Proof.
  unfold joins, collectProjectBuildMetrics_of.
  destruct (NewRequest w _ _) as [[request | ] [err | ]];
    try (cbn; repeat split; [constructor | discriminate | discriminate]).
  destruct (Do w _) as [[response | ] [err | ]];
    try (cbn; repeat split; [constructor | discriminate | discriminate]).
  destruct (StatusCode response =? StatusNotFound);
    [cbn; repeat split; [constructor | discriminate | discriminate] | ].
  destruct (ReadAll _) as [body [err | ]];
    [cbn; repeat split; [constructor | discriminate | discriminate] | ].
  destruct (Json.Unmarshal _ _ _) as [builds [err | ]];
    [cbn; repeat split; [constructor | discriminate | discriminate] | ].
  cbv zeta.
  destruct (negb _); cbn [fst snd]; (split; [ | split; discriminate]).
  - apply noWait_cons. split; [exact I | ].
    apply noWait_app. split; [apply noWait_pageGauges | ].
    apply noWait_cons. split; [exact I | constructor].
  - apply noWait_cons. split; [exact I | apply noWait_pageGauges].
Qed.

Lemma metricsVisit_joins w collector id p : joins (metricsVisit w collector id p).
Proof.
  unfold metricsVisit, Metrics.collectProjectBuildMetrics.
  destruct (builds_join w (Metrics.buildStartTime collector)
              (Metrics.buildFinishTime collector) (Metrics.buildState collector)
              (Metrics.buildStatus collector) (ID p)) as (Hn & Hb & Hp).
  destruct (collectProjectBuildMetrics_of _ _ _ _ _ _) as [evs out].
  cbn [fst snd] in *. split; [ | split; assumption].
  apply noWait_app. split; [apply noWait_projectGauges | exact Hn].
Qed.

Lemma projectsVisit_joins collector id p : joins (projectsVisit collector id p).
Proof.
  unfold projectsVisit. split; [apply noWait_projectGauges | split; discriminate].
Qed.

Lemma buildsVisit_joins w collector id p : joins (buildsVisit w collector id p).
Proof. apply builds_join. Qed.

(** With a visit that always returns, the traversal cannot leave the
    process or dereference nil: its joins are all that can go wrong. *)
Section Returning.

Variable w : World.
Variable visit : string -> Project -> result.
Hypothesis visit_returns : forall id p, exists err, snd (visit id p) = Return err.

Lemma runTasks_joinOutcome (child : string -> option result) logger :
  (forall id r, child id = Some r -> joinOutcome (snd r)) ->
  forall items wg evs out,
    runTasks child logger items wg = Some (evs, inl out) ->
    out = Panic NegativeWaitGroupCounter.
Proof.
  intros Hch. induction items as [ | c rest IH]; intros wg evs out H.
  - discriminate.
  - cbn [runTasks] in H.
    destruct (child (Ref_ID c)) as [[evc outc] | ] eqn:Hc; [ | discriminate].
    destruct (Hch _ _ Hc) as [He Hp]. cbn [snd] in *.
    destruct outc as [err | | p | ].
    + destruct (WaitGroup.Done wg) as [wg1 | ]; [ | inversion H; reflexivity].
      destruct (runTasks child logger rest wg1) as [[evs' r] | ] eqn:Hr;
        [ | discriminate].
      inversion H; subst. exact (IH _ _ _ Hr).
    + contradiction He. reflexivity.
    + inversion H; subst. destruct p; [contradiction Hp; reflexivity | reflexivity].
    + destruct (runTasks child logger rest wg) as [[evs' r] | ] eqn:Hr;
        [ | discriminate].
      inversion H; subst. exact (IH _ _ _ Hr).
Qed.

Lemma walk_joinOutcome :
  forall fuel root r, walk w visit fuel root = Some r -> joinOutcome (snd r).
Proof.
  induction fuel as [ | fuel IH]; intros root r H; [discriminate | ].
  cbn [walk] in H.
  destruct (GetByID w root) as [err | p];
    [inversion H; split; discriminate | ].
  destruct (visit_returns root p) as [e He].
  destruct (visit root p) as [evs out]. cbn [snd] in He. subst out.
  destruct e as [e | ]; [inversion H; split; discriminate | ].
  unfold fanOut in H.
  destruct (WaitGroup.Add _ _) as [wg | ];
    [ | inversion H; split; discriminate].
  destruct (runTasks _ _ _ wg) as [[evs' [stop | wg']] | ] eqn:Hr;
    [ | | discriminate].
  - rewrite (runTasks_joinOutcome _ _ IH _ _ _ _ Hr) in H.
    inversion H; split; discriminate.
  - destruct (WaitGroup.Wait wg'); inversion H; split; discriminate.
Qed.

Lemma joins_clean r : joinOutcome (snd r) -> joins r -> clean r.
Proof.
  intros [He Hp] (Hn & Hb & Hneg). split; [ | exact Hn].
  destruct (snd r) as [err | | [ | ] | ]; try contradiction;
    try (contradiction He; reflexivity); try (contradiction Hp; reflexivity);
    try (contradiction Hb; reflexivity); try (contradiction Hneg; reflexivity).
  eexists; reflexivity.
Qed.

End Returning.

End CollectorJoins.


(** ** The join of one project, in whatever order its steps come *)

Module JoinProtocolFacts.

Import JoinProtocol.

Lemma invariant_step count tasks s s' :
  invariant count tasks s -> step s s' -> invariant count tasks s'.
Proof.
  intros Hinv Hstep. destruct Hstep; cbn in *.
  - destruct Hinv as (He & Hc & Hw). split; [lia | split; [lia | ]].
    intro E. specialize (Hw E). lia.
  - destruct Hinv as (He & Hc & Hw). lia.
  - destruct Hinv as (He & Hc & Hw). split; [lia | split; [lia | reflexivity]].
Qed.

Lemma invariant_reaches count tasks s :
  0 <= count -> reaches (start count tasks) s -> invariant count tasks s.
Proof.
  intros Hcount Hr. remember (start count tasks) as s0 eqn:E.
  induction Hr as [s | s s' s'' Hr IH Hstep].
  - subst s. cbn. split; [lia | split; [lia | discriminate]].
  - exact (invariant_step count tasks s' s'' (IH E) Hstep).
Qed.


End JoinProtocolFacts.

(** ** The traversal: errors, labels, completeness *)

Module TraversalMore.

Import Traversal TraversalFacts.

Section Fan.

Variable child : string -> option result.
Variable logger : Fields.

(** The fan-out returns nil or does not return: the errors of the tasks
    stay in the tasks. *)
Lemma fanOut_no_error identifier p evs out :
  fanOut child logger identifier p = Some (evs, out) ->
  forall err, out <> Return (Some err).
Proof.
  unfold fanOut. intros H err.
  destruct (WaitGroup.Add _ _) as [wg | ]; [ | injection H as _ <-; discriminate].
  destruct (runTasks child logger _ wg) as [[evs' [stop | wg']] | ] eqn:Hrun;
    [ | | discriminate].
  - injection H as _ <-. intros ->.
    revert wg evs' Hrun.
    induction (Items (ChildProjects p)) as [ | c rest IH]; intros wg evs' Hrun;
      [discriminate | ].
    cbn [runTasks] in Hrun.
    destruct (child (Ref_ID c)) as [[evs0 [e | | q | ]] | ]; try discriminate.
    + destruct (WaitGroup.Done wg) as [wg1 | ]; [ | discriminate].
      destruct (runTasks child logger rest wg1) as [[evs1 r1] | ] eqn:Hrest;
        [ | discriminate].
      injection Hrun as _ ->. exact (IH _ _ Hrest).
    + destruct (runTasks child logger rest wg) as [[evs1 r1] | ] eqn:Hrest;
        [ | discriminate].
      injection Hrun as _ ->. exact (IH _ _ Hrest).
  - destruct (WaitGroup.Wait wg'); injection H as _ <-; discriminate.
Qed.

(** When every task returns, the block is the tasks one after the other,
    and the counter goes down by one for each. *)
Lemma runTasks_all_return items :
  (forall c, In c items -> exists evs err, child (Ref_ID c) = Some (evs, Return err)) ->
  forall wg,
    Z.of_nat (List.length items) <= wg ->
    runTasks child logger items wg
    = Some (flat_map (taskEvents child logger) items,
            inr (wg - Z.of_nat (List.length items))).
Proof.
  induction items as [ | c rest IH]; intros Hall wg Hwg.
  - cbn. replace (wg - 0) with wg by ring. reflexivity.
  - cbn [runTasks flat_map]. unfold taskEvents at 1.
    destruct (Hall c (or_introl eq_refl)) as (evs & err & Hc). rewrite Hc.
    cbn [List.length] in Hwg. rewrite Nat2Z.inj_succ in Hwg.
    unfold WaitGroup.Done, WaitGroup.Add.
    replace (wg + -1 <? 0) with false by (symmetry; apply Z.ltb_ge; lia).
    rewrite IH; [ | intros c' Hc'; apply Hall; right; exact Hc' | lia].
    cbn [List.length]. rewrite Nat2Z.inj_succ.
    replace (wg + -1 - Z.of_nat (List.length rest))
      with (wg - Z.succ (Z.of_nat (List.length rest))) by lia.
    destruct err; [reflexivity | rewrite app_nil_r; reflexivity].
Qed.

(** A property of events that passes from the tasks to the block. *)
Lemma runTasks_Forall (P : event -> Prop) :
  (forall e, isSend e = false -> P e) ->
  (forall id evs out, child id = Some (evs, out) -> Forall P evs) ->
  forall items wg evs r,
    runTasks child logger items wg = Some (evs, r) -> Forall P evs.
Proof.
  intros Hlog Hchild. induction items as [ | c rest IH]; intros wg evs r Hrun.
  - injection Hrun as <- _. constructor.
  - cbn [runTasks] in Hrun.
    destruct (child (Ref_ID c)) as [[evs0 out0] | ] eqn:Hc; [ | discriminate].
    pose proof (Hchild _ _ _ Hc) as H0.
    destruct out0 as [err | | q | ].
    + destruct (WaitGroup.Done wg) as [wg1 | ].
      * destruct (runTasks child logger rest wg1) as [[evs1 r1] | ] eqn:Hrest;
          [ | discriminate].
        injection Hrun as <- _. rewrite !Forall_app. repeat split.
        -- exact H0.
        -- destruct err; repeat constructor. apply Hlog. reflexivity.
        -- exact (IH _ _ _ Hrest).
      * injection Hrun as <- _. rewrite Forall_app. split; [exact H0 | ].
        destruct err; repeat constructor. apply Hlog. reflexivity.
    + injection Hrun as <- _. exact H0.
    + injection Hrun as <- _. exact H0.
    + destruct (runTasks child logger rest wg) as [[evs1 r1] | ] eqn:Hrest;
        [ | discriminate].
      injection Hrun as <- _. rewrite Forall_app. split; [exact H0 | ].
      exact (IH _ _ _ Hrest).
Qed.

Lemma fanOut_Forall (P : event -> Prop) :
  (forall e, isSend e = false -> P e) ->
  (forall id evs out, child id = Some (evs, out) -> Forall P evs) ->
  forall identifier p evs out,
    fanOut child logger identifier p = Some (evs, out) -> Forall P evs.
Proof.
  intros Hlog Hchild identifier p evs out. unfold fanOut.
  destruct (WaitGroup.Add _ _) as [wg | ]; [ | intros H; injection H as <- _; constructor].
  destruct (runTasks child logger _ wg) as [[evs' r] | ] eqn:Hrun; [ | discriminate].
  pose proof (runTasks_Forall P Hlog Hchild _ _ _ _ Hrun) as H'.
  destruct r as [stop | wg'].
  - intros H; injection H as <- _. constructor; [apply Hlog; reflexivity | exact H'].
  - destruct (WaitGroup.Wait wg'); intros H; injection H as <- _;
      (constructor; [apply Hlog; reflexivity | ]);
      rewrite Forall_app; (split; [exact H' | ]);
      repeat constructor; apply Hlog; reflexivity.
Qed.

(** When the block did not end the process, every task has run, did not
    end the process either, and its events are among those of the block. *)
Lemma runTasks_survives items :
  forall wg evs wg',
    runTasks child logger items wg = Some (evs, inr wg') ->
    forall c, In c items ->
              exists evs0 out0,
                child (Ref_ID c) = Some (evs0, out0) /\ survives out0 /\ incl evs0 evs.
Proof.
  induction items as [ | c0 rest IH]; intros wg evs wg' Hrun c Hin; [destruct Hin | ].
  cbn [runTasks] in Hrun.
  destruct (child (Ref_ID c0)) as [[evs0 [err | | q | ]] | ] eqn:Hc0; try discriminate.
  - destruct (WaitGroup.Done wg) as [wg1 | ]; [ | discriminate].
    destruct (runTasks child logger rest wg1) as [[evs1 r1] | ] eqn:Hrest;
      [ | discriminate].
    injection Hrun as <- ->.
    destruct Hin as [<- | Hin].
    + exists evs0, (Return err). rewrite Hc0. split; [reflexivity | ].
      split; [exact I | ]. intros e He. apply in_or_app. left. apply in_or_app. left.
      exact He.
    + destruct (IH _ _ _ Hrest c Hin) as (evs2 & out2 & H1 & H2 & H3).
      exists evs2, out2. split; [exact H1 | ]. split; [exact H2 | ].
      intros e He. apply in_or_app. right. exact (H3 e He).
  - destruct (runTasks child logger rest wg) as [[evs1 r1] | ] eqn:Hrest;
      [ | discriminate].
    injection Hrun as <- ->.
    destruct Hin as [<- | Hin].
    + exists evs0, Blocked. rewrite Hc0. split; [reflexivity | ].
      split; [exact I | ]. intros e He. apply in_or_app. left. exact He.
    + destruct (IH _ _ _ Hrest c Hin) as (evs2 & out2 & H1 & H2 & H3).
      exists evs2, out2. split; [exact H1 | ]. split; [exact H2 | ].
      intros e He. apply in_or_app. right. exact (H3 e He).
Qed.

Lemma fanOut_survives identifier p evs out :
  fanOut child logger identifier p = Some (evs, out) ->
  survives out ->
  forall c, In c (Items (ChildProjects p)) ->
            exists evs0 out0,
              child (Ref_ID c) = Some (evs0, out0) /\ survives out0 /\ incl evs0 evs.
Proof.
  unfold fanOut. intros H Hout c Hin.
  destruct (WaitGroup.Add _ _) as [wg | ];
    [ | injection H as _ <-; destruct Hout].
  destruct (runTasks child logger _ wg) as [[evs' [stop | wg']] | ] eqn:Hrun;
    [ | | discriminate].
  - injection H as _ <-. exfalso.
    clear Hin. revert wg evs' Hrun.
    induction (Items (ChildProjects p)) as [ | c0 rest IH]; intros wg evs' Hrun;
      [discriminate | ].
    cbn [runTasks] in Hrun.
    destruct (child (Ref_ID c0)) as [[evs0 [e | | q | ]] | ]; try discriminate.
    + destruct (WaitGroup.Done wg) as [wg1 | ];
        [ | injection Hrun as _ <-; exact Hout].
      destruct (runTasks child logger rest wg1) as [[evs1 r1] | ] eqn:Hrest;
        [ | discriminate].
      injection Hrun as _ ->. exact (IH _ _ Hrest).
    + injection Hrun as _ <-. exact Hout.
    + injection Hrun as _ <-. exact Hout.
    + destruct (runTasks child logger rest wg) as [[evs1 r1] | ] eqn:Hrest;
        [ | discriminate].
      injection Hrun as _ ->. exact (IH _ _ Hrest).
  - destruct (runTasks_survives _ _ _ _ Hrun c Hin) as (evs0 & out0 & H1 & H2 & H3).
    exists evs0, out0. split; [exact H1 | ]. split; [exact H2 | ].
    intros e He.
    destruct (WaitGroup.Wait wg'); injection H as <- _;
      right; apply in_or_app; left; exact (H3 e He).
Qed.

End Fan.

(** More fuel does not change a result. *)
Lemma runTasks_mono (child1 child2 : string -> option result) logger :
  (forall id r, child1 id = Some r -> child2 id = Some r) ->
  forall items wg r,
    runTasks child1 logger items wg = Some r ->
    runTasks child2 logger items wg = Some r.
Proof.
  intros Hsub. induction items as [ | c rest IH]; intros wg r Hrun; [exact Hrun | ].
  cbn [runTasks] in *.
  destruct (child1 (Ref_ID c)) as [[evs0 out0] | ] eqn:Hc; [ | discriminate].
  rewrite (Hsub _ _ Hc).
  destruct out0 as [err | | q | ]; try exact Hrun.
  - destruct (WaitGroup.Done wg) as [wg1 | ]; [ | exact Hrun].
    destruct (runTasks child1 logger rest wg1) as [r1 | ] eqn:Hrest; [ | discriminate].
    rewrite (IH _ _ Hrest). exact Hrun.
  - destruct (runTasks child1 logger rest wg) as [r1 | ] eqn:Hrest; [ | discriminate].
    rewrite (IH _ _ Hrest). exact Hrun.
Qed.

Lemma fanOut_mono (child1 child2 : string -> option result) logger identifier p :
  (forall id r, child1 id = Some r -> child2 id = Some r) ->
  forall r,
    fanOut child1 logger identifier p = Some r ->
    fanOut child2 logger identifier p = Some r.
Proof.
  intros Hsub r. unfold fanOut.
  destruct (WaitGroup.Add _ _) as [wg | ]; [ | exact (fun H => H)].
  destruct (runTasks child1 logger _ wg) as [r1 | ] eqn:Hrun; [ | discriminate].
  rewrite (runTasks_mono _ _ _ Hsub _ _ _ Hrun). exact (fun H => H).
Qed.

Section Walk.

Variable w : World.
Variable visit : string -> Project -> result.

Lemma walk_S fuel identifier :
  walk w visit (S fuel) identifier =
    let logger : Fields := [("project", LStr identifier)] in
    let collecting := Log InfoLevel logger (LStr "collecting project") in
    match GetByID w identifier with
    | inl err => Some ([collecting], Return (Some err))
    | inr p =>
        match visit identifier p with
        | (evs, Return None) =>
            match fanOut (walk w visit fuel) logger identifier p with
            | None => None
            | Some (evs', out) => Some (collecting :: evs ++ evs', out)
            end
        | (evs, out) => Some (collecting :: evs, out)
        end
    end.
Proof. reflexivity. Qed.

Lemma walk_mono fuel :
  forall identifier r,
    walk w visit fuel identifier = Some r ->
    walk w visit (S fuel) identifier = Some r.
Proof.
  induction fuel as [ | fuel IH]; intros identifier r H; [discriminate | ].
  rewrite walk_S in H. rewrite walk_S. cbv zeta in *.
  destruct (GetByID w identifier) as [err | p]; [exact H | ].
  destruct (visit identifier p) as [evs [[e | ] | | q | ]]; try exact H.
  destruct (fanOut (walk w visit fuel) _ identifier p) as [[evs' out] | ] eqn:Hfan;
    [ | discriminate].
  rewrite (fanOut_mono _ (walk w visit (S fuel)) _ _ _ IH _ Hfan). exact H.
Qed.

Lemma walk_more fuel extra identifier r :
  walk w visit fuel identifier = Some r ->
  walk w visit (fuel + extra) identifier = Some r.
Proof.
  intros H. induction extra as [ | extra IH].
  - rewrite Nat.add_0_r. exact H.
  - rewrite Nat.add_succ_r. apply walk_mono. exact IH.
Qed.

(** An error that the traversal returns is the error of its own project. *)
Lemma walk_error fuel identifier evs err :
  walk w visit fuel identifier = Some (evs, Return (Some err)) ->
  (GetByID w identifier = inl err /\
   evs = [Log InfoLevel [("project", LStr identifier)] (LStr "collecting project")]) \/
  exists p,
    GetByID w identifier = inr p /\
    snd (visit identifier p) = Return (Some err) /\
    evs = Log InfoLevel [("project", LStr identifier)] (LStr "collecting project")
          :: fst (visit identifier p).
Proof.
  destruct fuel as [ | fuel]; [discriminate | ]. cbn [walk].
  destruct (GetByID w identifier) as [e | p].
  - intros H. injection H as <- <-. left. split; reflexivity.
  - intros H. right. exists p. split; [reflexivity | ].
    destruct (visit identifier p) as [evs0 [[e | ] | | q | ]]; try discriminate.
    + injection H as <- <-. split; reflexivity.
    + destruct (fanOut _ _ _ _) as [[evs' out] | ] eqn:Hfan; [ | discriminate].
      injection H as _ Hout. exfalso.
      exact (fanOut_no_error _ _ _ _ _ _ Hfan err Hout).
Qed.

Lemma walk_Forall (P : event -> Prop) :
  (forall e, isSend e = false -> P e) ->
  (forall id p, Forall P (fst (visit id p))) ->
  forall fuel identifier evs out,
    walk w visit fuel identifier = Some (evs, out) -> Forall P evs.
Proof.
  intros Hlog Hvisit. induction fuel as [ | fuel IH]; intros identifier evs out H;
    [discriminate | ].
  cbn [walk] in H.
  destruct (GetByID w identifier) as [e | p].
  - injection H as <- _. repeat constructor. apply Hlog. reflexivity.
  - pose proof (Hvisit identifier p) as Hv.
    destruct (visit identifier p) as [evs0 [[e | ] | | q | ]]; cbn [fst] in Hv;
      try (injection H as <- _; constructor; [apply Hlog; reflexivity | exact Hv]).
    destruct (fanOut _ _ _ _) as [[evs' out'] | ] eqn:Hfan; [ | discriminate].
    injection H as <- _. constructor; [apply Hlog; reflexivity | ].
    rewrite Forall_app. split; [exact Hv | ].
    exact (fanOut_Forall _ _ P Hlog IH _ _ _ _ Hfan).
Qed.

(** When the traversal did not end the process, what it did at every
    project it reached is among its events. *)
Lemma walk_visits :
  forall fuel root evs out,
    walk w visit fuel root = Some (evs, out) ->
    survives out ->
    forall id p,
      Reaches w visit root id ->
      GetByID w id = inr p ->
      incl (fst (visit id p)) evs.
Proof.
  induction fuel as [ | fuel IH]; intros root evs out H Hout id p Hreach Hget;
    [discriminate | ].
  cbn [walk] in H.
  destruct Hreach as [id | id p0 c id' Hget0 Hv0 Hin Hreach].
  - rewrite Hget in H.
    destruct (visit id p) as [evs0 [[e | ] | | q | ]]; cbn [fst];
      try (injection H as <- _; intros x Hx; right; exact Hx).
    destruct (fanOut _ _ _ _) as [[evs' out'] | ]; [ | discriminate].
    injection H as <- _. intros x Hx. right. apply in_or_app. left. exact Hx.
  - rewrite Hget0 in H.
    destruct (visit id p0) as [evs0 out0]. cbn [snd] in Hv0. subst out0.
    destruct (fanOut _ _ _ _) as [[evs' out'] | ] eqn:Hfan; [ | discriminate].
    injection H as <- <-.
    destruct (fanOut_survives _ _ _ _ _ _ Hfan Hout c Hin)
      as (evs1 & out1 & Hc & Hs & Hincl).
    intros x Hx. right. apply in_or_app. right. apply Hincl.
    exact (IH _ _ _ Hc Hs id' p Hreach Hget x Hx).
Qed.

End Walk.

End TraversalMore.

(** ** The traversal of the registered collector *)

(** X8: an error that [collectProjectMetrics] returns is the error of its
    own project: either the project could not be fetched, and no gauge was
    sent, or the build collector failed for it, and the two structural
    gauges of the project are all that was sent.  Errors of subprojects
    are never returned. *)
Theorem returned_error_is_of_the_project :
  forall (w : World) (collector : Metrics.TeamCityCollector) (fuel : nat)
         (identifier : string) (evs : list event) (err : error),
    Metrics.collectProjectMetrics w collector fuel identifier
    = Some (evs, Return (Some err)) ->
    (GetByID w identifier = inl err /\ filter isSend evs = []) \/
    exists p,
      GetByID w identifier = inr p /\
      snd (Metrics.collectProjectBuildMetrics w collector (ID p)) = Return (Some err) /\
      filter isSend evs =
        [Send (MustNewConstMetric (Metrics.projects collector)
                 (Count (ChildProjects p)) [ID p]);
         Send (MustNewConstMetric (Metrics.buildTypes collector)
                 (BuildTypes_Count p) [ID p])].
Proof.
  intros w collector fuel identifier evs err H.
  rewrite TraversalFacts.metrics_is_walk in H.
  apply TraversalMore.walk_error in H.
  destruct H as [[Hget ->] | (p & Hget & Hv & ->)].
  - left. split; [exact Hget | reflexivity].
  - right. exists p. split; [exact Hget | ].
    unfold Traversal.metricsVisit in *.
    pose proof (collect_error_empty w (Metrics.buildStartTime collector)
                  (Metrics.buildFinishTime collector) (Metrics.buildState collector)
                  (Metrics.buildStatus collector) (ID p) err) as Hempty.
    fold (Metrics.collectProjectBuildMetrics w collector (ID p)) in Hempty.
    destruct (Metrics.collectProjectBuildMetrics w collector (ID p)) as [evs0 out0].
    cbn [fst snd] in *. split; [exact Hv | ].
    rewrite (Hempty Hv). reflexivity.
Qed.


(** X10: when the root project cannot be fetched, [Collect] of the
    registered collector sends no gauge: it logs its opening entry, the
    entry of the traversal and the error, and returns. *)
Theorem root_failure_gives_empty_scrape :
  forall (w : World) (collector : Metrics.TeamCityCollector) (fuel : nat) (err : error),
    GetByID w (root_project_id w) = inl err ->
    Metrics.Collect w (S fuel) collector =
      Some ([Log InfoLevel [] (LStr "collecting TeamCity metrics");
             Log InfoLevel [("project", LStr (root_project_id w))]
               (LStr "collecting project");
             Log ErrorLevel [] (LErr err)],
            Return None).
Proof.
  intros w collector fuel err Hget.
  unfold Metrics.Collect. cbn [Metrics.collectProjectMetrics].
  rewrite Hget. reflexivity.
Qed.

(** X11: every gauge that [Collect] of the registered collector sends, at
    whatever depth of the hierarchy, has as many label values as its
    descriptor has label names: no call of [MustNewConstMetric] can panic
    on its labels. *)
Theorem registered_gauges_well_labelled :
  forall (w : World) (fuel : nat) (evs : list event) (out : outcome),
    Metrics.Collect w fuel registered = Some (evs, out) ->
    Forall wellLabelled evs.
Proof.
  intros w fuel evs out. unfold Metrics.Collect.
  rewrite TraversalFacts.metrics_is_walk.
  destruct (Traversal.walk w _ fuel (root_project_id w)) as [[evs0 out0] | ] eqn:Hwalk;
    [ | discriminate].
  assert (H0 : Forall wellLabelled evs0).
  { refine (TraversalMore.walk_Forall w _ wellLabelled _ _ _ _ _ _ Hwalk).
    - intros [m | lvl f msg | id] He; [discriminate | exact I | exact I].
    - intros id p. unfold Traversal.metricsVisit.
      pose proof (builds_wellLabelled w (ID p)) as Hb.
      destruct (Metrics.collectProjectBuildMetrics w registered (ID p)) as [evs1 out1].
      cbn [fst] in *. apply Forall_app. split; [ | exact Hb].
      apply projectGauges_wellLabelled. }
  unfold logged.
  destruct out0 as [[e | ] | | q | ]; intros H; injection H as <- <-.
  - constructor; [exact I | ]. apply Forall_app. split; [exact H0 | repeat constructor].
  - constructor; [exact I | exact H0].
  - constructor; [exact I | exact H0].
  - constructor; [exact I | exact H0].
  - constructor; [exact I | exact H0].
Qed.

(** X12: when the traversal of the registered collector did not end the
    process (no fatal exit, no panic), every project it reached and could
    fetch has had its two structural gauges sent, labelled with the
    identifier of the project. *)
Theorem reached_projects_are_counted :
  forall (w : World) (collector : Metrics.TeamCityCollector) (fuel : nat)
         (root : string) (evs : list event) (out : outcome),
    Metrics.collectProjectMetrics w collector fuel root = Some (evs, out) ->
    survives out ->
    forall (id : string) (p : Project),
      Traversal.Reaches w (Traversal.metricsVisit w collector) root id ->
      GetByID w id = inr p ->
      In (Send (MustNewConstMetric (Metrics.projects collector)
                  (Count (ChildProjects p)) [ID p])) evs /\
      In (Send (MustNewConstMetric (Metrics.buildTypes collector)
                  (BuildTypes_Count p) [ID p])) evs.
Proof.
  intros w collector fuel root evs out H Hout id p Hreach Hget.
  rewrite TraversalFacts.metrics_is_walk in H.
  pose proof (TraversalMore.walk_visits w _ fuel root evs out H Hout id p Hreach Hget)
    as Hincl.
  unfold Traversal.metricsVisit in Hincl.
  destruct (Metrics.collectProjectBuildMetrics w collector (ID p)) as [evs1 out1].
  cbn [fst] in Hincl.
  split; apply Hincl; apply in_or_app; left; cbn; auto.
Qed.


(** ** What the sibling collectors send is what they describe *)

Module Described.

Import Traversal TraversalFacts.

Lemma projectGauges_described d1 d2 D logger p :
  In d1 D -> In d2 D -> Forall (describedBy D) (projectGauges d1 d2 logger p).
Proof. intros H1 H2. repeat constructor; assumption. Qed.

Lemma builds_described w d1 d2 d3 d4 D identifier :
  In d1 D -> In d2 D -> In d3 D -> In d4 D ->
  Forall (describedBy D) (fst (collectProjectBuildMetrics_of w d1 d2 d3 d4 identifier)).
Proof.
  intros H1 H2 H3 H4.
  assert (Hpage : forall l, Forall (describedBy D)
                              (flat_map (buildGauges d1 d2 d3 d4 identifier) l)).
  { induction l as [ | b l IH]; [constructor | ].
    cbn [flat_map]. apply Forall_app. split; [ | exact IH].
    repeat constructor; assumption. }
  unfold collectProjectBuildMetrics_of.
  destruct (NewRequest w _ _) as [[request | ] [err | ]]; try constructor.
  destruct (Do w _) as [[response | ] [err | ]]; try constructor.
  destruct (StatusCode response =? StatusNotFound); [constructor | ].
  destruct (ReadAll _) as [body [err | ]]; [constructor | ].
  destruct (Json.Unmarshal _ _ _) as [builds [err | ]]; [constructor | ].
  cbv zeta. destruct (negb _); cbn [fst].
  - constructor; [exact I | ]. apply Forall_app. split; [apply Hpage | ].
    repeat constructor.
  - constructor; [exact I | apply Hpage].
Qed.

Lemma logged_described D r head evs out :
  logged r head = Some (evs, out) ->
  isSend head = false ->
  (forall evs0 out0, r = Some (evs0, out0) -> Forall (describedBy D) evs0) ->
  Forall (describedBy D) evs.
Proof.
  intros Hl Hhead Hr. revert Hl. unfold logged.
  destruct r as [[evs0 out0] | ]; [ | discriminate].
  pose proof (Hr evs0 out0 eq_refl) as H0.
  assert (Hh : describedBy D head) by (destruct head; [discriminate | exact I | exact I]).
  destruct out0 as [[e | ] | | q | ]; intros H; injection H as <- _;
    try (constructor; [exact Hh | exact H0]).
  constructor; [exact Hh | ]. apply Forall_app. split; [exact H0 | repeat constructor].
Qed.

Lemma nonSend_described D e : isSend e = false -> describedBy D e.
Proof. destruct e; [discriminate | intros _; exact I | intros _; exact I]. Qed.

End Described.

(** X18: each of the three collectors that main does not register sends
    only gauges whose descriptor its [Describe] has announced (the
    registered collector announces none). *)
Theorem siblings_send_what_they_describe :
  forall (w : World) (fuel : nat) (evs : list event) (out : outcome) (m : Metric),
    In (Send m) evs ->
    (forall collector : Projects.TeamCityProjectsCollector,
        Projects.Collect w fuel collector = Some (evs, out) ->
        In (desc m) (Projects.Describe collector)) /\
    (forall collector : Builds.TeamCityBuildsCollector,
        Builds.Collect w fuel collector = Some (evs, out) ->
        In (desc m) (Builds.Describe collector)) /\
    (forall collector : Agents.TeamCityAgentCollector,
        Agents.Collect w collector = (evs, out) ->
        In (desc m) (Agents.Describe collector)).
Proof.
  intros w fuel evs out m Hin.
  assert (Hall : forall D, Forall (describedBy D) evs -> In (desc m) D).
  { intros D H. rewrite Forall_forall in H. exact (H _ Hin). }
  split; [ | split]; intros collector H; apply Hall.
  - unfold Projects.Collect in H.
    refine (Described.logged_described _ _ _ _ _ H eq_refl _).
    intros evs0 out0. rewrite TraversalFacts.projects_is_walk.
    intros Hw.
    refine (TraversalMore.walk_Forall w _ _ (Described.nonSend_described _) _ _ _ _ _ Hw).
    intros id p. unfold Traversal.projectsVisit. cbn [fst].
    apply Described.projectGauges_described; cbn; tauto.
  - unfold Builds.Collect in H.
    refine (Described.logged_described _ _ _ _ _ H eq_refl _).
    intros evs0 out0. rewrite TraversalFacts.builds_is_walk.
    intros Hw.
    refine (TraversalMore.walk_Forall w _ _ (Described.nonSend_described _) _ _ _ _ _ Hw).
    intros id p. unfold Traversal.buildsVisit, Builds.collectProjectBuildMetrics.
    apply Described.builds_described; cbn; tauto.
  - assert (Hlog : forall err, Forall (describedBy (Agents.Describe collector))
                                 (Agents.logError err))
      by (intros [e | ]; repeat constructor).
    assert (Hg : forall l, Forall (describedBy (Agents.Describe collector))
                             (flat_map (Agents.agentGauges collector) l)).
    { induction l as [ | a l IH]; [constructor | ].
      cbn [flat_map]. apply Forall_app. split; [ | exact IH].
      repeat constructor; cbn; tauto. }
    revert H. unfold Agents.Collect.
    destruct (NewRequest w _ _) as [[request | ] err].
    2: { intros H; injection H as <- _.
         repeat first [apply Forall_nil | apply Forall_cons; [exact I | ]
                      | apply Forall_app; split | apply Hlog | apply Hg]. }
    destruct (Do w _) as [[response | ] err'].
    2: { intros H; injection H as <- _.
         repeat first [apply Forall_nil | apply Forall_cons; [exact I | ]
                      | apply Forall_app; split | apply Hlog | apply Hg]. }
    destruct (StatusCode response =? StatusNotFound).
    1: { intros H; injection H as <- _.
         repeat first [apply Forall_nil | apply Forall_cons; [exact I | ]
                      | apply Forall_app; split | apply Hlog | apply Hg]. }
    destruct (ReadAll _) as [body rerr].
    destruct (Json.Unmarshal _ _ _) as [agents derr].
    destruct (negb _); intros H; injection H as <- _;
      repeat first [apply Forall_nil | apply Forall_cons; [exact I | ]
                   | apply Forall_app; split | apply Hlog | apply Hg].
Qed.

(** ** The temporal codec: formatting and decoding *)

Module CalendarFacts.

Import GoTime Calendar.

Lemma all_from_spec (f : Z -> bool) (n : nat) :
  forall z, all_from n z f = true -> forall x, z <= x < z + Z.of_nat n -> f x = true.
Proof.
  induction n as [ | k IH]; intros z H x Hx; [lia | ].
  cbn [all_from] in H. apply andb_prop in H. destruct H as [Hz Hrest].
  destruct (Z.eq_dec x z) as [-> | Hne]; [exact Hz | ].
  apply (IH (z + 1) Hrest). lia.
Qed.

Lemma cycle_checked : all_from (Z.to_nat daysPer400Years) 0 cycleCheck = true.
Proof. vm_compute. reflexivity. Qed.

Lemma cycleCheck_true (r : Z) : 0 <= r < daysPer400Years -> cycleCheck r = true.
Proof.
  intros Hr.
  apply (all_from_spec cycleCheck (Z.to_nat daysPer400Years) 0 cycle_checked).
  unfold daysPer400Years in *. lia.
Qed.

Lemma to_uint64_id x : 0 <= x < two64 -> to_uint64 x = x.
Proof. intros H. unfold to_uint64. apply Z.mod_small. exact H. Qed.

Lemma to_int64_id x : - (two64 / 2) <= x < two64 / 2 -> to_int64 x = x.
Proof.
  intros H. unfold to_int64, two64 in *.
  change (18446744073709551616 / 2) with 9223372036854775808 in *.
  rewrite Z.mod_small; lia.
Qed.

Lemma absDate_pieces abs :
  absDate abs =
    let D := abs / secondsPerDay in
    let n := D / daysPer400Years in
    let '(y, yday) := yearDay (400 * n) (D - daysPer400Years * n) in
    let year := to_int64 y + absoluteZeroYear in
    let '(m, dd) := monthDay (isLeap year) yday in
    (year, m, dd).
Proof.
  unfold absDate, monthDay, yearDay. cbv zeta.
  repeat match goal with
         | |- context [if ?c then _ else _] => destruct c
         end; reflexivity.
Qed.

Lemma yearDay_shift y d :
  yearDay y d = let '(y0, yday) := yearDay 0 d in (y + y0, yday).
Proof. unfold yearDay. cbv zeta. f_equal. ring. Qed.

Lemma rem_zero_mod a b : 0 < b -> (Z.rem a b =? 0) = (a mod b =? 0).
Proof.
  intros Hb.
  destruct (Z.eqb_spec (Z.rem a b) 0) as [E | E];
    destruct (Z.eqb_spec (a mod b) 0) as [F | F]; try reflexivity; exfalso.
  - apply F. apply Z.rem_divide in E; [ | lia]. apply Z.mod_divide; [lia | exact E].
  - apply E. apply Z.mod_divide in F; [ | lia]. apply Z.rem_divide; [lia | exact F].
Qed.

Lemma isLeap_mod year :
  isLeap year =
    (year mod 4 =? 0) && (negb (year mod 100 =? 0) || (year mod 400 =? 0)).
Proof. unfold isLeap. rewrite !rem_zero_mod by lia. reflexivity. Qed.

Lemma isLeap_shift y k : isLeap (y + 400 * k) = isLeap y.
Proof.
  rewrite !isLeap_mod.
  replace ((y + 400 * k) mod 4) with (y mod 4)
    by (replace (y + 400 * k) with (y + (100 * k) * 4) by ring;
        rewrite Z.mod_add; lia).
  replace ((y + 400 * k) mod 100) with (y mod 100)
    by (replace (y + 400 * k) with (y + (4 * k) * 100) by ring;
        rewrite Z.mod_add; lia).
  replace ((y + 400 * k) mod 400) with (y mod 400)
    by (replace (y + 400 * k) with (y + k * 400) by ring;
        rewrite Z.mod_add; lia).
  reflexivity.
Qed.

Lemma daysIn_shift m y k : daysIn m (y + 400 * k) = daysIn m y.
Proof. unfold daysIn. rewrite isLeap_shift. reflexivity. Qed.

Lemma daysSinceEpoch_pieces n y :
  0 <= n -> 400 * n + y < two64 -> 0 <= y < 400 ->
  daysSinceEpoch (400 * n + y + absoluteZeroYear) = daysPer400Years * n + cycleDays y.
Proof.
  intros Hn Hlt Hy. unfold daysSinceEpoch, cycleDays. cbv zeta.
  replace (400 * n + y + absoluteZeroYear - absoluteZeroYear) with (400 * n + y) by ring.
  rewrite to_uint64_id by lia.
  replace ((400 * n + y) / 400) with n
    by (apply Z.div_unique with (r := y); lia).
  replace (400 * n + y - 400 * n) with y by ring.
  ring.
Qed.

(** [absDate] gives a date that [Parse] accepts and that [Date] takes back
    to the same day. *)
Lemma absDate_valid abs :
  0 <= abs < two64 ->
  exists year m dd,
    absDate abs = (year, m, dd) /\
    (exists y, 0 <= y < 400 /\
               year = 400 * (abs / secondsPerDay / daysPer400Years) + y
                      + absoluteZeroYear) /\
    1 <= m <= 12 /\
    1 <= dd <= daysIn m year /\
    daysSinceEpoch year + daysBeforeAt (m - 1)
      + (if isLeap year && (March <=? m) then 1 else 0) + (dd - 1)
    = abs / secondsPerDay.
Proof.
  intros Habs. rewrite absDate_pieces. cbv zeta.
  set (D := abs / secondsPerDay).
  set (n := D / daysPer400Years).
  set (r := D - daysPer400Years * n).
  assert (HD : 0 <= D < two64) by
    (unfold D, secondsPerDay, two64 in *; split;
     [apply Z.div_pos; lia | apply Z.div_lt_upper_bound; lia]).
  assert (Hn : 0 <= n < two64) by
    (unfold n, daysPer400Years, two64 in *; split;
     [apply Z.div_pos; lia | apply Z.div_lt_upper_bound; lia]).
  assert (Hr : 0 <= r < daysPer400Years)
    by (unfold r, n, daysPer400Years;
        pose proof (Z.mod_pos_bound D 146097 ltac:(lia));
        rewrite Z.mod_eq in H by lia; lia).
  rewrite yearDay_shift.
  pose proof (cycleCheck_true r Hr) as Hc. unfold cycleCheck in Hc.
  destruct (yearDay 0 r) as [y yday].
  assert (Hn2 : 400 * n < two64 / 4).
  { unfold n, D, daysPer400Years, secondsPerDay, two64 in *.
    change (18446744073709551616 / 4) with 4611686018427387904.
    assert (abs / 86400 / 146097 <= 18446744073709551616 / 86400 / 146097)
      by (apply Z.div_le_mono; [lia | apply Z.div_le_mono; lia]).
    change (18446744073709551616 / 86400 / 146097) with 1461385123 in H. lia. }
  set (year1 := y + 1) in Hc.
  assert (Hyear : forall yy, 0 <= yy < 400 ->
            to_int64 (400 * n + yy) + absoluteZeroYear
            = (yy + 1) + 400 * (n - 730692556)).
  { intros yy Hyy. rewrite to_int64_id.
    - unfold absoluteZeroYear. ring.
    - unfold two64 in *.
      change (18446744073709551616 / 4) with 4611686018427387904 in Hn2.
      change (18446744073709551616 / 2) with 9223372036854775808. lia. }
  destruct (monthDay (isLeap year1) yday) as [m dd] eqn:Hmd.
  bool_facts.
  rewrite (Hyear y) by lia. rewrite isLeap_shift. fold year1. rewrite Hmd.
  exists (year1 + 400 * (n - 730692556)), m, dd.
  split; [reflexivity | ].
  split.
  { exists y. split; [lia | ]. fold D. fold n. unfold year1, absoluteZeroYear. ring. }
  split; [lia | ].
  rewrite daysIn_shift, isLeap_shift. split; [lia | ].
  replace (year1 + 400 * (n - 730692556)) with (400 * n + y + absoluteZeroYear)
    by (unfold year1, absoluteZeroYear; ring).
  rewrite daysSinceEpoch_pieces; [ | lia | | lia].
  - subst r. fold D. lia.
  - unfold two64 in *.
    change (18446744073709551616 / 4) with 4611686018427387904 in Hn2. lia.
Qed.

Lemma digit_cases a : 0 <= a <= 9 ->
  a = 0 \/ a = 1 \/ a = 2 \/ a = 3 \/ a = 4 \/ a = 5 \/ a = 6 \/ a = 7 \/ a = 8 \/ a = 9.
Proof. lia. Qed.

Lemma getnum_two a b rest fixed :
  0 <= a <= 9 -> 0 <= b <= 9 ->
  getnum (String (Str.digit a) (String (Str.digit b) rest)) fixed
  = inr (a * 10 + b, rest).
Proof.
  intros Ha Hb. each_digit a (digit_cases a Ha); each_digit b (digit_cases b Hb); reflexivity.
Qed.

Lemma twoDigits_getnum x rest fixed :
  0 <= x < 100 -> getnum (twoDigits x +++ rest) fixed = inr (x, rest).
Proof.
  intros Hx. unfold twoDigits. cbn [append].
  rewrite getnum_two.
  - f_equal. f_equal. pose proof (Z.div_mod x 10 ltac:(lia)). lia.
  - split; [apply Z.div_pos; lia | ]. apply Z.lt_succ_r. apply Z.div_lt_upper_bound; lia.
  - pose proof (Z.mod_pos_bound x 10 ltac:(lia)). lia.
Qed.

Lemma appendInt2_checked : all_from (Z.to_nat 100) 0 appendCheck2 = true.
Proof. vm_compute. reflexivity. Qed.

Lemma appendInt2 x : 0 <= x < 100 -> appendInt x 2 = twoDigits x.
Proof.
  intros Hx. apply String.eqb_eq.
  apply (all_from_spec appendCheck2 (Z.to_nat 100) 0 appendInt2_checked). lia.
Qed.

Lemma appendInt4_checked : all_from (Z.to_nat 10000) 0 appendCheck4 = true.
Proof. vm_compute. reflexivity. Qed.

Lemma appendInt4 x : 0 <= x < 10000 -> appendInt x 4 = fourDigits x.
Proof.
  intros Hx. apply String.eqb_eq.
  apply (all_from_spec appendCheck4 (Z.to_nat 10000) 0 appendInt4_checked). lia.
Qed.

Lemma atoi4_checked : all_from (Z.to_nat 10000) 0 atoiCheck4 = true.
Proof. vm_compute. reflexivity. Qed.

Lemma atoi_fourDigits x : 0 <= x < 10000 -> atoi (fourDigits x) = inr x.
Proof.
  intros Hx.
  pose proof (all_from_spec atoiCheck4 (Z.to_nat 10000) 0 atoi4_checked x ltac:(lia)) as H.
  unfold atoiCheck4 in H. destruct (atoi (fourDigits x)) as [e | v]; [discriminate | ].
  apply Z.eqb_eq in H. subst v. reflexivity.
Qed.

Lemma bind_inr {A B} (a : A) (k : A -> res B) : bind (inr a) k = k a.
Proof. reflexivity. Qed.

Lemma isDigit_digit a rest : 0 <= a <= 9 -> isDigit (String (Str.digit a) rest) 0 = true.
Proof. intros Ha. each_digit a (digit_cases a Ha); reflexivity. Qed.

Lemma stdLongYear_digits y rest :
  0 <= y < 10000 -> stdLongYear (fourDigits y +++ rest) = inr (y, rest).
Proof.
  intros Hy. unfold stdLongYear.
  assert (Hlen : (Str.len (fourDigits y +++ rest) <? 4) = false).
  { unfold fourDigits, Str.len. cbn [append String.length].
    apply Z.ltb_ge. lia. }
  rewrite Hlen.
  assert (Hd : isDigit (fourDigits y +++ rest) 0 = true).
  { unfold fourDigits. cbn [append]. apply isDigit_digit.
    split; [apply Z.div_pos; lia | ]. apply Z.lt_succ_r. apply Z.div_lt_upper_bound; lia. }
  rewrite Hd. cbn [orb negb].
  replace (Str.take 4 (fourDigits y +++ rest)) with (fourDigits y) by reflexivity.
  rewrite (atoi_fourDigits y Hy), bind_inr. reflexivity.
Qed.

Lemma check_false e : check false e = inr tt.
Proof. reflexivity. Qed.

Lemma stdZeroMonth_digits m rest :
  1 <= m <= 12 -> stdZeroMonth (twoDigits m +++ rest) = inr (m, rest).
Proof.
  intros Hm. unfold stdZeroMonth.
  rewrite twoDigits_getnum by lia. rewrite bind_inr.
  replace ((m <=? 0) || (12 <? m)) with false
    by (symmetry; apply orb_false_intro; [apply Z.leb_gt | apply Z.ltb_ge]; lia).
  reflexivity.
Qed.

Lemma stdZeroDay_digits d rest :
  0 <= d < 100 -> stdZeroDay (twoDigits d +++ rest) = inr (d, rest).
Proof. intros Hd. unfold stdZeroDay. apply twoDigits_getnum, Hd. Qed.

Lemma stdHour_digits h rest :
  0 <= h < 24 -> stdHour (twoDigits h +++ rest) = inr (h, rest).
Proof.
  intros Hh. unfold stdHour.
  rewrite twoDigits_getnum by lia. rewrite bind_inr.
  replace ((h <? 0) || (24 <=? h)) with false
    by (symmetry; apply orb_false_intro; [apply Z.ltb_ge | apply Z.leb_gt]; lia).
  reflexivity.
Qed.

Lemma stdZeroMinute_digits mi rest :
  0 <= mi < 60 -> stdZeroMinute (twoDigits mi +++ rest) = inr (mi, rest).
Proof.
  intros Hm. unfold stdZeroMinute.
  rewrite twoDigits_getnum by lia. rewrite bind_inr.
  replace ((mi <? 0) || (60 <=? mi)) with false
    by (symmetry; apply orb_false_intro; [apply Z.ltb_ge | apply Z.leb_gt]; lia).
  reflexivity.
Qed.

(** The sign of the zone follows the seconds: no fractional second. *)
Lemma stdZeroSecond_digits s (neg : bool) rest :
  0 <= s < 60 ->
  stdZeroSecond (twoDigits s +++ (if neg then "-" else "+") +++ rest)
  = inr (s, 0, (if neg then "-" else "+") +++ rest).
Proof.
  intros Hs. unfold stdZeroSecond.
  rewrite twoDigits_getnum by lia. rewrite bind_inr.
  replace ((s <? 0) || (60 <=? s)) with false
    by (symmetry; apply orb_false_intro; [apply Z.ltb_ge | apply Z.leb_gt]; lia).
  rewrite check_false, bind_inr.
  destruct neg; cbn [append commaOrPeriod Ascii.eqb andb];
    rewrite andb_false_r; reflexivity.
Qed.

Lemma parseNumTZ_digits (neg : bool) zh zm :
  0 <= zh <= 24 -> 0 <= zm < 60 ->
  parseNumTZ ((if neg then "-" else "+") +++ twoDigits zh +++ twoDigits zm)
  = inr ((if neg then - ((zh * 60 + zm) * 60) else (zh * 60 + zm) * 60), EmptyString).
Proof.
  intros Hh Hm. unfold parseNumTZ.
  assert (Hlen : (Str.len ((if neg then "-" else "+") +++ twoDigits zh +++ twoDigits zm)
                  <? 5) = false) by (destruct neg; reflexivity).
  rewrite Hlen.
  replace (Str.take 2 (Str.drop 1 ((if neg then "-" else "+")
                                     +++ twoDigits zh +++ twoDigits zm)))
    with (twoDigits zh +++ EmptyString) by (destruct neg; reflexivity).
  replace (Str.take 2 (Str.drop 3 ((if neg then "-" else "+")
                                     +++ twoDigits zh +++ twoDigits zm)))
    with (twoDigits zm +++ EmptyString) by (destruct neg; reflexivity).
  rewrite !twoDigits_getnum by lia.
  replace (getnum "00" true) with (inr (0, EmptyString) : res (Z * string))
    by reflexivity.
  cbv zeta beta iota.
  replace (24 <? zh) with false by (symmetry; apply Z.ltb_ge; lia).
  replace (60 <? zm) with false by (symmetry; apply Z.ltb_ge; lia).
  replace (60 <? 0) with false by reflexivity.
  destruct neg; unfold twoDigits; cbn -[Z.mul Z.add Z.opp Str.digit];
    f_equal; f_equal; lia.
Qed.

Lemma norm_id hi lo base : 0 <= lo < base -> norm hi lo base = (hi, lo).
Proof.
  intros H. unfold norm.
  replace (lo <? 0) with false by (symmetry; apply Z.ltb_ge; lia).
  replace (base <=? lo) with false by (symmetry; apply Z.leb_gt; lia).
  reflexivity.
Qed.

Lemma to_int64_add_l a b : to_int64 (to_int64 a + b) = to_int64 (a + b).
Proof.
  unfold to_int64. f_equal.
  replace ((a + two64 / 2) mod two64 - two64 / 2 + b + two64 / 2)
    with ((a + two64 / 2) mod two64 + b) by ring.
  rewrite Zplus_mod_idemp_l. f_equal. ring.
Qed.

(** [Date] on fields that are in range: no field is normalised and no
    conversion wraps. *)
Lemma Date_valid year m dd h mi s D :
  1 <= m <= 12 -> 1 <= dd < 100 -> 0 <= h < 24 -> 0 <= mi < 60 -> 0 <= s < 60 ->
  daysSinceEpoch year + daysBeforeAt (m - 1)
    + (if isLeap year && (March <=? m) then 1 else 0) + (dd - 1) = D ->
  0 <= D -> D * secondsPerDay + secondsPerDay <= two64 ->
  Date year m dd h mi s 0
  = mkTime (to_int64 (D * secondsPerDay + h * secondsPerHour + mi * secondsPerMinute + s
                      - (unixToInternal + internalToAbsolute))) 0 0.
Proof.
  intros Hm Hdd Hh Hmi Hs HD HD0 HD1. unfold Date.
  rewrite (norm_id year (m - 1) 12) by lia.
  rewrite (norm_id s 0 1000000000) by lia.
  rewrite (norm_id mi s 60) by lia.
  rewrite (norm_id h mi 60) by lia.
  rewrite (norm_id dd h 24) by lia.
  cbv zeta.
  replace (m - 1 + 1) with m by ring.
  replace (m - 1 + 1 - 1) with (m - 1) by ring.
  rewrite (to_uint64_id (dd - 1)) by (unfold two64; lia).
  set (d0 := (if isLeap year && (March <=? m)
              then daysSinceEpoch year + daysBeforeAt (m - 1) + 1
              else daysSinceEpoch year + daysBeforeAt (m - 1))).
  assert (Hd0 : d0 + (dd - 1) = D)
    by (unfold d0; destruct (isLeap year && (March <=? m)); lia).
  rewrite Hd0.
  unfold secondsPerDay, secondsPerHour, secondsPerMinute, two64 in *.
  rewrite (to_uint64_id D) by (unfold two64; lia).
  rewrite (to_uint64_id (D * 86400)) by (unfold two64; lia).
  rewrite (to_uint64_id (h * 3600 + mi * 60 + s)) by (unfold two64; lia).
  rewrite (to_uint64_id (D * 86400 + _)) by (unfold two64; lia).
  rewrite to_int64_add_l.
  match goal with
  | |- mkTime (to_int64 ?a) _ _ = mkTime (to_int64 ?b) _ _ =>
      replace a with b
        by (unfold internalToUnix, internalToAbsolute, unixToInternal,
              absoluteToInternal; lia)
  end.
  reflexivity.
Qed.

Lemma Parse_fields year m dd h mi s (neg : bool) zh zm :
  0 <= year < 10000 -> 1 <= m <= 12 -> 1 <= dd <= daysIn m year ->
  0 <= h < 24 -> 0 <= mi < 60 -> 0 <= s < 60 -> 0 <= zh <= 24 -> 0 <= zm < 60 ->
  Parse (fourDigits year +++ twoDigits m +++ twoDigits dd +++ "T"
           +++ twoDigits h +++ twoDigits mi +++ twoDigits s
           +++ (if neg then "-" else "+") +++ twoDigits zh +++ twoDigits zm)
  = let zo := if neg then - ((zh * 60 + zm) * 60) else (zh * 60 + zm) * 60 in
    let t := Date year m dd h mi s 0 in
    inr (mkTime (to_int64 (unixSec t - zo)) (nsec t) zo).
Proof.
  intros Hy Hm Hdd Hh Hmi Hs Hzh Hzm.
  assert (Hdd31 : dd < 100).
  { assert (daysIn m year <= 31); [ | lia].
    unfold daysIn.
    assert (Hc : m = 1 \/ m = 2 \/ m = 3 \/ m = 4 \/ m = 5 \/ m = 6 \/ m = 7 \/ m = 8
                 \/ m = 9 \/ m = 10 \/ m = 11 \/ m = 12) by lia.
    destruct (isLeap year);
      repeat (destruct Hc as [-> | Hc]; [vm_compute; intro; discriminate | ]);
      subst; vm_compute; intro; discriminate. }
  unfold Parse.
  rewrite stdLongYear_digits by lia. rewrite bind_inr. cbv beta iota.
  rewrite stdZeroMonth_digits by lia. rewrite bind_inr. cbv beta iota.
  rewrite stdZeroDay_digits by lia. rewrite bind_inr. cbv beta iota.
  replace (prefixT ("T" +++ twoDigits h +++ twoDigits mi +++ twoDigits s
                      +++ (if neg then "-" else "+") +++ twoDigits zh +++ twoDigits zm))
    with (inr (twoDigits h +++ twoDigits mi +++ twoDigits s
                 +++ (if neg then "-" else "+") +++ twoDigits zh +++ twoDigits zm)
          : res string) by reflexivity.
  rewrite bind_inr.
  rewrite stdHour_digits by lia. rewrite bind_inr. cbv beta iota.
  rewrite stdZeroMinute_digits by lia. rewrite bind_inr. cbv beta iota.
  rewrite stdZeroSecond_digits by lia. rewrite bind_inr. cbv beta iota.
  rewrite parseNumTZ_digits by lia. rewrite bind_inr. cbv beta iota.
  replace (negb (Str.len EmptyString =? 0)) with false by reflexivity.
  rewrite check_false, bind_inr.
  replace ((dd <? 1) || (daysIn m year <? dd)) with false
    by (symmetry; apply orb_false_intro; [apply Z.ltb_ge | apply Z.ltb_ge]; lia).
  rewrite check_false, bind_inr.
  cbv zeta.
  replace ((if neg then - ((zh * 60 + zm) * 60) else (zh * 60 + zm) * 60) =? -1)
    with false by (symmetry; apply Z.eqb_neq; destruct neg; lia).
  reflexivity.
Qed.

Lemma to_int64_spec x :
  exists q, to_int64 x = x + two64 * q /\ - (two64 / 2) <= to_int64 x < two64 / 2.
Proof.
  unfold to_int64. exists (- ((x + two64 / 2) / two64)).
  pose proof (Z.div_mod (x + two64 / 2) two64 ltac:(unfold two64; lia)).
  pose proof (Z.mod_pos_bound (x + two64 / 2) two64 ltac:(unfold two64; lia)).
  unfold two64 in *. change (18446744073709551616 / 2) with 9223372036854775808 in *.
  lia.
Qed.

Lemma to_uint64_spec x :
  exists q, to_uint64 x = x + two64 * q /\ 0 <= to_uint64 x < two64.
Proof.
  unfold to_uint64. exists (- (x / two64)).
  pose proof (Z.div_mod x two64 ltac:(unfold two64; lia)).
  pose proof (Z.mod_pos_bound x two64 ltac:(unfold two64; lia)).
  lia.
Qed.

Lemma trimRight_snoc c s :
  Str.trimRight c (s +++ String c EmptyString) = Str.trimRight c s.
Proof.
  induction s as [ | a r IH].
  - cbn. rewrite Ascii.eqb_refl. reflexivity.
  - cbn [append Str.trimRight]. rewrite IH. reflexivity.
Qed.

Lemma trimRight_id c s : lastNot c s = true -> Str.trimRight c s = s.
Proof.
  induction s as [ | a r IH]; intros H; [discriminate | ].
  cbn [Str.trimRight]. destruct r as [ | b r'].
  - cbn in *. destruct (Ascii.eqb a c); [discriminate | reflexivity].
  - rewrite IH by exact H. reflexivity.
Qed.

Lemma trim_quote s a r :
  s = String a r -> Ascii.eqb a Str.dquote = false -> lastNot Str.dquote s = true ->
  Str.trim Str.dquote (Json.quote s) = s.
Proof.
  intros -> Ha Hl. unfold Str.trim, Json.quote.
  cbn [Str.trimLeft]. rewrite Ascii.eqb_refl.
  cbn [append Str.trimLeft]. rewrite Ha.
  change (String a (r +++ String Str.dquote EmptyString))
    with (String a r +++ String Str.dquote EmptyString).
  rewrite trimRight_snoc. apply trimRight_id, Hl.
Qed.

Lemma digit_not_quote a : 0 <= a <= 9 -> Ascii.eqb (Str.digit a) Str.dquote = false.
Proof. intros Ha. each_digit a (digit_cases a Ha); reflexivity. Qed.


End CalendarFacts.

Section Roundtrip.

Import GoTime Calendar CalendarFacts.

(** C5, as the code has it: an instant of whole seconds (an int64 count of
    seconds since the Unix epoch), shown in a zone whose offset is a whole
    number of minutes of at most 24 hours, and whose year in that zone is
    one of 0 to 9999, is formatted in the layout "20060102T150405-0700"
    and decoded by [UnmarshalJSON] back to the same instant with the same
    offset, and without error, whatever the receiver held before. *)
Theorem timestamp_roundtrip :
  forall (t : GoTime.Time) (t0 : TeamCityTime),
    -9223372036854775808 <= GoTime.unixSec t < 9223372036854775808 ->
    GoTime.nsec t = 0 ->
    -86400 <= GoTime.offset t <= 86400 ->
    GoTime.offset t mod 60 = 0 ->
    0 <= GoTime.Year t <= 9999 ->
    UnmarshalJSON t0 (Json.quote (GoTime.Format t)) = (mkTeamCityTime t, None).
Proof.
  intros [u ns off] t0 Hu Hns Hoff Hmod Hyear. cbn [unixSec nsec offset] in *. subst ns.
  change (- (9223372036854775808)) with (- (two64 / 2)) in Hu.
  change 9223372036854775808 with (two64 / 2) in Hu.
  set (t := mkTime u 0 off) in *.
  set (K := unixToInternal + internalToAbsolute).
  assert (HK : K = 9223372028715321600) by reflexivity.
  set (A := abs t).
  destruct (to_int64_spec (u + off)) as (q1 & Hv & Hvr).
  destruct (to_uint64_spec (to_int64 (u + off) + K)) as (q2 & HA & HAr).
  destruct (absDate_valid A HAr) as (year & m & dd & Habs & (y & Hy & Hye) & Hm & Hdd & Hdays).
  assert (HY : Year t = year) by (unfold Year; fold A; rewrite Habs; reflexivity).
  rewrite HY in Hyear.
  (* the instant lies within the years 0 to 9999: nothing wraps *)
  set (D := A / secondsPerDay) in *.
  set (n := D / daysPer400Years) in *.
  assert (HDn : daysPer400Years * n <= D < daysPer400Years * n + daysPer400Years).
  { unfold n, daysPer400Years.
    pose proof (Z.div_mod D 146097 ltac:(lia)).
    pose proof (Z.mod_pos_bound D 146097 ltac:(lia)). lia. }
  assert (HAD : secondsPerDay * D <= A < secondsPerDay * D + secondsPerDay).
  { unfold D, secondsPerDay.
    pose proof (Z.div_mod A 86400 ltac:(lia)).
    pose proof (Z.mod_pos_bound A 86400 ltac:(lia)). lia. }
  unfold absoluteZeroYear, daysPer400Years, secondsPerDay, two64 in *.
  change (18446744073709551616 / 2) with 9223372036854775808 in *.
  assert (Hn : 730692555 <= n <= 730692580) by lia.
  assert (HAeq : A = to_uint64 (to_int64 (u + off) + K)) by reflexivity.
  assert (HAK : A = to_int64 (u + off) + K) by lia.
  assert (Hvu : to_int64 (u + off) = u + off) by lia.
  clear q1 Hv Hvr q2 HA.
  assert (HAu : A = u + off + K) by lia.
  (* the clock *)
  set (s0 := A mod 86400).
  set (hour := s0 / 3600).
  set (mi := (s0 - hour * 3600) / 60).
  set (sec := s0 - hour * 3600 - mi * 60).
  assert (Hs0 : 0 <= s0 < 86400 /\ A = 86400 * D + s0).
  { unfold s0, D. pose proof (Z.div_mod A 86400 ltac:(lia)).
    pose proof (Z.mod_pos_bound A 86400 ltac:(lia)). lia. }
  assert (Hhour : 0 <= hour < 24 /\ 0 <= s0 - hour * 3600 < 3600).
  { unfold hour. pose proof (Z.div_mod s0 3600 ltac:(lia)).
    pose proof (Z.mod_pos_bound s0 3600 ltac:(lia)).
    assert (0 <= s0 / 3600 < 24)
      by (split; [apply Z.div_pos; lia | apply Z.div_lt_upper_bound; lia]).
    lia. }
  assert (Hmi : 0 <= mi < 60 /\ 0 <= sec < 60).
  { unfold sec, mi. pose proof (Z.div_mod (s0 - hour * 3600) 60 ltac:(lia)).
    pose proof (Z.mod_pos_bound (s0 - hour * 3600) 60 ltac:(lia)).
    assert (0 <= (s0 - hour * 3600) / 60 < 60)
      by (split; [apply Z.div_pos; lia | apply Z.div_lt_upper_bound; lia]).
    lia. }
  (* the zone *)
  set (zone := Z.quot off 60).
  assert (Hzone : off = 60 * zone /\ -1440 <= zone <= 1440).
  { apply Z.mod_divide in Hmod; [ | lia]. destruct Hmod as [k Hk].
    unfold zone. rewrite Hk. rewrite Z.quot_mul by lia. lia. }
  set (neg := zone <? 0).
  set (zabs := if neg then - zone else zone).
  assert (Hzabs : 0 <= zabs <= 1440 /\ (if neg then - zabs else zabs) = zone).
  { unfold zabs, neg. destruct (Z.ltb_spec zone 0); lia. }
  set (zh := Z.quot zabs 60).
  set (zm := Z.rem zabs 60).
  assert (Hz : 0 <= zh <= 24 /\ 0 <= zm < 60 /\ zabs = zh * 60 + zm).
  { unfold zh, zm. rewrite Z.quot_div_nonneg, Z.rem_mod_nonneg by lia.
    pose proof (Z.div_mod zabs 60 ltac:(lia)).
    pose proof (Z.mod_pos_bound zabs 60 ltac:(lia)).
    assert (0 <= zabs / 60 <= 24)
      by (split; [apply Z.div_pos; lia | apply Z.div_le_upper_bound; lia]).
    lia. }
  (* what Format writes *)
  assert (HF : Format t =
               fourDigits year +++ twoDigits m +++ twoDigits dd +++ "T"
                 +++ twoDigits hour +++ twoDigits mi +++ twoDigits sec
                 +++ (if neg then "-" else "+") +++ twoDigits zh +++ twoDigits zm).
  { unfold Format. fold A. rewrite Habs. cbv zeta.
    unfold secondsPerDay, secondsPerHour, secondsPerMinute.
    fold s0. fold hour.
    change (offset t) with off. fold zone. fold neg. fold zabs. fold zh. fold zm.
    assert (Hdd31 : dd < 100).
    { assert (daysIn m year <= 31); [ | lia].
      unfold daysIn.
      assert (Hc : m = 1 \/ m = 2 \/ m = 3 \/ m = 4 \/ m = 5 \/ m = 6 \/ m = 7
                   \/ m = 8 \/ m = 9 \/ m = 10 \/ m = 11 \/ m = 12) by lia.
      destruct (isLeap year);
        repeat (destruct Hc as [-> | Hc]; [vm_compute; intro; discriminate | ]);
        subst; vm_compute; intro; discriminate. }
    rewrite (appendInt4 year) by lia.
    rewrite (appendInt2 m), (appendInt2 dd), (appendInt2 hour) by lia.
    rewrite (appendInt2 zh), (appendInt2 zm) by lia.
    fold mi. replace (s0 - hour * 3600 - mi * 60) with sec by reflexivity.
    rewrite (appendInt2 mi), (appendInt2 sec) by lia.
    destruct neg; reflexivity. }
  unfold UnmarshalJSON.
  rewrite (trim_quote (Format t) (Str.digit (year / 1000))
             (String (Str.digit (year / 100 mod 10))
                (String (Str.digit (year / 10 mod 10))
                   (String (Str.digit (year mod 10)) EmptyString))
              +++ twoDigits m +++ twoDigits dd +++ "T"
              +++ twoDigits hour +++ twoDigits mi +++ twoDigits sec
              +++ (if neg then "-" else "+") +++ twoDigits zh +++ twoDigits zm)).
  - rewrite HF, Parse_fields by lia. cbv zeta.
    rewrite (Date_valid year m dd hour mi sec D); try lia.
    + cbn [unixSec nsec].
      unfold secondsPerDay, secondsPerHour, secondsPerMinute. fold K.
      replace (D * 86400 + hour * 3600 + mi * 60 + sec - K) with (u + off) by lia.
      replace (if neg then - ((zh * 60 + zm) * 60) else (zh * 60 + zm) * 60)
        with off by (destruct neg; lia).
      rewrite (to_int64_id (u + off))
        by (unfold two64; change (18446744073709551616 / 2) with 9223372036854775808; lia).
      replace (u + off - off) with u by ring.
      rewrite (to_int64_id u)
        by (unfold two64; change (18446744073709551616 / 2) with 9223372036854775808; lia).
      reflexivity.
    + assert (daysIn m year <= 31); [ | lia].
      unfold daysIn.
      assert (Hc : m = 1 \/ m = 2 \/ m = 3 \/ m = 4 \/ m = 5 \/ m = 6 \/ m = 7
                   \/ m = 8 \/ m = 9 \/ m = 10 \/ m = 11 \/ m = 12) by lia.
      destruct (isLeap year);
        repeat (destruct Hc as [-> | Hc]; [vm_compute; intro; discriminate | ]);
        subst; vm_compute; intro; discriminate.
    + unfold secondsPerDay, two64. lia.
  - rewrite HF. reflexivity.
  - apply digit_not_quote.
    split; [apply Z.div_pos; lia | ]. apply Z.lt_succ_r. apply Z.div_lt_upper_bound; lia.
  - rewrite HF. unfold fourDigits, twoDigits. destruct neg; cbn [append lastNot];
      rewrite digit_not_quote; try reflexivity;
      pose proof (Z.mod_pos_bound zm 10 ltac:(lia)); lia.
Qed.

End Roundtrip.

(** ** What [Parse] accepts lies within the years 0 to 9999 *)

Module ParseBounds.

Import GoTime Calendar CalendarFacts.

Lemma digitVal_range c :
  (48 <=? Str.code c) && (Str.code c <=? 57) = true -> 0 <= digitVal c <= 9.
Proof.
  intros H. apply andb_prop in H. destruct H as [H1 H2].
  apply Z.leb_le in H1. apply Z.leb_le in H2. unfold digitVal. lia.
Qed.

(** The digits that [leadingInt] has read, as a number: at most
    [length s] digits after [x]. *)
Lemma leadingInt_aux_bound s :
  forall x q,
    0 <= x ->
    leadingInt_aux s x = Some (q, EmptyString) ->
    x * 10 ^ Z.of_nat (String.length s) <= q
    /\ q < (x + 1) * 10 ^ Z.of_nat (String.length s).
Proof.
  induction s as [ | c r IH]; intros x q Hx H.
  - cbn in H. injection H as <-. cbn. lia.
  - cbn [leadingInt_aux] in H.
    destruct ((48 <=? Str.code c) && (Str.code c <=? 57)) eqn:Hd; [ | discriminate].
    destruct (two64 / 2 / 10 <? x); [discriminate | ].
    destruct (two64 / 2 <? x * 10 + digitVal c); [discriminate | ].
    pose proof (digitVal_range c Hd) as Hc.
    destruct (IH (x * 10 + digitVal c) q ltac:(lia) H) as [Hlo Hhi].
    cbn [String.length]. rewrite Nat2Z.inj_succ, Z.pow_succ_r by lia.
    assert (Hp : 0 < 10 ^ Z.of_nat (String.length r)) by (apply Z.pow_pos_nonneg; lia).
    nia.
Qed.

Lemma to_int64_small q : 0 <= q < 10 ^ 18 -> to_int64 q = q.
Proof.
  intros H. apply to_int64_id. unfold two64.
  change (18446744073709551616 / 2) with 9223372036854775808.
  change (10 ^ 18) with 1000000000000000000 in H. lia.
Qed.

Lemma pow10_mono a b : (a <= b)%nat -> 10 ^ Z.of_nat a <= 10 ^ Z.of_nat b.
Proof. intros H. apply Z.pow_le_mono_r; lia. Qed.

(** [atoi] of a text of at most 18 bytes. *)
Lemma atoi_bound s v :
  (String.length s <= 18)%nat ->
  atoi s = inr v ->
  - 10 ^ Z.of_nat (String.length s) < v < 10 ^ Z.of_nat (String.length s).
Proof.
  intros Hlen. unfold atoi.
  assert (Hgen : forall (neg : bool) (s' : string),
             (String.length s' <= String.length s)%nat ->
             match leadingInt s' with
             | Some (q, EmptyString) =>
                 inr (if neg then - to_int64 q else to_int64 q)
             | _ => inl errAtoi
             end = (inr v : res Z) ->
             - 10 ^ Z.of_nat (String.length s) < v < 10 ^ Z.of_nat (String.length s)).
  { intros neg s' Hs' H. unfold leadingInt in H.
    destruct (leadingInt_aux s' 0) as [[q rest] | ] eqn:Hq; [ | discriminate].
    destruct rest; [ | discriminate].
    destruct (leadingInt_aux_bound s' 0 q ltac:(lia) Hq) as [Hlo Hhi].
    pose proof (pow10_mono _ _ Hs') as Hm.
    pose proof (pow10_mono _ 18 Hlen) as Hm18.
    change (Z.of_nat 18) with 18 in Hm18.
    rewrite to_int64_small in H by lia.
    injection H as <-. destruct neg; lia. }
  destruct s as [ | c r]; [apply (Hgen false); lia | ].
  destruct (Ascii.eqb c "-"); [apply (Hgen true); cbn; lia | ].
  destruct (Ascii.eqb c "+"); [apply (Hgen false); cbn; lia | ].
  apply (Hgen false); lia.
Qed.

(** Without a sign in front, [atoi] gives no negative number. *)
Lemma atoi_digit_nonneg s v :
  (String.length s <= 18)%nat ->
  isDigit s 0 = true ->
  atoi s = inr v -> 0 <= v.
Proof.
  intros Hlen Hd. destruct s as [ | c r]; [discriminate | ].
  unfold isDigit in Hd. cbn [String.get] in Hd.
  unfold atoi.
  assert (Hm : Ascii.eqb c "-" = false).
  { destruct (Ascii.eqb_spec c "-") as [-> | ]; [discriminate | reflexivity]. }
  assert (Hp : Ascii.eqb c "+" = false).
  { destruct (Ascii.eqb_spec c "+") as [-> | ]; [discriminate | reflexivity]. }
  rewrite Hm, Hp. unfold leadingInt.
  destruct (leadingInt_aux (String c r) 0) as [[q rest] | ] eqn:Hq; [ | discriminate].
  destruct rest; [ | discriminate].
  destruct (leadingInt_aux_bound _ 0 q ltac:(lia) Hq) as [Hlo Hhi].
  pose proof (pow10_mono _ 18 Hlen) as Hm18. change (Z.of_nat 18) with 18 in Hm18.
  rewrite to_int64_small by lia. intros H. injection H as <-. lia.
Qed.

Lemma length_take n s : (String.length (Str.take n s) <= n)%nat.
Proof.
  revert s. induction n as [ | n IH]; intros [ | c r]; cbn; try lia.
  specialize (IH r). lia.
Qed.

Lemma length_drop n s : (String.length (Str.drop n s) <= String.length s - n)%nat.
Proof.
  revert s. induction n as [ | n IH]; intros [ | c r]; cbn; try lia.
  exact (IH r).
Qed.

Lemma isDigit_take n s : isDigit (Str.take (S n) s) 0 = isDigit s 0.
Proof. destruct s; reflexivity. Qed.

Lemma bind_inv {A B} (r : res A) (k : A -> res B) (b : B) :
  bind r k = inr b -> exists a, r = inr a /\ k a = inr b.
Proof. destruct r as [e | a]; [discriminate | ]. intros H. exists a. split; auto. Qed.

Lemma check_inv (bad : bool) e : check bad e = inr tt -> bad = false.
Proof. destruct bad; [discriminate | reflexivity]. Qed.

Lemma check_inv' (bad : bool) e u : check bad e = inr u -> bad = false.
Proof. destruct bad; [discriminate | reflexivity]. Qed.

Lemma stdLongYear_range value y rest :
  stdLongYear value = inr (y, rest) -> 0 <= y <= 9999.
Proof.
  unfold stdLongYear.
  destruct ((Str.len value <? 4) || negb (isDigit value 0)) eqn:Hc; [discriminate | ].
  apply orb_false_elim in Hc. destruct Hc as [_ Hd].
  apply negb_false_iff in Hd.
  intros H. apply bind_inv in H. destruct H as (v & Hv & H). injection H as <- _.
  pose proof (length_take 4 value) as Hlen.
  pose proof (atoi_bound (Str.take 4 value) v ltac:(lia) Hv) as Hb.
  pose proof (atoi_digit_nonneg (Str.take 4 value) v ltac:(lia)
                ltac:(rewrite isDigit_take; exact Hd) Hv).
  pose proof (pow10_mono _ 4 Hlen) as Hm. change (10 ^ Z.of_nat 4) with 10000 in Hm.
  lia.
Qed.

Lemma isDigit_0 c r :
  isDigit (String c r) 0 = ((48 <=? Str.code c) && (Str.code c <=? 57)).
Proof. reflexivity. Qed.

Lemma isDigit_1 c r : isDigit (String c r) 1 = isDigit r 0.
Proof. reflexivity. Qed.

Lemma getnum_range s fixed n rest :
  getnum s fixed = inr (n, rest) -> 0 <= n <= 99.
Proof.
  unfold getnum.
  destruct (isDigit s 0) eqn:H0; cbn [negb]; [ | discriminate].
  destruct s as [ | a r]; [discriminate | ].
  rewrite isDigit_0 in H0. pose proof (digitVal_range a H0) as Ha.
  destruct (isDigit (String a r) 1) eqn:H1; cbn [negb].
  - destruct r as [ | b r']; [discriminate | ].
    rewrite isDigit_1, isDigit_0 in H1. pose proof (digitVal_range b H1) as Hb.
    intros H. injection H as <- _. lia.
  - destruct fixed; [discriminate | ]. intros H. injection H as <- _. lia.
Qed.

Lemma stdZeroMonth_range value m rest :
  stdZeroMonth value = inr (m, rest) -> 1 <= m <= 12.
Proof.
  unfold stdZeroMonth. intros H.
  apply bind_inv in H. destruct H as ([m' rest'] & _ & H).
  apply bind_inv in H. destruct H as (u & Hc & H). injection H as <- _.
  apply check_inv' in Hc. apply orb_false_elim in Hc. destruct Hc as [H1 H2].
  apply Z.leb_gt in H1. apply Z.ltb_ge in H2. lia.
Qed.

Lemma stdHour_range value h rest :
  stdHour value = inr (h, rest) -> 0 <= h < 24.
Proof.
  unfold stdHour. intros H.
  apply bind_inv in H. destruct H as ([h' rest'] & _ & H).
  apply bind_inv in H. destruct H as (u & Hc & H). injection H as <- _.
  apply check_inv' in Hc. apply orb_false_elim in Hc. destruct Hc as [H1 H2].
  apply Z.ltb_ge in H1. apply Z.leb_gt in H2. lia.
Qed.

Lemma stdZeroMinute_range value mi rest :
  stdZeroMinute value = inr (mi, rest) -> 0 <= mi < 60.
Proof.
  unfold stdZeroMinute. intros H.
  apply bind_inv in H. destruct H as ([h' rest'] & _ & H).
  apply bind_inv in H. destruct H as (u & Hc & H). injection H as <- _.
  apply check_inv' in Hc. apply orb_false_elim in Hc. destruct Hc as [H1 H2].
  apply Z.ltb_ge in H1. apply Z.leb_gt in H2. lia.
Qed.

(** The fraction of a second is below one second. *)
Lemma parseNanoseconds_range value n ns :
  (1 <= n)%nat ->
  parseNanoseconds value n = inr ns -> 0 <= ns < 1000000000.
Proof.
  intros Hn. unfold parseNanoseconds.
  destruct value as [ | c r]; [discriminate | ].
  destruct (negb (commaOrPeriod c)); [discriminate | ].
  set (nb := if (10 <? n)%nat then 10%nat else n).
  assert (Hnb : (1 <= nb <= 10)%nat).
  { unfold nb. destruct (Nat.ltb_spec 10 n); lia. }
  intros H. apply bind_inv in H. destruct H as (a & Ha & H).
  destruct (a <? 0) eqn:Hneg; [discriminate | ]. injection H as <-.
  apply Z.ltb_ge in Hneg.
  pose proof (length_take nb (String c r)) as Ht.
  pose proof (length_drop 1 (Str.take nb (String c r))) as Hd.
  pose proof (atoi_bound (Str.drop 1 (Str.take nb (String c r))) a ltac:(lia) Ha) as Hb.
  assert (Hle : (String.length (Str.drop 1 (Str.take nb (String c r))) <= nb - 1)%nat)
    by lia.
  pose proof (pow10_mono _ _ Hle) as Hm.
  assert (Hpow : 10 ^ Z.of_nat (nb - 1) * 10 ^ Z.of_nat (10 - nb) = 1000000000).
  { rewrite <- Z.pow_add_r by lia.
    replace (Z.of_nat (nb - 1) + Z.of_nat (10 - nb)) with 9 by lia. reflexivity. }
  assert (Hp : 0 < 10 ^ Z.of_nat (10 - nb)) by (apply Z.pow_pos_nonneg; lia).
  split; [apply Z.mul_nonneg_nonneg; lia | ].
  rewrite <- Hpow. apply Z.mul_lt_mono_pos_r; lia.
Qed.

Lemma stdZeroSecond_range value s ns rest :
  stdZeroSecond value = inr (s, ns, rest) -> 0 <= s < 60 /\ 0 <= ns < 1000000000.
Proof.
  unfold stdZeroSecond. intros H.
  apply bind_inv in H. destruct H as ([s' value'] & _ & H).
  apply bind_inv in H. destruct H as (u & Hc & H).
  apply check_inv' in Hc. apply orb_false_elim in Hc. destruct Hc as [H1 H2].
  apply Z.ltb_ge in H1. apply Z.leb_gt in H2.
  destruct value' as [ | c r].
  - injection H as <- <- _. lia.
  - destruct ((2 <=? Str.len (String c r)) && commaOrPeriod c && isDigit (String c r) 1).
    + apply bind_inv in H. destruct H as (a & Ha & H). injection H as <- <- _.
      split; [lia | ]. exact (parseNanoseconds_range _ (S (fracLen r)) _ ltac:(lia) Ha).
    + injection H as <- <- _. lia.
Qed.

Lemma parseNumTZ_range value zo rest :
  parseNumTZ value = inr (zo, rest) -> -90000 <= zo <= 90000.
Proof.
  unfold parseNumTZ.
  destruct (Str.len value <? 5); [discriminate | ]. cbv zeta.
  set (hour := Str.take 2 (Str.drop 1 value)).
  set (mi := Str.take 2 (Str.drop 3 value)).
  destruct (getnum hour true) as [e1 | [hr r1]] eqn:Hh.
  - (* the error of the hour is kept *)
    change (getnum "00" true) with (inr (0, EmptyString) : res (Z * string)).
    cbn -[Z.mul Z.add Str.take].
    destruct (Str.take 1 value) as [ | c r]; [discriminate | ].
    destruct (Ascii.eqb c "+"); [discriminate | ].
    destruct (Ascii.eqb c "-"); discriminate.
  - pose proof (getnum_range _ _ _ _ Hh) as Hhr.
    destruct (getnum mi true) as [e2 | [mm r2]] eqn:Hm.
    + change (getnum "00" true) with (inr (0, EmptyString) : res (Z * string)).
      cbn -[Z.mul Z.add Str.take Z.ltb].
      destruct (24 <? hr);
        destruct (Str.take 1 value) as [ | c r]; try discriminate;
        destruct (Ascii.eqb c "+"); try discriminate;
        destruct (Ascii.eqb c "-"); discriminate.
    + pose proof (getnum_range _ _ _ _ Hm) as Hmm.
      change (getnum "00" true) with (inr (0, EmptyString) : res (Z * string)).
      cbv beta iota.
      change (60 <? 0) with false. cbv iota.
      destruct (Z.ltb_spec 24 hr) as [ | Hhr24];
        destruct (Z.ltb_spec 60 mm) as [ | Hmm60];
        destruct (Str.take 1 value) as [ | c r]; try discriminate;
        destruct (Ascii.eqb c "+"); try discriminate;
        try (intros H; injection H as <- _; lia);
        destruct (Ascii.eqb c "-"); try discriminate;
        intros H; injection H as <- _; lia.
Qed.

End ParseBounds.

Module DateBounds.

Import GoTime Calendar CalendarFacts.

(** The nanoseconds pass through [Date] when they are below one second. *)
Lemma Date_nsec year m dd h mi s ns :
  0 <= ns < 1000000000 ->
  Date year m dd h mi s ns = mkTime (unixSec (Date year m dd h mi s 0)) ns 0.
Proof.
  intros Hns. unfold Date.
  rewrite (norm_id s ns 1000000000) by lia.
  rewrite (norm_id s 0 1000000000) by lia.
  destruct (norm year (m - 1) 12) as [year' m'].
  destruct (norm mi s 60) as [mi' s'].
  destruct (norm h mi' 60) as [h' mi''].
  destruct (norm dd h' 24) as [dd' h''].
  reflexivity.
Qed.

Lemma cycleDays_bounds y :
  0 <= y < 400 ->
  0 <= cycleDays y <= 145731 /\
  (y <= 398 -> cycleDays y <= 145366) /\
  (y <= 397 -> cycleDays y <= 145001) /\
  (y = 399 -> cycleDays y = 145731).
Proof.
  intros Hy. unfold cycleDays, daysPer100Years, daysPer4Years. cbv zeta.
  pose proof (Z.div_mod y 100 ltac:(lia)) as H1.
  pose proof (Z.mod_pos_bound y 100 ltac:(lia)) as H2.
  set (q1 := y / 100) in *.
  assert (Hq1 : 0 <= q1 <= 3) by lia.
  pose proof (Z.div_mod (y - 100 * q1) 4 ltac:(lia)) as H3.
  pose proof (Z.mod_pos_bound (y - 100 * q1) 4 ltac:(lia)) as H4.
  set (q2 := (y - 100 * q1) / 4) in *.
  assert (Hq2 : 0 <= q2 <= 24) by lia.
  repeat split; lia.
Qed.

(** The day of the year of a valid date, counted from 0. *)
Lemma dayOfYear_bounds year m dd :
  1 <= m <= 12 -> 1 <= dd <= daysIn m year ->
  0 <= daysBeforeAt (m - 1) + (if isLeap year && (March <=? m) then 1 else 0) + (dd - 1)
    <= 364 + (if isLeap year then 1 else 0).
Proof.
  intros Hm Hdd. unfold daysIn in Hdd.
  assert (Hc : m = 1 \/ m = 2 \/ m = 3 \/ m = 4 \/ m = 5 \/ m = 6 \/ m = 7 \/ m = 8
               \/ m = 9 \/ m = 10 \/ m = 11 \/ m = 12) by lia.
  unfold February, March in *.
  destruct (isLeap year); cbn [andb] in *;
    repeat (destruct Hc as [Hc | Hc]; [subst m | ]); try subst m;
    repeat match goal with
           | H : context [daysBeforeAt ?a] |- _ =>
               let v := eval vm_compute in (daysBeforeAt a) in
               progress change (daysBeforeAt a) with v in H
           | |- context [daysBeforeAt ?a] =>
               let v := eval vm_compute in (daysBeforeAt a) in
               progress change (daysBeforeAt a) with v
           | H : context [?a =? ?b] |- _ =>
               let v := eval vm_compute in (a =? b) in
               progress change (a =? b) with v in H
           | |- context [?a <=? ?b] =>
               let v := eval vm_compute in (a <=? b) in
               progress change (a <=? b) with v
           end;
    cbv beta iota delta [andb] in *; lia.
Qed.

Lemma daysIn_le year m : 1 <= m <= 12 -> daysIn m year <= 31.
Proof.
  intros Hm. unfold daysIn, February.
  assert (Hc : m = 1 \/ m = 2 \/ m = 3 \/ m = 4 \/ m = 5 \/ m = 6 \/ m = 7 \/ m = 8
               \/ m = 9 \/ m = 10 \/ m = 11 \/ m = 12) by lia.
  destruct (isLeap year);
    repeat (destruct Hc as [Hc | Hc]; [subst m; vm_compute; discriminate | ]);
    subst m; vm_compute; discriminate.
Qed.

(** [Date] on a valid date of the years 0 to 9999: the seconds since the
    Unix epoch lie between the first second of the year 0 and the last
    second of the year 9999. *)
Lemma Date_range year m dd h mi s ns :
  0 <= year <= 9999 -> 1 <= m <= 12 -> 1 <= dd <= daysIn m year ->
  0 <= h < 24 -> 0 <= mi < 60 -> 0 <= s < 60 -> 0 <= ns < 1000000000 ->
  exists u,
    Date year m dd h mi s ns = mkTime u ns 0 /\
    -62167219200 <= u <= 253402300799.
Proof.
  intros Hyear Hm Hdd Hh Hmi Hs Hns.
  rewrite Date_nsec by exact Hns.
  pose proof (daysIn_le year m Hm) as H31.
  pose proof (dayOfYear_bounds year m dd Hm Hdd) as Hdoy.
  set (doy := daysBeforeAt (m - 1) + (if isLeap year && (March <=? m) then 1 else 0)
              + (dd - 1)) in *.
  set (Y := year - absoluteZeroYear).
  pose proof (Z.div_mod Y 400 ltac:(lia)) as HY.
  pose proof (Z.mod_pos_bound Y 400 ltac:(lia)) as HYm.
  set (n := Y / 400) in *. set (y := Y mod 400) in *.
  assert (HYv : Y = year + 292277022399) by (unfold Y, absoluteZeroYear; lia).
  assert (Hn : 730692555 <= n <= 730692580) by lia.
  assert (Hyeq : year = 400 * n + y + absoluteZeroYear) by (unfold absoluteZeroYear; lia).
  pose proof (daysSinceEpoch_pieces n y ltac:(lia) ltac:(unfold two64; lia) HYm) as Hdse.
  rewrite <- Hyeq in Hdse.
  destruct (cycleDays_bounds y HYm) as (Hc0 & Hc398 & Hc397 & Hc399).
  unfold daysPer400Years in Hdse.
  set (D := daysSinceEpoch year + doy).
  assert (HDlo : 106751990353566 <= D).
  { unfold D. rewrite Hdse.
    destruct (Z.eq_dec n 730692555) as [E | E]; [ | lia].
    assert (y = 399) by lia. specialize (Hc399 H). lia. }
  assert (HDhi : D <= 106751994005990).
  { unfold D. rewrite Hdse.
    destruct (Z.eq_dec year 9999) as [E | E].
    - assert (Hl : isLeap year = false) by (rewrite E; reflexivity).
      rewrite Hl in Hdoy. assert (y <= 398) by lia. specialize (Hc398 H). lia.
    - assert (Hl : (if isLeap year then 1 else 0) <= 1) by (destruct (isLeap year); lia).
      destruct (Z.eq_dec n 730692580) as [En | En]; [ | lia].
      assert (y <= 397) by lia. specialize (Hc397 H). lia. }
  rewrite (Date_valid year m dd h mi s D Hm ltac:(lia) Hh Hmi Hs);
    [ | unfold D, doy; ring | lia | unfold secondsPerDay, two64; lia].
  cbn [unixSec].
  unfold secondsPerDay, secondsPerHour, secondsPerMinute, unixToInternal,
    internalToAbsolute, absoluteToInternal.
  eexists. split; [reflexivity | ].
  rewrite to_int64_id;
    [ | unfold two64; change (18446744073709551616 / 2) with 9223372036854775808; lia].
  lia.
Qed.

Lemma Parse_range value t :
  Parse value = inr t ->
  -62167309200 <= unixSec t <= 253402390799 /\
  0 <= nsec t < 1000000000 /\ -90000 <= offset t <= 90000.
Proof.
  unfold Parse. intros H.
  apply ParseBounds.bind_inv in H. destruct H as ([year v1] & Hy & H).
  apply ParseBounds.bind_inv in H. destruct H as ([m v2] & Hm & H).
  apply ParseBounds.bind_inv in H. destruct H as ([dd v3] & Hd & H).
  apply ParseBounds.bind_inv in H. destruct H as (v4 & HT & H).
  apply ParseBounds.bind_inv in H. destruct H as ([h v5] & Hh & H).
  apply ParseBounds.bind_inv in H. destruct H as ([mi v6] & Hmi & H).
  apply ParseBounds.bind_inv in H. destruct H as ([[s ns] v7] & Hs & H).
  apply ParseBounds.bind_inv in H. destruct H as ([zo v8] & Hz & H).
  apply ParseBounds.bind_inv in H. destruct H as (u1 & Hc1 & H).
  apply ParseBounds.bind_inv in H. destruct H as (u2 & Hc2 & H).
  apply ParseBounds.stdLongYear_range in Hy.
  apply ParseBounds.stdZeroMonth_range in Hm.
  apply ParseBounds.stdHour_range in Hh.
  apply ParseBounds.stdZeroMinute_range in Hmi.
  apply ParseBounds.stdZeroSecond_range in Hs. destruct Hs as [Hs Hns].
  apply ParseBounds.parseNumTZ_range in Hz.
  apply ParseBounds.check_inv' in Hc2. apply orb_false_elim in Hc2.
  destruct Hc2 as [Hd1 Hd2]. apply Z.ltb_ge in Hd1. apply Z.ltb_ge in Hd2.
  destruct (Date_range year m dd h mi s ns Hy Hm ltac:(lia) Hh Hmi Hs Hns)
    as (u & HD & Hu).
  rewrite HD in H. cbn [unixSec nsec] in H.
  destruct (zo =? -1); injection H as <-; cbn [unixSec nsec offset].
  - lia.
  - rewrite to_int64_id;
      [ | unfold two64; change (18446744073709551616 / 2) with 9223372036854775808; lia].
    lia.
Qed.

End DateBounds.

(** ** What the decoder keeps *)

Module DecodeKeeps.

Import Json.

Lemma keeps_members {T : Type} (P : T -> Prop) (member : string -> dec T) :
  (forall k, keeps P (member k)) ->
  forall ms cur d, P cur -> P (fst (d_members member ms cur d)).
Proof.
  intros Hm ms. induction ms as [ | [k v] rest IH]; intros cur d Hcur; [exact Hcur | ].
  cbn [d_members]. pose proof (Hm k v cur d Hcur) as Hk.
  destruct (member k v cur d) as [cur' d']. cbn [fst] in Hk.
  destruct (aborted d'); [exact Hk | apply IH, Hk].
Qed.

Lemma keeps_struct {T : Type} (P : T -> Prop) type_ (member : string -> dec T) :
  (forall k, keeps P (member k)) -> keeps P (d_struct type_ member).
Proof.
  intros Hm v cur d Hcur. unfold d_struct.
  destruct v; cbn [fst]; try exact Hcur.
  apply keeps_members; assumption.
Qed.

Lemma Forall_tl {T : Type} (P : T -> Prop) (l : list T) : Forall P l -> Forall P (tl l).
Proof. intros H. destruct H; [constructor | assumption]. Qed.

Lemma Forall_hd {T : Type} (P : T -> Prop) (zero : T) (l : list T) :
  P zero -> Forall P l -> P (hd zero l).
Proof. intros Hz H. destruct H; assumption. Qed.

Lemma keeps_elems {T : Type} (P : T -> Prop) (elem : dec T) (zero : T) :
  keeps P elem -> P zero ->
  forall elems done backing liveLeft d,
    Forall P done -> Forall P backing ->
    Forall P (live (fst (d_elems elem zero elems done backing liveLeft d))
              ++ spare (fst (d_elems elem zero elems done backing liveLeft d))).
Proof.
  intros He Hz elems.
  induction elems as [ | v rest IH]; intros done backing liveLeft d Hdone Hback.
  - cbn [d_elems]. destruct done; cbn [fst live spare nilSlice]; [constructor | ].
    apply Forall_app. split; assumption.
  - cbn [d_elems].
    pose proof (He v (hd zero backing) d (Forall_hd P zero backing Hz Hback)) as Hx.
    destruct (elem v (hd zero backing) d) as [x d']. cbn [fst] in Hx.
    pose proof (Forall_tl P backing Hback) as Htl.
    destruct (aborted d').
    + cbn [fst live spare]. rewrite <- app_assoc. cbn [app].
      apply Forall_app. split; [exact Hdone | ]. constructor; [exact Hx | ].
      rewrite firstn_skipn. exact Htl.
    + apply IH; [ | exact Htl]. apply Forall_app. split; [exact Hdone | ].
      constructor; [exact Hx | constructor].
Qed.

Lemma keeps_slice {T : Type} (P : T -> Prop) type_ (elem : dec T) (zero : T) :
  keeps P elem -> P zero ->
  keeps (fun s => Forall P (live s ++ spare s)) (d_slice type_ elem zero).
Proof.
  intros He Hz v cur d Hcur. unfold d_slice.
  destruct v; cbn [fst]; try exact Hcur.
  - constructor.
  - apply keeps_elems; try assumption. constructor.
Qed.

(** Whatever [UnmarshalJSON] leaves in the receiver is in range. *)
Lemma UnmarshalJSON_inRange t0 b : timeInRange (fst (UnmarshalJSON t0 b)).
Proof.
  unfold UnmarshalJSON, timeInRange.
  destruct (GoTime.Parse (Str.trim Str.dquote b)) as [e | tm] eqn:Hp; cbn.
  - unfold GoTime.internalToUnix, GoTime.unixToInternal. lia.
  - apply DateBounds.Parse_range in Hp. unfold GoTime.Unix. lia.
Qed.

Lemma time_inRange v cur d : timeInRange (fst (d_time v cur d)).
Proof.
  unfold d_time. pose proof (UnmarshalJSON_inRange cur (text v)) as H.
  destruct (UnmarshalJSON cur (text v)) as [t [e | ]]; exact H.
Qed.

Section Decoders.

Variable lib : Lib.

Lemma keeps_Build_member k : keeps buildInRange (Build_member lib k).
Proof.
  intros v b d [Hs Hf]. unfold Build_member.
  destruct (findField lib Build_fields k) as [[ | [ | [ | [ | [ | [ | n]]]]]] | ];
    try (split; assumption).
  - destruct (d_uint64 v (Build_ID b) d). split; assumption.
  - destruct (d_string lib v (BuildTypeID b) d). split; assumption.
  - destruct (d_string lib v (Status b) d). split; assumption.
  - destruct (d_string lib v (State b) d). split; assumption.
  - pose proof (time_inRange v (StartDate b) d) as H.
    destruct (d_time v (StartDate b) d). split; [exact H | exact Hf].
  - pose proof (time_inRange v (FinishDate b) d) as H.
    destruct (d_time v (FinishDate b) d). split; [exact Hs | exact H].
Qed.

Lemma keeps_Build : keeps buildInRange (d_Build lib).
Proof. apply keeps_struct, keeps_Build_member. Qed.

Lemma Build_zero_inRange : buildInRange Build_zero.
Proof.
  split; unfold timeInRange; cbn;
    unfold GoTime.internalToUnix, GoTime.unixToInternal; lia.
Qed.

Lemma keeps_BuildResponse_member k : keeps pageInRange (BuildResponse_member lib k).
Proof.
  intros v r d Hr. unfold BuildResponse_member.
  destruct (findField lib BuildResponse_fields k) as [[ | [ | [ | [ | [ | n]]]]] | ];
    try exact Hr.
  - destruct (d_uint64 v (BR_Count r) d). exact Hr.
  - destruct (d_string lib v (BR_HRef r) d). exact Hr.
  - destruct (d_string lib v (BR_NextHRef r) d). exact Hr.
  - destruct (d_string lib v (BR_PrevHRef r) d). exact Hr.
  - pose proof (keeps_slice buildInRange "[]main.Build" (d_Build lib) Build_zero
                  keeps_Build Build_zero_inRange v (Builds r) d Hr) as H.
    destruct (d_slice "[]main.Build" (d_Build lib) Build_zero v (Builds r) d).
    exact H.
Qed.

Lemma Unmarshal_inRange body :
  pageInRange (fst (Unmarshal (d_BuildResponse lib) body BuildResponse_zero)).
Proof.
  unfold Unmarshal. destruct body as [doc | ]; [ | constructor].
  pose proof (keeps_struct pageInRange "main.BuildResponse" _
                keeps_BuildResponse_member doc BuildResponse_zero dstate0
                ltac:(constructor)) as H.
  fold (d_BuildResponse lib) in H.
  destruct (d_BuildResponse lib doc BuildResponse_zero dstate0). exact H.
Qed.

End Decoders.

End DecodeKeeps.


(** ** The range of the decoded timestamps *)



(** ** The decimal labels *)

Module Decimal.

Lemma code_digit d : 0 <= d <= 9 -> Str.code (Str.digit d) = 48 + d.
Proof.
  intros Hd.
  assert (Hc : d = 0 \/ d = 1 \/ d = 2 \/ d = 3 \/ d = 4 \/ d = 5 \/ d = 6 \/ d = 7
               \/ d = 8 \/ d = 9) by lia.
  repeat (destruct Hc as [-> | Hc]; [reflexivity | ]). subst d. reflexivity.
Qed.

Lemma digitsValue_digit d rest acc :
  0 <= d <= 9 ->
  Json.digitsValue (String (Str.digit d) rest) acc = Json.digitsValue rest (acc * 10 + d).
Proof.
  intros Hd. cbn [Json.digitsValue]. rewrite (code_digit d Hd).
  replace (48 <=? 48 + d) with true by (symmetry; apply Z.leb_le; lia).
  replace (48 + d <=? 57) with true by (symmetry; apply Z.leb_le; lia).
  cbn [andb]. f_equal. lia.
Qed.

(** Reading back what [utoa_aux] has written in front of [rest]. *)
Lemma digitsValue_utoa fuel :
  forall u rest,
    0 <= u < 10 ^ Z.of_nat fuel ->
    exists k,
      0 <= k /\
      forall acc,
        Json.digitsValue (Str.utoa_aux fuel u rest) acc
        = Json.digitsValue rest (acc * 10 ^ k + u).
Proof.
  induction fuel as [ | fuel IH]; intros u rest Hu.
  - cbn in Hu. exists 0. split; [lia | ]. intro acc. cbn [Str.utoa_aux].
    f_equal. rewrite Z.pow_0_r. lia.
  - cbn [Str.utoa_aux].
    pose proof (Z.div_mod u 10 ltac:(lia)) as Hdm.
    pose proof (Z.mod_pos_bound u 10 ltac:(lia)) as Hm.
    destruct (Z.ltb_spec u 10) as [Hlt | Hge].
    + exists 1. split; [lia | ]. intro acc.
      rewrite digitsValue_digit by lia. f_equal.
      rewrite Z.mod_small by lia. rewrite Z.pow_1_r. reflexivity.
    + rewrite Nat2Z.inj_succ, Z.pow_succ_r in Hu by lia.
      destruct (IH (u / 10) (String (Str.digit (u mod 10)) rest)) as (k & Hk & Hread).
      { split; [apply Z.div_pos; lia | apply Z.div_lt_upper_bound; lia]. }
      exists (k + 1). split; [lia | ]. intro acc.
      rewrite Hread, digitsValue_digit by lia. f_equal.
      rewrite Z.pow_add_r, Z.pow_1_r by lia. lia.
Qed.

Lemma utoa_aux_nonempty fuel :
  forall u acc,
    (fuel <> 0%nat \/ acc <> EmptyString) -> Str.utoa_aux fuel u acc <> EmptyString.
Proof.
  induction fuel as [ | fuel IH]; intros u acc H.
  - cbn. destruct H as [H | H]; [contradiction H; reflexivity | exact H].
  - cbn [Str.utoa_aux]. destruct (u <? 10); [discriminate | ].
    apply IH. right. discriminate.
Qed.

Lemma ParseUint_utoa n :
  0 <= n < GoTime.two64 -> Json.ParseUint (Str.utoa n) = Some n.
Proof.
  intros Hn. unfold Json.ParseUint.
  assert (Hne : Str.utoa n <> EmptyString)
    by (apply utoa_aux_nonempty; left; discriminate).
  destruct (digitsValue_utoa 20 n EmptyString) as (k & Hk & Hread).
  { unfold GoTime.two64 in Hn. change (10 ^ Z.of_nat 20) with 100000000000000000000.
    lia. }
  fold (Str.utoa n) in Hread.
  destruct (Str.utoa n) as [ | c r] eqn:E; [contradiction Hne; reflexivity | ].
  rewrite Hread. cbn [Json.digitsValue].
  replace (0 * 10 ^ k + n) with n by lia.
  replace (n <? GoTime.two64) with true by (symmetry; apply Z.ltb_lt; lia).
  reflexivity.
Qed.

End Decimal.

(** X19: the decimal label of an identifier reads back as the identifier:
    [strconv.ParseUint] of what [fmt.Sprintf("%d", id)] writes is [id],
    for every uint64.  Hence builds (or agents) with different
    identifiers never get the same label values. *)
Theorem id_label_reads_back :
  forall (d1 d2 d3 d4 : Desc) (identifier : string) (b1 b2 : Build) (m1 m2 : Metric),
    0 <= Build_ID b1 < GoTime.two64 ->
    0 <= Build_ID b2 < GoTime.two64 ->
    In (Send m1) (buildGauges d1 d2 d3 d4 identifier b1) ->
    In (Send m2) (buildGauges d1 d2 d3 d4 identifier b2) ->
    Json.ParseUint (nth 2 (labelValues m1) EmptyString) = Some (Build_ID b1) /\
    (Build_ID b1 <> Build_ID b2 -> labelValues m1 <> labelValues m2).
Proof.
  intros d1 d2 d3 d4 identifier b1 b2 m1 m2 H1 H2 Hin1 Hin2.
  assert (Hl : forall b m,
             In (Send m) (buildGauges d1 d2 d3 d4 identifier b) ->
             labelValues m = [identifier; BuildTypeID b; Str.utoa (Build_ID b)]).
  { intros b m Hin. unfold buildGauges in Hin. cbv zeta in Hin.
    destruct Hin as [E | [E | [E | [E | []]]]]; injection E as <-; reflexivity. }
  rewrite (Hl b1 m1 Hin1), (Hl b2 m2 Hin2). cbn [nth].
  split; [exact (Decimal.ParseUint_utoa _ H1) | ].
  intros Hne E. injection E as _ E. apply Hne.
  pose proof (Decimal.ParseUint_utoa _ H1) as P1.
  pose proof (Decimal.ParseUint_utoa _ H2) as P2.
  rewrite E in P1. rewrite P1 in P2. injection P2 as P2. exact P2.
Qed.

(** ** A fractional second in the text *)

Module Fraction.

Import GoTime Calendar CalendarFacts.

Lemma fracLen_digits f c rest :
  allDigits f = true ->
  (48 <=? Str.code c) && (Str.code c <=? 57) = false ->
  fracLen (f +++ String c rest) = String.length f.
Proof.
  intros Hf Hc. induction f as [ | a r IH].
  - cbn [append fracLen]. rewrite Hc. reflexivity.
  - cbn [allDigits] in Hf. apply andb_prop in Hf. destruct Hf as [Ha Hr].
    cbn [append fracLen String.length]. rewrite Ha, (IH Hr). reflexivity.
Qed.

Lemma take_app k f rest :
  (k <= String.length f)%nat -> Str.take k (f +++ rest) = Str.take k f.
Proof.
  revert f. induction k as [ | k IH]; intros f Hk.
  - destruct f, rest; reflexivity.
  - destruct f as [ | a r]; [cbn in Hk; lia | ].
    cbn [append Str.take]. rewrite IH; [reflexivity | cbn in Hk; lia].
Qed.

Lemma drop_app f rest : Str.drop (String.length f) (f +++ rest) = rest.
Proof.
  induction f as [ | a r IH]; [destruct rest; reflexivity | exact IH].
Qed.

Lemma allDigits_take k f : allDigits f = true -> allDigits (Str.take k f) = true.
Proof.
  revert f. induction k as [ | k IH]; intros f Hf; [destruct f; reflexivity | ].
  destruct f as [ | a r]; [reflexivity | ].
  cbn [allDigits] in Hf. apply andb_prop in Hf. destruct Hf as [Ha Hr].
  cbn [Str.take allDigits]. rewrite Ha, (IH r Hr). reflexivity.
Qed.

Lemma length_take_le k f :
  (k <= String.length f)%nat -> String.length (Str.take k f) = k.
Proof.
  revert f. induction k as [ | k IH]; intros f Hk; [destruct f; reflexivity | ].
  destruct f as [ | a r]; [cbn in Hk; lia | ].
  cbn [Str.take String.length]. rewrite IH; [reflexivity | cbn in Hk; lia].
Qed.

(** [leadingInt] reads a short text of digits to its end. *)
Lemma leadingInt_aux_digits ds :
  allDigits ds = true ->
  forall x,
    0 <= x ->
    (x + 1) * 10 ^ Z.of_nat (String.length ds) <= 10 ^ 18 ->
    exists q, leadingInt_aux ds x = Some (q, EmptyString).
Proof.
  induction ds as [ | c r IH]; intros Hds x Hx Hb.
  - exists x. reflexivity.
  - cbn [allDigits] in Hds. apply andb_prop in Hds. destruct Hds as [Hc Hr].
    cbn [leadingInt_aux]. rewrite Hc.
    pose proof (ParseBounds.digitVal_range c Hc) as Hd.
    cbn [String.length] in Hb. rewrite Nat2Z.inj_succ, Z.pow_succ_r in Hb by lia.
    assert (Hp : 1 <= 10 ^ Z.of_nat (String.length r))
      by (apply (Z.pow_le_mono_r 10 0); lia).
    change (10 ^ 18) with 1000000000000000000 in Hb.
    unfold two64.
    change (18446744073709551616 / 2 / 10) with 922337203685477580.
    change (18446744073709551616 / 2) with 9223372036854775808.
    assert (Hx18 : (x + 1) * 10 <= 1000000000000000000) by nia.
    replace (922337203685477580 <? x) with false by (symmetry; apply Z.ltb_ge; lia).
    replace (9223372036854775808 <? x * 10 + digitVal c) with false
      by (symmetry; apply Z.ltb_ge; lia).
    apply (IH Hr); [lia | ].
    change (10 ^ 18) with 1000000000000000000. nia.
Qed.

Lemma atoi_digits c r :
  allDigits (String c r) = true ->
  (String.length (String c r) <= 17)%nat ->
  exists a, atoi (String c r) = inr a /\ 0 <= a.
Proof.
  intros Hds Hlen.
  assert (Hd : isDigit (String c r) 0 = true).
  { cbn [allDigits] in Hds. apply andb_prop in Hds. destruct Hds as [Hc _]. exact Hc. }
  destruct (leadingInt_aux_digits (String c r) Hds 0 ltac:(lia)) as [q Hq].
  { rewrite Z.add_0_l, Z.mul_1_l. apply Z.pow_le_mono_r; lia. }
  assert (Ha : atoi (String c r) = inr (to_int64 q)).
  { unfold atoi.
    assert (Hm : Ascii.eqb c "-" = false).
    { destruct (Ascii.eqb_spec c "-") as [-> | ]; [discriminate | reflexivity]. }
    assert (Hp : Ascii.eqb c "+" = false).
    { destruct (Ascii.eqb_spec c "+") as [-> | ]; [discriminate | reflexivity]. }
    rewrite Hm, Hp. unfold leadingInt. rewrite Hq. reflexivity. }
  exists (to_int64 q). split; [exact Ha | ].
  exact (ParseBounds.atoi_digit_nonneg (String c r) (to_int64 q) ltac:(lia) Hd Ha).
Qed.

(** The seconds chunk with a fraction after it: the fraction is read up
    to the sign of the zone and gives the nanoseconds. *)
Lemma stdZeroSecond_fraction s sep f0 fr (neg : bool) rest :
  0 <= s < 60 ->
  commaOrPeriod sep = true ->
  allDigits (String f0 fr) = true ->
  exists ns,
    0 <= ns < 1000000000 /\
    stdZeroSecond (twoDigits s +++ String sep (String f0 fr
                     +++ (if neg then "-" else "+") +++ rest))
    = inr (s, ns, (if neg then "-" else "+") +++ rest).
Proof.
  intros Hs Hsep Hf. unfold stdZeroSecond.
  rewrite twoDigits_getnum by lia. rewrite bind_inr.
  replace ((s <? 0) || (60 <=? s)) with false
    by (symmetry; apply orb_false_intro; [apply Z.ltb_ge | apply Z.leb_gt]; lia).
  rewrite check_false, bind_inr.
  set (zone := (if neg then "-" else "+") +++ rest).
  set (value := String sep (String f0 fr +++ zone)).
  assert (Hzone : exists c r, zone = String c r /\
                              (48 <=? Str.code c) && (Str.code c <=? 57) = false).
  { unfold zone. destruct neg; cbn [append]; eexists _, _; split; reflexivity. }
  destruct Hzone as (zc & zr & Hz & Hzc).
  assert (Hlen : fracLen (fr +++ zone) = String.length fr).
  { rewrite Hz. apply fracLen_digits; [ | exact Hzc].
    cbn [allDigits] in Hf. apply andb_prop in Hf. apply Hf. }
  assert (H0 : (48 <=? Str.code f0) && (Str.code f0 <=? 57) = true).
  { cbn [allDigits] in Hf. apply andb_prop in Hf. apply Hf. }
  assert (Hcond : (2 <=? Str.len value) && commaOrPeriod sep && isDigit value 1 = true).
  { rewrite Hsep. unfold value. cbn [append]. rewrite ParseBounds.isDigit_1, ParseBounds.isDigit_0, H0.
    unfold Str.len. cbn [String.length].
    replace (2 <=? Z.of_nat (S (S (String.length (fr +++ zone))))) with true
      by (symmetry; apply Z.leb_le; lia).
    reflexivity. }
  assert (Hpn : exists ns, parseNanoseconds value (S (S (String.length fr))) = inr ns).
  { unfold parseNanoseconds, value. rewrite Hsep. cbn [negb].
    set (n := S (S (String.length fr))).
    set (nb := if (10 <? n)%nat then 10%nat else n).
    assert (Hnb : (2 <= nb <= 10)%nat /\ (nb <= n)%nat).
    { unfold nb, n. destruct (Nat.ltb_spec 10 (S (S (String.length fr)))); lia. }
    destruct nb as [ | [ | k]] eqn:Enb; [lia | lia | ].
    cbn [Str.take Str.drop append].
    rewrite take_app by (unfold n in Hnb; lia).
    pose proof (allDigits_take (S k) _ Hf) as Htd.
    pose proof (length_take_le (S k) (String f0 fr)
                  ltac:(unfold n in Hnb; cbn [String.length]; lia)) as Htl.
    cbn [Str.take String.length] in Htd, Htl.
    assert (H17 : (String.length (String f0 (Str.take k fr)) <= 17)%nat)
      by (cbn [String.length]; lia).
    destruct (atoi_digits f0 (Str.take k fr) Htd H17) as (a & Ha & Ha0).
    rewrite Ha, bind_inr.
    replace (a <? 0) with false by (symmetry; apply Z.ltb_ge; lia).
    eexists. reflexivity. }
  destruct Hpn as [ns Hpn].
  exists ns. split.
  - apply (ParseBounds.parseNanoseconds_range value (S (S (String.length fr))) ns);
      [lia | exact Hpn].
  - unfold value in Hcond, Hpn |- *. cbn [append] in Hcond, Hpn |- *. rewrite Hcond.
    cbn [fracLen]. rewrite H0, Hlen, Hpn, bind_inr. f_equal. f_equal.
    cbn [Str.drop]. apply drop_app.
Qed.

End Fraction.

Module FractionParse.

Import GoTime Calendar CalendarFacts.

Lemma lastNot_app c a b :
  b <> EmptyString -> lastNot c (a +++ b) = lastNot c b.
Proof.
  intros Hb. induction a as [ | y a IH]; [reflexivity | ].
  cbn [append]. rewrite <- IH.
  destruct (a +++ b) eqn:E; [ | reflexivity].
  destruct a; [contradiction | discriminate].
Qed.

Lemma Parse_fraction year m dd h mi s (neg : bool) zh zm sep f0 fr :
  0 <= year < 10000 -> 1 <= m <= 12 -> 1 <= dd <= daysIn m year ->
  0 <= h < 24 -> 0 <= mi < 60 -> 0 <= s < 60 -> 0 <= zh <= 24 -> 0 <= zm < 60 ->
  commaOrPeriod sep = true ->
  allDigits (String f0 fr) = true ->
  exists ns,
    0 <= ns < 1000000000 /\
    Parse (fourDigits year +++ twoDigits m +++ twoDigits dd +++ "T"
             +++ twoDigits h +++ twoDigits mi +++ twoDigits s
             +++ String sep (String f0 fr
                   +++ (if neg then "-" else "+") +++ twoDigits zh +++ twoDigits zm))
    = let zo := if neg then - ((zh * 60 + zm) * 60) else (zh * 60 + zm) * 60 in
      let t := Date year m dd h mi s 0 in
      inr (mkTime (to_int64 (unixSec t - zo)) ns zo).
Proof.
  intros Hy Hm Hdd Hh Hmi Hs Hzh Hzm Hsep Hf.
  destruct (Fraction.stdZeroSecond_fraction s sep f0 fr neg
              (twoDigits zh +++ twoDigits zm) Hs Hsep Hf) as (ns & Hns & Hsec).
  exists ns. split; [exact Hns | ].
  pose proof (DateBounds.daysIn_le year m Hm) as H31.
  unfold Parse.
  rewrite stdLongYear_digits by lia. rewrite bind_inr. cbv beta iota.
  rewrite stdZeroMonth_digits by lia. rewrite bind_inr. cbv beta iota.
  rewrite stdZeroDay_digits by lia. rewrite bind_inr. cbv beta iota.
  match goal with
  | |- context [prefixT ("T" +++ ?r)] =>
      replace (prefixT ("T" +++ r)) with (inr r : res string) by reflexivity
  end.
  rewrite bind_inr.
  rewrite stdHour_digits by lia. rewrite bind_inr. cbv beta iota.
  rewrite stdZeroMinute_digits by lia. rewrite bind_inr. cbv beta iota.
  rewrite Hsec. rewrite bind_inr. cbv beta iota.
  rewrite parseNumTZ_digits by lia. rewrite bind_inr. cbv beta iota.
  replace (negb (Str.len EmptyString =? 0)) with false by reflexivity.
  rewrite check_false, bind_inr.
  replace ((dd <? 1) || (daysIn m year <? dd)) with false
    by (symmetry; apply orb_false_intro; [apply Z.ltb_ge | apply Z.ltb_ge]; lia).
  rewrite check_false, bind_inr.
  cbv zeta.
  replace ((if neg then - ((zh * 60 + zm) * 60) else (zh * 60 + zm) * 60) =? -1)
    with false by (symmetry; apply Z.eqb_neq; destruct neg; lia).
  rewrite (DateBounds.Date_nsec year m dd h mi s ns Hns). reflexivity.
Qed.

End FractionParse.


(** ** The theorems on the example servers *)

(** Examples of the ordinals. *)
Example build_state_examples :
  map ParseBuildState ["queued"; "finished"; "running"; "deleted"; "QUEUED"; EmptyString]
  = [1; 2; 3; 4; 0; 0].
Proof. reflexivity. Qed.

(** C7: the collector that main registers has an empty [Describe]: it
    sends none of its six descriptors.  The [Describe] of each of the
    other three collectors sends all of its descriptors. *)
Theorem registered_Describe_sends_nothing :
  Describe registered = [] /\
  Describe Projects.NewTeamCityProjectsCollector
    = [Projects.buildTypes Projects.NewTeamCityProjectsCollector;
       Projects.projects Projects.NewTeamCityProjectsCollector] /\
  Describe Builds.NewTeamCityBuildsCollector
    = [Builds.buildFinishTime Builds.NewTeamCityBuildsCollector;
       Builds.buildStartTime Builds.NewTeamCityBuildsCollector;
       Builds.buildState Builds.NewTeamCityBuildsCollector;
       Builds.buildStatus Builds.NewTeamCityBuildsCollector] /\
  Describe Agents.NewTeamCityAgentCollector
    = [Agents.agentAuthorized Agents.NewTeamCityAgentCollector;
       Agents.agentConnected Agents.NewTeamCityAgentCollector;
       Agents.agentEnabled Agents.NewTeamCityAgentCollector;
       Agents.agentCurrentBuildId Agents.NewTeamCityAgentCollector].
Proof. repeat split. Qed.

(** C2 on a page with one build and a next page. *)
Lemma page_sent_before_fatal_witness :
  exists evs,
    Metrics.collectProjectBuildMetrics Demo.pagedWorld registered "Demo"
    = (evs, Exit) /\
    List.length (filter isSend evs) = 4%nat.
Proof.
  eexists. split.
  - apply (page_sent_before_fatal Demo.pagedWorld registered "Demo"
             (mkResponse 200 (mkBody (Some Demo.pagedDoc) None))
             (Some Demo.pagedDoc) Demo.pagedBuilds).
    + reflexivity.
    + reflexivity.
    + vm_compute. discriminate.
    + reflexivity.
    + vm_compute. reflexivity.
    + vm_compute. discriminate.
  - vm_compute. reflexivity.
Defined.

(** C1 as stated fails on a page of two builds whose first build has a
    malformed start date: no gauge is sent, neither the status and state
    of that build nor any gauge of the second build. *)
Lemma malformed_timestamp_counterexample :
  Decode.hasMalformedTimestamp Demo.lib Demo.badDoc /\
  Metrics.collectProjectBuildMetrics Demo.badWorld registered "Demo"
  = ([], Return (Some (ParseError GoTime.errBad "2023-11-05T13:45:01+01:00"))).
Proof.
  split; [ | vm_compute; reflexivity].
  exists [("count", Json.Number "2"); ("build", Json.Array [Demo.badBuild; Demo.goodBuild])],
    "build", [Demo.badBuild; Demo.goodBuild].
  eexists _, "startDate", (Json.Str "2023-11-05T13:45:01+01:00").
  split; [reflexivity | ].
  split; [right; left; reflexivity | ].
  split; [reflexivity | ].
  split; [left; reflexivity | ].
  split; [unfold Demo.badBuild; do 4 right; left; reflexivity | ].
  split; [left; reflexivity | ].
  exists GoTime.errBad. vm_compute. reflexivity.
Qed.

(** The amended C1 on the same page. *)
Lemma malformed_timestamp_witness :
  exists pe txt,
    Metrics.collectProjectBuildMetrics Demo.badWorld registered "Demo"
    = ([], Return (Some (ParseError pe txt))).
Proof.
  destruct (malformed_timestamp_fails_the_page Demo.badWorld registered "Demo"
              (mkResponse 200 (mkBody (Some Demo.badDoc) None)) Demo.badDoc)
    as (pe & txt & H & _).
  - reflexivity.
  - reflexivity.
  - vm_compute. discriminate.
  - reflexivity.
  - exists [("count", Json.Number "2");
            ("build", Json.Array [Demo.badBuild; Demo.goodBuild])],
      "build", [Demo.badBuild; Demo.goodBuild].
    eexists _, "startDate", (Json.Str "2023-11-05T13:45:01+01:00").
    split; [reflexivity | ].
    split; [right; left; reflexivity | ].
    split; [reflexivity | ].
    split; [left; reflexivity | ].
    split; [unfold Demo.badBuild; do 4 right; left; reflexivity | ].
    split; [left; reflexivity | ].
    exists GoTime.errBad. vm_compute. reflexivity.
  - exists pe, txt. exact H.
Defined.

(** C5 on 2023-11-05 13:45:01 +01:00. *)
Lemma timestamp_roundtrip_witness :
  UnmarshalJSON TeamCityTime_zero (Json.quote (GoTime.Format Demo.sampleTime))
  = (mkTeamCityTime Demo.sampleTime, None).
Proof.
  apply (timestamp_roundtrip Demo.sampleTime TeamCityTime_zero).
  - vm_compute. split; [discriminate | reflexivity].
  - reflexivity.
  - vm_compute. split; discriminate.
  - reflexivity.
  - vm_compute. split; discriminate.
Defined.

(** C5 as stated fails in the year 10000: the year is written with five
    digits, and the decoder reads four of them as the year and "00" as the
    month. *)
Lemma timestamp_roundtrip_counterexample :
  GoTime.nsec Demo.year10000 = 0 /\
  GoTime.Format Demo.year10000 = "100000101T000000+0000" /\
  UnmarshalJSON TeamCityTime_zero (Json.quote (GoTime.Format Demo.year10000))
  = (TeamCityTime_zero,
     Some (ParseError (GoTime.errRange "month") "100000101T000000+0000")).
Proof. repeat split; vm_compute; reflexivity. Qed.



(** C10 on an agents list with a next page. *)
Lemma agents_fatal_before_send_witness :
  exists evs,
    Agents.Collect Demo.agentsWorld Agents.NewTeamCityAgentCollector
    = (evs ++ [Log FatalLevel [] (LStr "multipage requests are not yet supported")],
       Exit) /\
    filter isSend evs = [].
Proof.
  apply (agents_fatal_before_send Demo.agentsWorld Agents.NewTeamCityAgentCollector
           (mkResponse 200 (mkBody (Some Demo.agentsDoc) None)) None
           Demo.pagedAgents None).
  - reflexivity.
  - reflexivity.
  - vm_compute. discriminate.
  - vm_compute. reflexivity.
  - vm_compute. discriminate.
Defined.

Lemma tree_acyclic : Traversal.acyclic Demo.treeWorld Demo.treeRank.
Proof.
  intros id p c Hget Hin. cbn in Hget. unfold Demo.tree in Hget.
  destruct (String.eqb_spec id "_Root") as [-> | Hroot].
  - inversion Hget; subst p. cbn in Hin.
    destruct Hin as [<- | [<- | []]]; cbn; lia.
  - destruct (String.eqb id "A"); [inversion Hget; subst p; destruct Hin | ].
    destruct (String.eqb id "B"); [inversion Hget; subst p; destruct Hin | ].
    discriminate.
Defined.


(** The traversal of projects.go on the example tree, and on the same tree
    with a count that is too large and with one that is too small. *)
Example tree_traversal :
  exists evs,
    Projects.collectProjectMetrics Demo.treeWorld Projects.NewTeamCityProjectsCollector
      2 "_Root" = Some (evs, Return None) /\
    List.length (filter isSend evs) = 6%nat /\
    Traversal.noWait evs.
Proof.
  eexists. split; [vm_compute; reflexivity | ].
  split; [reflexivity | ].
  repeat (apply Forall_cons; [exact I | ]). constructor.
Qed.

Example count_too_large :
  exists evs,
    Projects.collectProjectMetrics (Demo.miscounted 3)
      Projects.NewTeamCityProjectsCollector 2 "_Root" = Some (evs, Blocked) /\
    In (WaitsForever "_Root") evs.
Proof.
  eexists. split; [vm_compute; reflexivity | ].
  repeat first [left; reflexivity | right].
Qed.

Example count_too_small :
  exists evs,
    Projects.collectProjectMetrics (Demo.miscounted 1)
      Projects.NewTeamCityProjectsCollector 2 "_Root"
    = Some (evs, Panic NegativeWaitGroupCounter).
Proof. eexists. vm_compute. reflexivity. Qed.

(** The boolean flags of an agent as gauges. *)
Example agent_flag_gauges :
  map (fun e => match e with Send m => value m | _ => -1 end)
    (Agents.agentGauges Agents.NewTeamCityAgentCollector
       (mkAgent 3 "agent-3" true false true Build_zero))
  = [1; 0; 1; 0].
Proof. reflexivity. Qed.

(** ** The further theorems on the example servers *)

Lemma builds_error_sends_nothing_witness :
  fst (Metrics.collectProjectBuildMetrics Demo.badWorld registered "Demo") = [].
Proof.
  apply (builds_error_sends_nothing Demo.badWorld registered "Demo"
           (ParseError GoTime.errBad "2023-11-05T13:45:01+01:00")).
  vm_compute. reflexivity.
Defined.

Lemma builds_transport_error_returned_witness :
  Metrics.collectProjectBuildMetrics Demo2.redirectWorld registered "Demo"
  = ([], Return (Some Demo2.redirectError)).
Proof.
  apply (builds_transport_error_returned Demo2.redirectWorld registered "Demo"
           (Some (mkResponse 302 (mkBody None None))) Demo2.redirectError);
    reflexivity.
Defined.

Lemma builds_exit_only_on_next_page_witness :
  exists response builds,
    Do Demo.pagedWorld (buildsRequest Demo.pagedWorld "Demo") = (Some response, None) /\
    StatusCode response <> StatusNotFound /\
    readErr (ResponseBody response) = None /\
    Json.Unmarshal (Json.d_BuildResponse (jsonLib Demo.pagedWorld))
      (content (ResponseBody response)) BuildResponse_zero = (builds, None) /\
    BR_NextHRef builds <> EmptyString.
Proof.
  apply (builds_exit_only_on_next_page Demo.pagedWorld registered "Demo").
  vm_compute. reflexivity.
Defined.

Lemma last_page_sent_and_returned_witness :
  exists evs,
    Metrics.collectProjectBuildMetrics Demo2.lastWorld registered "Demo"
    = (evs, Return None) /\
    List.length (filter isSend evs) = 8%nat.
Proof.
  eexists. split.
  - apply (last_page_sent_and_returned Demo2.lastWorld registered "Demo"
             (mkResponse 200 (mkBody (Some Demo2.lastDoc) None))
             (Some Demo2.lastDoc) Demo2.lastBuilds).
    + reflexivity.
    + reflexivity.
    + vm_compute. discriminate.
    + reflexivity.
    + vm_compute. reflexivity.
    + vm_compute. reflexivity.
  - vm_compute. reflexivity.
Defined.

Lemma agents_not_found_sends_nothing_witness :
  Agents.Collect Demo.treeWorld Agents.NewTeamCityAgentCollector =
    ([Log InfoLevel [] (LStr "collecting TeamCity agent metrics")], Return None).
Proof.
  apply (agents_not_found_sends_nothing Demo.treeWorld Agents.NewTeamCityAgentCollector
           (mkResponse 404 (mkBody None None)) None); reflexivity.
Defined.

Lemma agents_decode_error_only_logged_witness :
  exists logs,
    Agents.Collect Demo2.mistypedWorld Agents.NewTeamCityAgentCollector =
      (logs ++ flat_map (Agents.agentGauges Agents.NewTeamCityAgentCollector)
                 (live (Agents (fst Demo2.mistypedDecoded))),
       Return None) /\
    filter isSend logs = [] /\
    In (Log ErrorLevel [] (LErr (UnmarshalTypeError "string" "uint64"))) logs.
Proof.
  apply (agents_decode_error_only_logged Demo2.mistypedWorld
           Agents.NewTeamCityAgentCollector
           (mkResponse 200 (mkBody (Some Demo2.mistypedAgents) None))
           (fst Demo2.mistypedDecoded) (UnmarshalTypeError "string" "uint64")).
  - reflexivity.
  - reflexivity.
  - vm_compute. discriminate.
  - vm_compute. reflexivity.
  - vm_compute. reflexivity.
Defined.

Lemma agent_gauges_are_flags_witness :
  let m := MustNewConstMetric (Agents.agentConnected Agents.NewTeamCityAgentCollector)
             1 ["0"; "agent-4"] in
  List.length (labelValues m) = 2%nat /\
  (fqName (desc m) <> "teamcity_agent_current_build_id" -> value m = 0 \/ value m = 1).
Proof.
  apply (agent_gauges_are_flags Demo2.mistypedWorld).
  vm_compute. do 7 right. left. reflexivity.
Defined.

Lemma returned_error_is_of_the_project_witness :
  (GetByID Demo.downWorld "_Root" = inl Demo.notFound /\
   filter isSend
     [Log InfoLevel [("project", LStr "_Root")] (LStr "collecting project")] = []) \/
  exists p,
    GetByID Demo.downWorld "_Root" = inr p /\
    snd (Metrics.collectProjectBuildMetrics Demo.downWorld registered (ID p))
    = Return (Some Demo.notFound) /\
    filter isSend
      [Log InfoLevel [("project", LStr "_Root")] (LStr "collecting project")] =
      [Send (MustNewConstMetric (Metrics.projects registered)
               (Count (ChildProjects p)) [ID p]);
       Send (MustNewConstMetric (Metrics.buildTypes registered)
               (BuildTypes_Count p) [ID p])].
Proof.
  apply (returned_error_is_of_the_project Demo.downWorld registered 1 "_Root").
  reflexivity.
Defined.


Lemma root_failure_gives_empty_scrape_witness :
  Metrics.Collect Demo.downWorld 1 registered =
    Some ([Log InfoLevel [] (LStr "collecting TeamCity metrics");
           Log InfoLevel [("project", LStr "_Root")] (LStr "collecting project");
           Log ErrorLevel [] (LErr Demo.notFound)],
          Return None).
Proof.
  apply (root_failure_gives_empty_scrape Demo.downWorld registered 0 Demo.notFound).
  reflexivity.
Defined.

Lemma registered_gauges_well_labelled_witness :
  exists evs,
    Metrics.Collect Demo.treeWorld 2 registered = Some (evs, Return None) /\
    Forall wellLabelled evs.
Proof.
  eexists. split; [vm_compute; reflexivity | ].
  apply (registered_gauges_well_labelled Demo.treeWorld 2 _ (Return None)).
  vm_compute. reflexivity.
Defined.

Lemma reached_projects_are_counted_witness :
  exists evs,
    Metrics.collectProjectMetrics Demo.treeWorld registered 2 "_Root"
    = Some (evs, Return None) /\
    In (Send (MustNewConstMetric (Metrics.projects registered) 0 ["B"])) evs /\
    In (Send (MustNewConstMetric (Metrics.buildTypes registered) 0 ["B"])) evs.
Proof.
  eexists. split; [vm_compute; reflexivity | ].
  apply (reached_projects_are_counted Demo.treeWorld registered 2 "_Root" _ (Return None)
           ltac:(vm_compute; reflexivity) I "B" (Demo.leaf "B")).
  - apply (Traversal.reaches_child _ _ "_Root" Demo.rootProject
             (mkProjectReference "B") "B").
    + reflexivity.
    + vm_compute. reflexivity.
    + right. left. reflexivity.
    + apply Traversal.reaches_self.
  - reflexivity.
Defined.



Lemma absent_date_is_year_one_witness :
  In (Send (MustNewConstMetric (Metrics.buildFinishTime registered) (-62135596800)
              ["Demo"; "Demo_Build"; "9"]))
     (buildGauges (Metrics.buildStartTime registered) (Metrics.buildFinishTime registered)
        (Metrics.buildState registered) (Metrics.buildStatus registered) "Demo"
        (fst (Json.d_Build Demo.lib (Json.Object Demo2.runningMembers) Build_zero
                Json.dstate0))).
Proof.
  apply (proj2 (absent_date_is_year_one Demo.lib Demo2.runningMembers Json.dstate0
                  (Metrics.buildStartTime registered) (Metrics.buildFinishTime registered)
                  (Metrics.buildState registered) (Metrics.buildStatus registered)
                  "Demo")).
  intros k v [E | [E | [E | [E | [E | []]]]]]; injection E as <- <-;
    vm_compute; discriminate.
Defined.

Lemma null_timestamp_fails_the_page_witness :
  exists pe txt,
    Metrics.collectProjectBuildMetrics Demo2.nullWorld registered "Demo"
    = ([], Return (Some (ParseError pe txt))).
Proof.
  apply (null_timestamp_fails_the_page Demo2.nullWorld registered "Demo"
           (mkResponse 200 (mkBody (Some Demo2.nullDoc) None))
           [("count", Json.Number "2");
            ("build", Json.Array [Demo.goodBuild; Json.Object Demo2.nullMembers])]
           "build" [Demo.goodBuild; Json.Object Demo2.nullMembers]
           Demo2.nullMembers "finishDate").
  - reflexivity.
  - reflexivity.
  - vm_compute. discriminate.
  - reflexivity.
  - right. left. reflexivity.
  - reflexivity.
  - right. left. reflexivity.
  - do 5 right. left. reflexivity.
  - right. reflexivity.
Defined.

Lemma siblings_send_what_they_describe_witness :
  In (NewDesc "teamcity_projects_total"
        "The total number of subprojects for a TeamCity project." ["project_id"])
     (Projects.Describe Projects.NewTeamCityProjectsCollector).
Proof.
  apply (proj1 (siblings_send_what_they_describe Demo.treeWorld 2 Demo2.projectsScrape
                  (Return None)
                  (MustNewConstMetric
                     (NewDesc "teamcity_projects_total"
                        "The total number of subprojects for a TeamCity project."
                        ["project_id"]) 2 ["_Root"])
                  ltac:(vm_compute; do 3 right; left; reflexivity))
           Projects.NewTeamCityProjectsCollector).
  vm_compute. reflexivity.
Defined.

Lemma id_label_reads_back_witness :
  let b := mkBuild 18446744073709551615 "Demo_Build" "SUCCESS" "finished"
             TeamCityTime_zero TeamCityTime_zero in
  let c := mkBuild 8 "Demo_Build" "SUCCESS" "finished"
             TeamCityTime_zero TeamCityTime_zero in
  let d := NewDesc "teamcity_build_state" "The state of a TeamCity build job."
             ["project_id"; "build_type_id"; "build_id"] in
  let m1 := MustNewConstMetric d 2 ["Demo"; "Demo_Build"; "18446744073709551615"] in
  let m2 := MustNewConstMetric d 2 ["Demo"; "Demo_Build"; "8"] in
  Json.ParseUint (nth 2 (labelValues m1) EmptyString) = Some (Build_ID b) /\
  (Build_ID b <> Build_ID c -> labelValues m1 <> labelValues m2).
Proof.
  apply (id_label_reads_back
           (NewDesc "teamcity_build_start_time" "The start time of a TeamCity build job."
              ["project_id"; "build_type_id"; "build_id"])
           (NewDesc "teamcity_build_finish_time" "The finish time of a TeamCity build job."
              ["project_id"; "build_type_id"; "build_id"])
           (NewDesc "teamcity_build_state" "The state of a TeamCity build job."
              ["project_id"; "build_type_id"; "build_id"])
           (NewDesc "teamcity_build_status" "The status of a TeamCity build job."
              ["project_id"; "build_type_id"; "build_id"])
           "Demo").
  - vm_compute. split; [discriminate | reflexivity].
  - vm_compute. split; [discriminate | reflexivity].
  - vm_compute. do 3 right. left. reflexivity.
  - vm_compute. do 3 right. left. reflexivity.
Defined.



Lemma idle_agent_has_build_zero_witness :
  In (Send (MustNewConstMetric
              (Agents.agentCurrentBuildId Agents.NewTeamCityAgentCollector) 0
              ["3"; "agent-3"]))
     (Agents.agentGauges Agents.NewTeamCityAgentCollector
        (fst (Json.d_Agent Demo.lib (Json.Object Demo2.idleMembers) Agent_zero
                Json.dstate0))).
Proof.
  apply (idle_agent_has_build_zero Demo.lib Demo2.idleMembers Json.dstate0
           Agents.NewTeamCityAgentCollector).
  intros k v [E | [E | [E | [E | [E | [E | []]]]]]] Hk; injection E as <- <-;
    try reflexivity; vm_compute in Hk; discriminate.
Defined.
